(** * LocalStack orchestration scripts: a shallow embedding

    The five scripts under [scripts/] are linear sequences of calls to
    external collaborators (processes, an HTTP health endpoint, the
    terminal, the file system).  They are embedded as programs of a small
    state-and-exception monad over a [World]:

    - the collaborators answer through an [Env] of oracles, indexed by the
      number of earlier calls of the same kind, so that a statement
      quantified over every [Env] covers every behaviour of the outside;
    - everything a script does to the outside is appended to a trace of
      [event]s (printed lines, launched commands, HTTP requests, sleeps,
      prompts with their answers, file-system mutations);
    - Python exceptions, [sys.exit] included, are the [Raise] results, and
      [try]/[except]/[finally] are combinators.

    Text is modelled as byte strings: ASCII case mapping and ASCII white
    space are exact, bytes above 127 are left alone.  Paths are the fixed
    locations the scripts derive from [__file__] (taken absolute, as
    Python 3.9 and later provide it) plus the directory of launch. *)

From Stdlib Require Import ZArith List String Ascii Bool Lia DecimalString.
Import ListNotations.

Set Warnings "-register-all".

Open Scope string_scope.
Open Scope Z_scope.

(** ** Python's [str] operations used by the scripts *)

Module PyStr.

Definition NL : string := String "010" "".
Definition TAB : string := String "009" "".

(** [c.lower()] on the ASCII range. *)
Definition lower_ascii (c : ascii) : ascii :=
  let n := nat_of_ascii c in
  if (65 <=? n)%nat && (n <=? 90)%nat then ascii_of_nat (n + 32) else c.

(** [s.lower()] *)
Fixpoint lower (s : string) : string :=
  match s with
  | EmptyString => EmptyString
  | String c rest => String (lower_ascii c) (lower rest)
  end.

(** [needle in hay] *)
Fixpoint contains (needle hay : string) : bool :=
  if prefix needle hay then true
  else match hay with
       | EmptyString => false
       | String _ rest => contains needle rest
       end.

(** [c.isspace()] on the ASCII range: tab, line feed, vertical tab, form
    feed, carriage return, the four separators 28..31 and the space. *)
Definition is_space (c : ascii) : bool :=
  let n := nat_of_ascii c in
  ((9 <=? n)%nat && (n <=? 13)%nat)
  || ((28 <=? n)%nat && (n <=? 32)%nat).

Fixpoint lstrip (s : string) : string :=
  match s with
  | EmptyString => EmptyString
  | String c rest => if is_space c then lstrip rest else s
  end.

(** [rstrip] keeps a character when it is not white space or when
    something remains after it. *)
Fixpoint rstrip (s : string) : string :=
  match s with
  | EmptyString => EmptyString
  | String c rest =>
      match rstrip rest with
      | EmptyString => if is_space c then EmptyString else String c EmptyString
      | r => String c r
      end
  end.

(** [s.strip()] *)
Definition strip (s : string) : string := rstrip (lstrip s).

(** Truth value of a [str]: non-empty. *)
Definition truthy (s : string) : bool :=
  match s with EmptyString => false | _ => true end.

(** [s.split(sep)] for a one-character separator; the accumulator holds
    the current field reversed. *)
Fixpoint split_aux (sep : ascii) (s : string) (cur : string) : list string :=
  match s with
  | EmptyString => [cur]
  | String c rest =>
      if Ascii.eqb c sep then cur :: split_aux sep rest EmptyString
      else split_aux sep rest (cur ++ String c EmptyString)
  end.

Definition split (sep : ascii) (s : string) : list string :=
  split_aux sep s EmptyString.

(** [sep.join(items)] *)
Definition join (sep : string) (items : list string) : string :=
  String.concat sep items.

(** [str(n)] for an [int]. *)
Definition str_of_Z (n : Z) : string :=
  NilEmpty.string_of_int (Z.to_int n).

(** [set(items)] iterated: duplicates dropped, first occurrences kept in
    order (Python leaves the order unspecified; nothing below depends on
    it). *)
Fixpoint dedup (items : list string) : list string :=
  match items with
  | [] => []
  | x :: rest =>
      if existsb (String.eqb x) rest then dedup rest else x :: dedup rest
  end.

End PyStr.

(** ** Paths and the files the scripts touch *)

(** The locations the scripts compute.  [Launch d] is the directory the
    script was started from, which lies outside the project tree. *)
Inductive path : Type :=
| Launch (d : string)
| ProjectRoot
| ComposeFile        (* project_root / "docker-compose.yml" *)
| LocalstackData     (* project_root / "localstack-data" *)
| LambdaDir          (* project_root / "src" / "dotnet" / "SimpleLambda" *)
| LambdaBin          (* LAMBDA_DIR / "bin" *)
| LambdaObj          (* LAMBDA_DIR / "obj" *)
| LambdaPublish      (* LAMBDA_DIR / "publish" *)
| LambdaZip.         (* LAMBDA_DIR / "lambda.zip" *)

(** A directory tree.  [Special] stands for whatever is neither a regular
    file nor a directory (socket, FIFO, dangling link). *)
Inductive node : Type :=
| File (data : string)
| Dir (children : list (string * node))
| Special.

(** A path below a directory, as its components. *)
Definition relpath : Type := list string.

(** What may sit at [lambda.zip]. *)
Inductive zip_node : Type :=
| ZipArchive (entries : list (relpath * string))
| PlainFile (data : string)
| ZipIsDir.

(** The Lambda project directory, by the four names the scripts use. *)
Record lambda_dir : Type := {
  ld_bin : option node;
  ld_obj : option node;
  ld_publish : option node;
  ld_zip : option zip_node
}.

Record FS : Type := {
  fs_compose : bool;                  (* docker-compose.yml exists *)
  fs_data : option node;              (* localstack-data *)
  fs_lambda : option lambda_dir       (* LAMBDA_DIR, when it exists *)
}.

(** ** Collaborators *)

(** What becomes of a launch.  The executable cannot be located; or the
    process runs and exits, leaving its two streams; or the executable is
    found but cannot be started (not executable, wrong format: an
    [OSError] other than [FileNotFoundError]); or the process runs and
    exits, but what it wrote does not decode as text. *)
Inductive proc_outcome : Type :=
| NotFound
| Exited (returncode : Z) (out err : string)
| CannotStart (msg : string)
| Garbled (returncode : Z).

(** [subprocess.CompletedProcess]; the streams are [None] unless captured. *)
Record CompletedProcess : Type := {
  returncode : Z;
  stdout : option string;
  stderr : option string
}.

(** The decoded body of a health response, as far as the scripts look. *)
Inductive json : Type :=
| JNull
| JBool (b : bool)
| JNum (n : Z)
| JStr (s : string)
| JList (items : list json)
| JObj (fields : list (string * json)).

(** Python exceptions the scripts raise, catch or let through. *)
Inductive exn : Type :=
| SystemExit (code : Z)
| CalledProcessError (cmd : list string) (rc : Z) (err : option string)
| FileNotFoundError
| TimeoutExpired
| URLError (reason : string)
| OSError (msg : string)
| TimeoutError
| EOFError
| OtherError (name : string).

(** What [zipf.write] can raise on a regular file: a [ValueError] for a
    modification time the ZIP format cannot hold (before 1980), or the
    [OSError] of a file that cannot be read. *)
Inductive zip_error : Type :=
| OldTimestamp
| Unreadable (msg : string).

Definition exn_of_zip (e : zip_error) : exn :=
  match e with
  | OldTimestamp => OtherError "ValueError"
  | Unreadable msg => OSError msg
  end.

(** What [urlopen] can raise: [URLError] (which covers [HTTPError], the
    statuses from 400 up), another [OSError], a [TimeoutError], or an
    exception outside these families (say [http.client.HTTPException]). *)
Inductive http_error : Type :=
| ConnectionFailed (reason : string)
| SocketError (msg : string)
| SocketTimeout
| ProtocolError (name : string).

Definition exn_of_http (e : http_error) : exn :=
  match e with
  | ConnectionFailed reason => URLError reason
  | SocketError msg => OSError msg
  | SocketTimeout => TimeoutError
  | ProtocolError name => OtherError name
  end.

(** [urlopen] either hands back a response (its status, and the outcome
    of [json.loads(response.read().decode())] should the script ask for
    it: the decoded value, or the name of the exception raised on the
    way) or raises. *)
Inductive http_outcome : Type :=
| Response (status : Z) (body : string + json)
| HttpRaises (e : http_error).

Record Env : Type := {
  env_root : string;                       (* str(project_root) *)
  env_win32 : bool;                        (* sys.platform == "win32" *)
  env_proc : nat -> proc_outcome;          (* the n-th launch *)
  env_effect : nat -> FS -> FS;            (* what that process does to the files *)
  env_overrun : nat -> bool;               (* still running at the caller's time limit *)
  env_http : nat -> http_outcome;          (* the n-th request *)
  env_input : nat -> option string;        (* the n-th line typed; None at end of input *)
  env_rmtree_fails : nat -> option (string * list relpath);
                                           (* the n-th rmtree, if it fails: the error
                                              text and what it had deleted by then *)
  env_zip_fails : nat -> option zip_error  (* the n-th zipf.write, if it fails *)
}.

Inductive event : Type :=
| EvPrint (line : string)
| EvRun (cmd : list string) (check capture : bool) (timeout : option Z)
| EvHttpGet (url : string) (timeout : Z)
| EvSleep (seconds : Z)
| EvInput (prompt : string) (answer : option string)
| EvChdir (dir : path)
| EvRmtree (p : path)
| EvUnlink (p : path)
| EvOpenZip (p : path)
| EvWriteZip (arcname : relpath)
| EvCloseZip (p : path).

Record World : Type := {
  w_env : Env;
  w_fs : FS;
  w_cwd : path;
  w_trace : list event;      (* newest first *)
  w_nproc : nat;
  w_nhttp : nat;
  w_ninput : nat;
  w_nrmtree : nat;
  w_nzip : nat
}.

(** ** The monad of script programs *)

Inductive Result (A : Type) : Type :=
| Ret (a : A)
| Raise (e : exn)
| OutOfFuel.

Arguments Ret {A} a.
Arguments Raise {A} e.
Arguments OutOfFuel {A}.

Definition M (A : Type) : Type := World -> Result A * World.

Definition ret {A} (a : A) : M A := fun w => (Ret a, w).

Definition bind {A B} (m : M A) (k : A -> M B) : M B :=
  fun w =>
    match m w with
    | (Ret a, w') => k a w'
    | (Raise e, w') => (Raise e, w')
    | (OutOfFuel, w') => (OutOfFuel, w')
    end.

Notation "x <- m ;; k" := (bind m (fun x => k))
  (at level 61, m at next level, right associativity).
Notation "m ;; k" := (bind m (fun _ => k))
  (at level 61, right associativity).

Definition raise {A} (e : exn) : M A := fun w => (Raise e, w).

(** [sys.exit(code)] *)
Definition sys_exit {A} (code : Z) : M A := raise (SystemExit code).

Definition out_of_fuel {A} : M A := fun w => (OutOfFuel, w).

(** [try: body except ...: handler]; [handler e] is [None] when no
    [except] clause matches [e]. *)
Definition try_except {A} (body : M A) (handler : exn -> option (M A)) : M A :=
  fun w =>
    match body w with
    | (Raise e, w') =>
        match handler e with
        | Some h => h w'
        | None => (Raise e, w')
        end
    | other => other
    end.

(** [try: body finally: fin]: [fin] runs however [body] ends, and an
    exception of [fin] replaces the outcome of [body]. *)
Definition try_finally {A} (body : M A) (fin : M unit) : M A :=
  fun w =>
    match body w with
    | (OutOfFuel, w') => (OutOfFuel, w')
    | (r, w') =>
        match fin w' with
        | (Ret _, w'') => (r, w'')
        | (Raise e, w'') => (Raise e, w'')
        | (OutOfFuel, w'') => (OutOfFuel, w'')
        end
    end.

(** [for x in items: body x] *)
Fixpoint for_each {A} (items : list A) (body : A -> M unit) : M unit :=
  match items with
  | [] => ret tt
  | x :: rest => body x ;; for_each rest body
  end.

(** The status the interpreter exits with when [main()] ends as [r]. *)
Definition exit_status {A} (r : Result A) : option Z :=
  match r with
  | Ret _ => Some 0
  | Raise (SystemExit code) => Some code
  | Raise _ => Some 1
  | OutOfFuel => None
  end.

(** Exception classes as the [except] clauses test them. *)
Definition is_Exception (e : exn) : bool :=
  match e with SystemExit _ => false | _ => true end.

(** ** Rendering *)

(** [str(p)], with the separator of POSIX systems. *)
Definition path_str (env : Env) (p : path) : string :=
  let root := env_root env in
  let lam := root ++ "/src/dotnet/SimpleLambda" in
  match p with
  | Launch d => d
  | ProjectRoot => root
  | ComposeFile => root ++ "/docker-compose.yml"
  | LocalstackData => root ++ "/localstack-data"
  | LambdaDir => lam
  | LambdaBin => lam ++ "/bin"
  | LambdaObj => lam ++ "/obj"
  | LambdaPublish => lam ++ "/publish"
  | LambdaZip => lam ++ "/lambda.zip"
  end.

(** [repr] of a [str] without quote characters. *)
Fixpoint repr_body (s : string) : string :=
  match s with
  | EmptyString => EmptyString
  | String c rest =>
      (if Ascii.eqb c "009" then "\t"
       else if Ascii.eqb c "010" then "\n"
       else if Ascii.eqb c "013" then "\r"
       else if Ascii.eqb c "\" then "\\"
       else String c EmptyString) ++ repr_body rest
  end.

Definition repr_str (s : string) : string := "'" ++ repr_body s ++ "'".

Definition repr_list (l : list string) : string :=
  "[" ++ PyStr.join ", " (map repr_str l) ++ "]".

(** [str(e)] *)
Definition exn_str (e : exn) : string :=
  match e with
  | SystemExit code => PyStr.str_of_Z code
  | CalledProcessError cmd rc _ =>
      "Command '" ++ repr_list cmd ++ "' returned non-zero exit status "
      ++ PyStr.str_of_Z rc ++ "."
  | FileNotFoundError => "[Errno 2] No such file or directory"
  | TimeoutExpired => "Command timed out"
  | URLError reason => "<urlopen error " ++ reason ++ ">"
  | OSError msg => msg
  | TimeoutError => "timed out"
  | EOFError => "EOF when reading a line"
  | OtherError name => name
  end.

(** ** Primitive operations *)

Definition with_trace (w : World) (e : event) : World :=
  {| w_env := w_env w; w_fs := w_fs w; w_cwd := w_cwd w;
     w_trace := e :: w_trace w;
     w_nproc := w_nproc w; w_nhttp := w_nhttp w; w_ninput := w_ninput w;
     w_nrmtree := w_nrmtree w; w_nzip := w_nzip w |}.

Definition with_fs (w : World) (fs : FS) : World :=
  {| w_env := w_env w; w_fs := fs; w_cwd := w_cwd w;
     w_trace := w_trace w;
     w_nproc := w_nproc w; w_nhttp := w_nhttp w; w_ninput := w_ninput w;
     w_nrmtree := w_nrmtree w; w_nzip := w_nzip w |}.

Definition with_cwd (w : World) (d : path) : World :=
  {| w_env := w_env w; w_fs := w_fs w; w_cwd := d;
     w_trace := w_trace w;
     w_nproc := w_nproc w; w_nhttp := w_nhttp w; w_ninput := w_ninput w;
     w_nrmtree := w_nrmtree w; w_nzip := w_nzip w |}.

Definition tick_proc (w : World) : World :=
  {| w_env := w_env w; w_fs := w_fs w; w_cwd := w_cwd w;
     w_trace := w_trace w;
     w_nproc := S (w_nproc w); w_nhttp := w_nhttp w; w_ninput := w_ninput w;
     w_nrmtree := w_nrmtree w; w_nzip := w_nzip w |}.

Definition tick_http (w : World) : World :=
  {| w_env := w_env w; w_fs := w_fs w; w_cwd := w_cwd w;
     w_trace := w_trace w;
     w_nproc := w_nproc w; w_nhttp := S (w_nhttp w); w_ninput := w_ninput w;
     w_nrmtree := w_nrmtree w; w_nzip := w_nzip w |}.

Definition tick_input (w : World) : World :=
  {| w_env := w_env w; w_fs := w_fs w; w_cwd := w_cwd w;
     w_trace := w_trace w;
     w_nproc := w_nproc w; w_nhttp := w_nhttp w; w_ninput := S (w_ninput w);
     w_nrmtree := w_nrmtree w; w_nzip := w_nzip w |}.

Definition tick_rmtree (w : World) : World :=
  {| w_env := w_env w; w_fs := w_fs w; w_cwd := w_cwd w;
     w_trace := w_trace w;
     w_nproc := w_nproc w; w_nhttp := w_nhttp w; w_ninput := w_ninput w;
     w_nrmtree := S (w_nrmtree w); w_nzip := w_nzip w |}.

Definition tick_zip (w : World) : World :=
  {| w_env := w_env w; w_fs := w_fs w; w_cwd := w_cwd w;
     w_trace := w_trace w;
     w_nproc := w_nproc w; w_nhttp := w_nhttp w; w_ninput := w_ninput w;
     w_nrmtree := w_nrmtree w; w_nzip := S (w_nzip w) |}.

Definition emit (e : event) : M unit := fun w => (Ret tt, with_trace w e).

(** [print(line)] *)
Definition print (line : string) : M unit := emit (EvPrint line).

(** [print_step(message, emoji)]; every script defines it the same way
    and every call passes the emoji. *)
Definition print_step (message emoji : string) : M unit :=
  print (emoji ++ " " ++ message).

(** [subprocess.run(cmd, check=, capture_output=, text=True, timeout=)].
    Output is decoded only when it is captured, and before the exit
    status is looked at. *)
Definition subprocess_run (cmd : list string) (check capture : bool)
    (timeout : option Z) : M CompletedProcess :=
  fun w =>
    let n := w_nproc w in
    let w1 := tick_proc (with_trace w (EvRun cmd check capture timeout)) in
    let overran :=
      match timeout with
      | Some _ => env_overrun (w_env w) n
      | None => false
      end in
    match env_proc (w_env w) n with
    | NotFound => (Raise FileNotFoundError, w1)
    | CannotStart msg => (Raise (OSError msg), w1)
    | Exited rc out err =>
        let w2 := with_fs w1 (env_effect (w_env w) n (w_fs w1)) in
        if overran then (Raise TimeoutExpired, w2)
        else
          let so := if capture then Some out else None in
          let se := if capture then Some err else None in
          if check && negb (rc =? 0)
          then (Raise (CalledProcessError cmd rc se), w2)
          else (Ret {| returncode := rc; stdout := so; stderr := se |}, w2)
    | Garbled rc =>
        let w2 := with_fs w1 (env_effect (w_env w) n (w_fs w1)) in
        if overran then (Raise TimeoutExpired, w2)
        else if capture then (Raise (OtherError "UnicodeDecodeError"), w2)
        else if check && negb (rc =? 0)
        then (Raise (CalledProcessError cmd rc None), w2)
        else (Ret {| returncode := rc; stdout := None; stderr := None |}, w2)
    end.

(** [urllib.request.urlopen(url, timeout=)]: the response's status and
    body outcome. *)
Definition urlopen (url : string) (timeout : Z) : M (Z * (string + json)) :=
  fun w =>
    let n := w_nhttp w in
    let w1 := tick_http (with_trace w (EvHttpGet url timeout)) in
    match env_http (w_env w) n with
    | Response status body => (Ret (status, body), w1)
    | HttpRaises e => (Raise (exn_of_http e), w1)
    end.

(** [json.loads(response.read().decode())] *)
Definition read_json (body : string + json) : M json :=
  match body with
  | inl name => raise (OtherError name)
  | inr j => ret j
  end.

(** [time.sleep(seconds)] *)
Definition sleep (seconds : Z) : M unit := emit (EvSleep seconds).

(** [input(prompt)] *)
Definition input (prompt : string) : M string :=
  fun w =>
    let answer := env_input (w_env w) (w_ninput w) in
    let w1 := tick_input (with_trace w (EvInput prompt answer)) in
    match answer with
    | Some line => (Ret line, w1)
    | None => (Raise EOFError, w1)
    end.

(** [Path.cwd()] *)
Definition getcwd : M path := fun w => (Ret (w_cwd w), w).

Definition is_some {A} (o : option A) : bool :=
  match o with Some _ => true | None => false end.

Definition in_lambda {A} (fs : FS) (f : lambda_dir -> option A) : option A :=
  match fs_lambda fs with
  | Some d => f d
  | None => None
  end.

(** [p.exists()] *)
Definition fs_exists (fs : FS) (p : path) : bool :=
  match p with
  | Launch _ | ProjectRoot => true
  | ComposeFile => fs_compose fs
  | LocalstackData => is_some (fs_data fs)
  | LambdaDir => is_some (fs_lambda fs)
  | LambdaBin => is_some (in_lambda fs ld_bin)
  | LambdaObj => is_some (in_lambda fs ld_obj)
  | LambdaPublish => is_some (in_lambda fs ld_publish)
  | LambdaZip => is_some (in_lambda fs ld_zip)
  end.

Definition path_exists (p : path) : M bool :=
  fun w => (Ret (fs_exists (w_fs w) p), w).

Definition path_eqb (a b : path) : bool :=
  match a, b with
  | Launch x, Launch y => String.eqb x y
  | ProjectRoot, ProjectRoot
  | ComposeFile, ComposeFile
  | LocalstackData, LocalstackData
  | LambdaDir, LambdaDir
  | LambdaBin, LambdaBin
  | LambdaObj, LambdaObj
  | LambdaPublish, LambdaPublish
  | LambdaZip, LambdaZip => true
  | _, _ => false
  end.

(** The script has removed [d] with [rmtree] since it last changed
    directory (the trace is newest first). *)
Fixpoint removed_since_chdir (d : path) (trace : list event) : bool :=
  match trace with
  | [] => false
  | EvChdir _ :: _ => false
  | EvRmtree p :: older => path_eqb p d || removed_since_chdir d older
  | _ :: older => removed_since_chdir d older
  end.

(** [os.chdir(d)] raises when [d] is gone.  The scripts change to the
    project root, to a directory they have just found to exist, and back
    to the directory they came from; the last is gone when the script
    itself has removed it in between, as [build_and_package] does with
    [bin] and [obj], and nothing has put it back.  The tools the scripts
    launch are taken to leave in place the directory the script is in
    and the one it came from: only the script's own removals make
    [chdir] fail.  A failed [chdir] leaves the process where it is. *)
Definition chdir (d : path) : M unit :=
  fun w =>
    if negb (fs_exists (w_fs w) d) && removed_since_chdir d (w_trace w)
    then (Raise FileNotFoundError, w)
    else (Ret tt, with_cwd (with_trace w (EvChdir d)) d).

(** The tree at one of the three directories the scripts delete. *)
Definition fs_tree (fs : FS) (p : path) : option node :=
  match p with
  | LocalstackData => fs_data fs
  | LambdaBin => in_lambda fs ld_bin
  | LambdaObj => in_lambda fs ld_obj
  | LambdaPublish => in_lambda fs ld_publish
  | _ => None
  end.

Definition set_lambda (fs : FS) (d : lambda_dir) : FS :=
  {| fs_compose := fs_compose fs; fs_data := fs_data fs; fs_lambda := Some d |}.

Definition fs_remove (fs : FS) (p : path) : FS :=
  match p, fs_lambda fs with
  | LocalstackData, _ =>
      {| fs_compose := fs_compose fs; fs_data := None; fs_lambda := fs_lambda fs |}
  | LambdaBin, Some d =>
      set_lambda fs {| ld_bin := None; ld_obj := ld_obj d;
                       ld_publish := ld_publish d; ld_zip := ld_zip d |}
  | LambdaObj, Some d =>
      set_lambda fs {| ld_bin := ld_bin d; ld_obj := None;
                       ld_publish := ld_publish d; ld_zip := ld_zip d |}
  | LambdaPublish, Some d =>
      set_lambda fs {| ld_bin := ld_bin d; ld_obj := ld_obj d;
                       ld_publish := None; ld_zip := ld_zip d |}
  | LambdaZip, Some d =>
      set_lambda fs {| ld_bin := ld_bin d; ld_obj := ld_obj d;
                       ld_publish := ld_publish d; ld_zip := None |}
  | _, _ => fs
  end.

(** Puts a tree at one of the three directories the scripts delete. *)
Definition fs_put (fs : FS) (p : path) (t : node) : FS :=
  match p, fs_lambda fs with
  | LocalstackData, _ =>
      {| fs_compose := fs_compose fs; fs_data := Some t; fs_lambda := fs_lambda fs |}
  | LambdaBin, Some d =>
      set_lambda fs {| ld_bin := Some t; ld_obj := ld_obj d;
                       ld_publish := ld_publish d; ld_zip := ld_zip d |}
  | LambdaObj, Some d =>
      set_lambda fs {| ld_bin := ld_bin d; ld_obj := Some t;
                       ld_publish := ld_publish d; ld_zip := ld_zip d |}
  | LambdaPublish, Some d =>
      set_lambda fs {| ld_bin := ld_bin d; ld_obj := ld_obj d;
                       ld_publish := Some t; ld_zip := ld_zip d |}
  | _, _ => fs
  end.

(** The tree without the entry at [p], if there is one. *)
Fixpoint prune (p : relpath) (n : node) : node :=
  match p, n with
  | name :: rest, Dir children =>
      match rest with
      | [] => Dir (filter (fun entry => negb (String.eqb (fst entry) name)) children)
      | _ =>
          Dir (map (fun entry =>
                      if String.eqb (fst entry) name
                      then (fst entry, prune rest (snd entry))
                      else entry) children)
      end
  | _, _ => n
  end.

Definition prune_all (gone : list relpath) (n : node) : node :=
  fold_left (fun t p => prune p t) gone n.

(** [shutil.rmtree(p)]: deletes a directory tree; raises on anything that
    is not a directory, and when the operating system refuses.  It
    deletes as it walks: when it fails part of the way, what it had
    deleted by then is gone and the rest of the tree is still there. *)
Definition rmtree (p : path) : M unit :=
  fun w =>
    let n := w_nrmtree w in
    let w1 := tick_rmtree (with_trace w (EvRmtree p)) in
    match fs_tree (w_fs w) p with
    | Some (Dir children) =>
        match env_rmtree_fails (w_env w) n with
        | Some (msg, gone) =>
            (Raise (OSError msg),
             with_fs w1 (fs_put (w_fs w1) p (prune_all gone (Dir children))))
        | None => (Ret tt, with_fs w1 (fs_remove (w_fs w1) p))
        end
    | Some _ => (Raise (OSError "[Errno 20] Not a directory"), w1)
    | None => (Raise FileNotFoundError, w1)
    end.

(** [zip_path.unlink()] *)
Definition unlink_zip : M unit :=
  fun w =>
    let w1 := with_trace w (EvUnlink LambdaZip) in
    match in_lambda (w_fs w) ld_zip with
    | Some ZipIsDir => (Raise (OSError "[Errno 21] Is a directory"), w1)
    | Some _ => (Ret tt, with_fs w1 (fs_remove (w_fs w1) LambdaZip))
    | None => (Raise FileNotFoundError, w1)
    end.

(** The double quote character, for the lines that print one. *)
Definition DQ : string := String "034" "".

(** ** [run_command] of the setup and the two deploy scripts

    The three files carry the same text: a failed command that was
    required to succeed, and a missing executable, both end the run with
    status 1. *)

Definition run_command_fatal (cmd : list string) (check capture : bool)
    : M CompletedProcess :=
  try_except (subprocess_run cmd check capture None)
    (fun e =>
       match e with
       | CalledProcessError _ _ err =>
           Some (print ("❌ Error running command: " ++ PyStr.join " " cmd) ;;
                 match err with
                 | Some text =>
                     if PyStr.truthy text
                     then print ("Error output: " ++ text)
                     else ret tt
                 | None => ret tt
                 end ;;
                 sys_exit 1)
       | FileNotFoundError =>
           Some (print ("❌ Command not found: " ++ hd "" cmd) ;;
                 print ("Please ensure " ++ hd "" cmd
                        ++ " is installed and in your PATH") ;;
                 sys_exit 1)
       | _ => None
       end).

(** ** scripts/setup-localstack.py *)

Module Setup.

Definition LOCALSTACK_ENDPOINT : string := "http://localhost:4566".
Definition HEALTH_CHECK_URL : string :=
  LOCALSTACK_ENDPOINT ++ "/_localstack/health".
Definition TIMEOUT : Z := 60.

Definition run_command := run_command_fatal.

Definition check_docker : M unit :=
  print_step "Checking if Docker is running..." "🔍" ;;
  try_except
    (run_command ["docker"; "info"] true true ;;
     print "✅ Docker is running")
    (fun e =>
       match e with
       | SystemExit _ =>
           Some (print "❌ Docker is not running. Please start Docker and try again." ;;
                 sys_exit 1)
       | _ => None
       end).

Definition start_localstack : M unit :=
  print_step "Starting LocalStack..." "📦" ;;
  found <- path_exists ComposeFile ;;
  if negb found then
    (fun w => print ("❌ docker-compose.yml not found at "
                     ++ path_str (w_env w) ComposeFile) w) ;;
    sys_exit 1
  else
    original_dir <- getcwd ;;
    try_finally
      (chdir ProjectRoot ;;
       run_command ["docker-compose"; "up"; "-d"; "localstack"] true false ;;
       ret tt)
      (chdir original_dir).

(** One turn of the [try] block of the poll loop: [true] when the
    function returns from inside it. *)
Definition poll_once : M bool :=
  try_except
    (response <- urlopen HEALTH_CHECK_URL 2 ;;
     if fst response =? 200
     then print "✅ LocalStack is ready!" ;; ret true
     else ret false)
    (fun e =>
       match e with
       | URLError _ | OSError _ | TimeoutError | FileNotFoundError =>
           Some (ret false)
       | _ => None
       end).

(** [while counter < TIMEOUT: ...] followed by the lines after the loop. *)
Fixpoint wait_loop (fuel : nat) (counter : Z) : M unit :=
  if counter <? TIMEOUT then
    match fuel with
    | O => out_of_fuel
    | S fuel' =>
        ready <- poll_once ;;
        if ready then ret tt
        else
          print ("   Waiting... (" ++ PyStr.str_of_Z counter ++ "/"
                 ++ PyStr.str_of_Z TIMEOUT ++ ")") ;;
          sleep 2 ;;
          wait_loop fuel' (counter + 2)
    end
  else
    print ("❌ LocalStack failed to start within "
           ++ PyStr.str_of_Z TIMEOUT ++ " seconds") ;;
    sys_exit 1.

Definition wait_for_localstack : M unit :=
  print_step "Waiting for LocalStack to be ready..." "⏳" ;;
  wait_loop (Z.to_nat TIMEOUT) 0.

Definition print_environment_setup : M unit :=
  print "" ;;
  print_step "Setup complete! Configure your environment:" "🎉" ;;
  print "" ;;
  (fun w =>
     (if env_win32 (w_env w) then
        print "Windows (PowerShell):" ;;
        print ("$env:AWS_ENDPOINT_URL=" ++ DQ ++ LOCALSTACK_ENDPOINT ++ DQ) ;;
        print ("$env:AWS_ACCESS_KEY_ID=" ++ DQ ++ "test" ++ DQ) ;;
        print ("$env:AWS_SECRET_ACCESS_KEY=" ++ DQ ++ "test" ++ DQ) ;;
        print ("$env:AWS_DEFAULT_REGION=" ++ DQ ++ "us-east-1" ++ DQ)
      else
        print "Linux/Mac:" ;;
        print ("export AWS_ENDPOINT_URL=" ++ LOCALSTACK_ENDPOINT) ;;
        print "export AWS_ACCESS_KEY_ID=test" ;;
        print "export AWS_SECRET_ACCESS_KEY=test" ;;
        print "export AWS_DEFAULT_REGION=us-east-1") w) ;;
  print "" ;;
  print "Or add these to your .env file:" ;;
  print ("LOCALSTACK_ENDPOINT=" ++ LOCALSTACK_ENDPOINT) ;;
  print "USE_LOCALSTACK=true" ;;
  print "" ;;
  print "🎉 You can now deploy infrastructure to LocalStack.".

Definition main : M unit :=
  print "🚀 Setting up LocalStack development environment" ;;
  print "==================================================" ;;
  check_docker ;;
  start_localstack ;;
  wait_for_localstack ;;
  print_environment_setup.

End Setup.

(** ** scripts/teardown-localstack.py *)

Module Teardown.

(** Here a failed command is a warning and yields [None]. *)
Definition run_command (cmd : list string) (check capture : bool)
    : M (option CompletedProcess) :=
  try_except
    (result <- subprocess_run cmd check capture None ;; ret (Some result))
    (fun e =>
       match e with
       | CalledProcessError _ _ err =>
           Some (print ("⚠️  Warning: Command failed: " ++ PyStr.join " " cmd) ;;
                 match err with
                 | Some text =>
                     if PyStr.truthy text then print ("   " ++ text) else ret tt
                 | None => ret tt
                 end ;;
                 ret None)
       | FileNotFoundError =>
           Some (print ("❌ Command not found: " ++ hd "" cmd) ;;
                 print ("Please ensure " ++ hd "" cmd
                        ++ " is installed and in your PATH") ;;
                 sys_exit 1)
       | _ => None
       end).

Definition stop_localstack : M bool :=
  print_step "Stopping LocalStack..." "🛑" ;;
  found <- path_exists ComposeFile ;;
  if negb found then
    (fun w => print ("⚠️  docker-compose.yml not found at "
                     ++ path_str (w_env w) ComposeFile) w) ;;
    ret false
  else
    original_dir <- getcwd ;;
    try_finally
      (chdir ProjectRoot ;;
       result <- run_command ["docker-compose"; "down"] false false ;;
       match result with
       | Some r =>
           if returncode r =? 0
           then print "✅ LocalStack stopped and containers removed" ;; ret true
           else print "⚠️  LocalStack may not have been running" ;; ret false
       | None => print "⚠️  LocalStack may not have been running" ;; ret false
       end)
      (chdir original_dir).

Definition DATA_PROMPT : string :=
  "   Remove LocalStack data? This will delete all persisted state. (y/N): ".
Definition CONTAINERS_PROMPT : string :=
  "   Remove orphaned LocalStack containers? (y/N): ".
Definition IMAGES_PROMPT : string :=
  "   Remove LocalStack Docker images? (y/N): ".
Definition CONTINUE_PROMPT : string :=
  "Continue with cleanup anyway? (y/N): ".
Definition MAIN_IMAGES_PROMPT : string :=
  "Remove LocalStack Docker images? Usually not needed. (y/N): ".

Definition remove_volumes : M unit :=
  print_step "Checking for LocalStack data..." "📦" ;;
  found <- path_exists LocalstackData ;;
  if found then
    (fun w => print ("   Found data directory: "
                     ++ path_str (w_env w) LocalstackData) w) ;;
    response <- input DATA_PROMPT ;;
    if String.eqb (PyStr.lower response) "y" then
      try_except
        (rmtree LocalstackData ;;
         print "✅ LocalStack data removed")
        (fun e =>
           if is_Exception e
           then Some (print ("❌ Failed to remove data: " ++ exn_str e))
           else None)
    else print "   Skipping data removal"
  else print "   No LocalStack data directory found".

(** [result and result.stdout.strip()], as the stripped text when it is
    truthy. *)
Definition listed (result : option CompletedProcess) : option string :=
  match result with
  | Some r =>
      match stdout r with
      | Some out =>
          if PyStr.truthy (PyStr.strip out) then Some (PyStr.strip out) else None
      | None => None
      end
  | None => None
  end.

Definition cleanup_containers : M unit :=
  print_step "Checking for orphaned containers..." "🔍" ;;
  result <- run_command
    ["docker"; "ps"; "-a"; "--filter"; "name=localstack"; "--format"; "{{.Names}}"]
    false true ;;
  match listed result with
  | Some text =>
      let containers := PyStr.split "010" text in
      print ("   Found containers: " ++ PyStr.join ", " containers) ;;
      response <- input CONTAINERS_PROMPT ;;
      if String.eqb (PyStr.lower response) "y" then
        for_each containers
          (fun container =>
             run_command ["docker"; "rm"; "-f"; container] false false ;; ret tt) ;;
        print "✅ Orphaned containers removed"
      else print "   Skipping container removal"
  | None => print "   No orphaned containers found"
  end.

Definition cleanup_images : M unit :=
  print_step "Checking for LocalStack images..." "🖼️" ;;
  result <- run_command
    ["docker"; "images"; "localstack/localstack"; "--format"; "{{.ID}}"]
    false true ;;
  match listed result with
  | Some text =>
      let image_ids := PyStr.dedup (PyStr.split "010" text) in
      print ("   Found " ++ PyStr.str_of_Z (Z.of_nat (List.length image_ids))
             ++ " LocalStack image(s)") ;;
      response <- input IMAGES_PROMPT ;;
      if String.eqb (PyStr.lower response) "y" then
        for_each image_ids
          (fun image_id =>
             run_command ["docker"; "rmi"; image_id] false false ;; ret tt) ;;
        print "✅ LocalStack images removed"
      else print "   Skipping image removal"
  | None => print "   No LocalStack images found"
  end.

Definition main : M unit :=
  print "🧹 Tearing down LocalStack development environment" ;;
  print "==================================================" ;;
  stopped <- stop_localstack ;;
  (if negb stopped then
     print (PyStr.NL ++ "⚠️  LocalStack may not have been running") ;;
     response <- input CONTINUE_PROMPT ;;
     if negb (String.eqb (PyStr.lower response) "y")
     then print "Aborted." ;; sys_exit 0
     else ret tt
   else ret tt) ;;
  print "" ;;
  remove_volumes ;;
  print "" ;;
  cleanup_containers ;;
  print "" ;;
  response <- input MAIN_IMAGES_PROMPT ;;
  (if String.eqb (PyStr.lower response) "y"
   then cleanup_images
   else print "   Skipping image removal (recommended to keep for faster restarts)") ;;
  print "" ;;
  print_step "Teardown complete!" "✅" ;;
  print "" ;;
  print "To start LocalStack again, run:" ;;
  print "  python scripts/setup-localstack.py".

End Teardown.

(** ** Walking a directory and writing an archive *)

(** A file below one of the fixed locations. *)
Definition filepath : Type := (path * relpath)%type.

(** What [Path.rglob('*')] yields below a directory at [prefix]: the
    entries of the directory, then the same for each sub-directory in
    turn. *)
Fixpoint walk (prefix : relpath) (n : node) : list (relpath * node) :=
  match n with
  | Dir children =>
      (map (fun entry => (prefix ++ [fst entry], snd entry)) children
       ++ flat_map (fun entry => walk (prefix ++ [fst entry]) (snd entry)) children)%list
  | _ => []
  end.

(** [base.rglob('*')]: nothing when [base] is missing or not a directory. *)
Definition rglob (base : path) : M (list (filepath * node)) :=
  fun w =>
    match fs_tree (w_fs w) base with
    | Some tree => (Ret (map (fun item => ((base, fst item), snd item)) (walk [] tree)), w)
    | None => (Ret [], w)
    end.

(** [file.relative_to(base)] *)
Definition relative_to (file : filepath) (base : path) : M relpath :=
  if path_eqb (fst file) base then ret (snd file)
  else raise (OtherError "ValueError").

(** [zipfile.ZipFile(zip_path, 'w', ...)]: the file is created, or
    emptied, as soon as the archive is opened. *)
Definition open_zip : M unit :=
  fun w =>
    let w1 := with_trace w (EvOpenZip LambdaZip) in
    match fs_lambda (w_fs w) with
    | None => (Raise FileNotFoundError, w1)
    | Some d =>
        match ld_zip d with
        | Some ZipIsDir => (Raise (OSError "[Errno 21] Is a directory"), w1)
        | _ =>
            (Ret tt,
             with_fs w1
               (set_lambda (w_fs w1)
                  {| ld_bin := ld_bin d; ld_obj := ld_obj d;
                     ld_publish := ld_publish d;
                     ld_zip := Some (ZipArchive []) |}))
        end
    end.

(** [zipf.write(file, arcname)] for a regular file: the entry goes to the
    archive at once, unless the file cannot be archived. *)
Definition zip_write (arcname : relpath) (data : string) : M unit :=
  fun w =>
    let n := w_nzip w in
    let w1 := tick_zip (with_trace w (EvWriteZip arcname)) in
    match env_zip_fails (w_env w) n with
    | Some e => (Raise (exn_of_zip e), w1)
    | None =>
        match fs_lambda (w_fs w) with
        | Some d =>
            match ld_zip d with
            | Some (ZipArchive entries) =>
                (Ret tt,
                 with_fs w1
                   (set_lambda (w_fs w1)
                      {| ld_bin := ld_bin d; ld_obj := ld_obj d;
                         ld_publish := ld_publish d;
                         ld_zip := Some (ZipArchive (entries ++ [(arcname, data)])) |}))
            | _ => (Ret tt, w1)
            end
        | None => (Ret tt, w1)
        end
    end.

(** Leaving the [with] block closes the archive, however the block ends;
    the entries written so far stay. *)
Definition close_zip : M unit := emit (EvCloseZip LambdaZip).

(** The [for file in publish_dir.rglob('*')] loop. *)
Fixpoint zip_files (base : path) (items : list (filepath * node)) : M unit :=
  match items with
  | [] => ret tt
  | (file, File data) :: rest =>
      arcname <- relative_to file base ;;
      zip_write arcname data ;;
      zip_files base rest
  | _ :: rest => zip_files base rest
  end.

(** [open(p, 'rb').read()], for what it can raise. *)
Definition read_file (p : path) : M unit :=
  fun w =>
    match p with
    | LambdaZip =>
        match in_lambda (w_fs w) ld_zip with
        | Some ZipIsDir => (Raise (OSError "[Errno 21] Is a directory"), w)
        | Some _ => (Ret tt, w)
        | None => (Raise FileNotFoundError, w)
        end
    | ComposeFile =>
        if fs_compose (w_fs w) then (Ret tt, w) else (Raise FileNotFoundError, w)
    | Launch _ | ProjectRoot => (Raise (OSError "[Errno 21] Is a directory"), w)
    | LambdaDir =>
        if is_some (fs_lambda (w_fs w))
        then (Raise (OSError "[Errno 21] Is a directory"), w)
        else (Raise FileNotFoundError, w)
    | _ =>
        match fs_tree (w_fs w) p with
        | Some (File _) => (Ret tt, w)
        | Some _ => (Raise (OSError "[Errno 21] Is a directory"), w)
        | None => (Raise FileNotFoundError, w)
        end
    end.

(** A captured stream; [None] there is a [TypeError] in the scripts. *)
Definition text_of (stream : option string) : M string :=
  match stream with
  | Some text => ret text
  | None => raise (OtherError "TypeError")
  end.

(** [print_test_instructions] of the two deploy scripts (same text). *)
Definition print_test_instructions_of (endpoint name : string) : M unit :=
  print "" ;;
  print_step "Lambda function deployed!" "✅" ;;
  print "" ;;
  print "🧪 Test the Lambda:" ;;
  print ("aws --endpoint-url=" ++ endpoint ++ " lambda invoke \") ;;
  print ("  --function-name " ++ name ++ " \") ;;
  print ("  --payload '{" ++ DQ ++ "test" ++ DQ ++ ":" ++ DQ ++ "data" ++ DQ ++ "}' \") ;;
  print "  response.json" ;;
  print "" ;;
  print "📄 View response:" ;;
  fun w =>
    (if env_win32 (w_env w)
     then print "  type response.json"
     else print "  cat response.json") w.

(** The conflict signature both deploy scripts look for in the captured
    error text. *)
Definition conflict_signature (err : string) : bool :=
  PyStr.contains "ResourceConflictException" err
  || PyStr.contains "already exists" (PyStr.lower err).

(** ** scripts/deploy-lambda-localstack-zip.py *)

Module DeployZip.

Definition LAMBDA_NAME : string := "simple-lambda".
Definition LAMBDA_DIR : path := LambdaDir.
Definition LOCALSTACK_ENDPOINT : string := "http://localhost:4566".

Definition run_command := run_command_fatal.

Definition check_prerequisites : M unit :=
  print_step "Checking prerequisites..." "🔍" ;;
  try_except (run_command ["dotnet"; "--version"] true true ;; ret tt)
    (fun e =>
       match e with
       | SystemExit _ =>
           Some (print "❌ .NET SDK is not installed or not in PATH" ;; sys_exit 1)
       | _ => None
       end) ;;
  try_except (run_command ["aws"; "--version"] true true ;; ret tt)
    (fun e =>
       match e with
       | SystemExit _ =>
           Some (print "❌ AWS CLI is not installed or not in PATH" ;; sys_exit 1)
       | _ => None
       end) ;;
  passed <- try_except
    (response <- urlopen (LOCALSTACK_ENDPOINT ++ "/_localstack/health") 2 ;;
     if fst response =? 200
     then print "✅ Prerequisites check passed" ;; ret true
     else ret false)
    (fun e => if is_Exception e then Some (ret false) else None) ;;
  if passed then ret tt
  else
    print "❌ LocalStack is not accessible" ;;
    print "   Start it with: python scripts/setup-localstack.py" ;;
    sys_exit 1.

Definition build_and_package : M path :=
  print_step "Building .NET Lambda..." "🔨" ;;
  found <- path_exists LAMBDA_DIR ;;
  if negb found then
    (fun w => print ("❌ Lambda directory not found: "
                     ++ path_str (w_env w) LAMBDA_DIR) w) ;;
    sys_exit 1
  else
    original_dir <- getcwd ;;
    try_finally
      (chdir LAMBDA_DIR ;;
       has_bin <- path_exists LambdaBin ;;
       (if has_bin then rmtree LambdaBin else ret tt) ;;
       has_obj <- path_exists LambdaObj ;;
       (if has_obj then rmtree LambdaObj else ret tt) ;;
       print "   Publishing Lambda function..." ;;
       run_command ["dotnet"; "publish"; "-c"; "Release"; "-o"; "publish"]
         true false ;;
       print_step "Creating ZIP package..." "📦" ;;
       let zip_path := LambdaZip in
       has_zip <- path_exists zip_path ;;
       (if has_zip then unlink_zip else ret tt) ;;
       open_zip ;;
       try_finally
         (let publish_dir := LambdaPublish in
          files <- rglob publish_dir ;;
          zip_files publish_dir files)
         close_zip ;;
       (fun w => print ("✅ Package created: " ++ path_str (w_env w) zip_path) w) ;;
       ret zip_path)
      (chdir original_dir).

Definition create_cmd (zip_file : string) : list string :=
  ["aws"; "--endpoint-url"; LOCALSTACK_ENDPOINT;
   "lambda"; "create-function";
   "--function-name"; LAMBDA_NAME;
   "--runtime"; "provided.al2";
   "--role"; "arn:aws:iam::000000000000:role/lambda-role";
   "--handler"; "SimpleLambda::SimpleLambda.Function::FunctionHandler";
   "--zip-file"; "fileb://" ++ zip_file;
   "--timeout"; "30";
   "--memory-size"; "512"].

Definition update_cmd (zip_file : string) : list string :=
  ["aws"; "--endpoint-url"; LOCALSTACK_ENDPOINT;
   "lambda"; "update-function-code";
   "--function-name"; LAMBDA_NAME;
   "--zip-file"; "fileb://" ++ zip_file].

Definition deploy_lambda (zip_path : path) : M unit :=
  print_step "Deploying Lambda function..." "📝" ;;
  read_file zip_path ;;
  fun w0 =>
    let zip_file := path_str (w_env w0) zip_path in
    (result <- run_command (create_cmd zip_file) false true ;;
     if returncode result =? 0 then print "✅ Lambda function created!"
     else
       err <- text_of (stderr result) ;;
       if conflict_signature err then
         print "⚠️  Lambda already exists, updating code..." ;;
         run_command (update_cmd zip_file) true false ;;
         print "✅ Lambda function updated!"
       else
         print ("❌ Failed to create Lambda function: " ++ err) ;;
         sys_exit 1) w0.

Definition print_test_instructions : M unit :=
  print_test_instructions_of LOCALSTACK_ENDPOINT LAMBDA_NAME.

Definition main : M unit :=
  print "🚀 Deploying .NET Lambda to LocalStack (ZIP package)" ;;
  print "==================================================" ;;
  check_prerequisites ;;
  zip_path <- build_and_package ;;
  deploy_lambda zip_path ;;
  print_test_instructions.

End DeployZip.

(** ** scripts/deploy-lambda-localstack.py *)

Module DeployImage.

Definition LAMBDA_NAME : string := "simple-lambda".
Definition LAMBDA_DIR : path := LambdaDir.
Definition IMAGE_NAME : string := "simple-lambda:latest".
Definition REGISTRY : string := "localhost:4510".
Definition LOCALSTACK_ENDPOINT : string := "http://localhost:4566".

Definition run_command := run_command_fatal.

Definition check_prerequisites : M unit :=
  print_step "Checking prerequisites..." "🔍" ;;
  try_except (run_command ["docker"; "--version"] true true ;; ret tt)
    (fun e =>
       match e with
       | SystemExit _ =>
           Some (print "❌ Docker is not installed or not in PATH" ;; sys_exit 1)
       | _ => None
       end) ;;
  try_except (run_command ["aws"; "--version"] true true ;; ret tt)
    (fun e =>
       match e with
       | SystemExit _ =>
           Some (print "❌ AWS CLI is not installed or not in PATH" ;; sys_exit 1)
       | _ => None
       end) ;;
  result <- run_command
    ["docker"; "ps"; "--filter"; "name=localstack"; "--format"; "{{.Names}}"]
    false true ;;
  out <- text_of (stdout result) ;;
  if negb (PyStr.truthy (PyStr.strip out)) then
    print "❌ LocalStack container is not running" ;;
    print "   Please start LocalStack first:" ;;
    print "   python scripts/setup-localstack.py" ;;
    print "   or" ;;
    print "   docker-compose up -d" ;;
    sys_exit 1
  else print "✅ Prerequisites check passed".

Definition build_docker_image : M unit :=
  print_step "Building .NET Lambda Docker image..." "🔨" ;;
  found <- path_exists LAMBDA_DIR ;;
  if negb found then
    (fun w => print ("❌ Lambda directory not found: "
                     ++ path_str (w_env w) LAMBDA_DIR) w) ;;
    sys_exit 1
  else
    original_dir <- getcwd ;;
    try_finally
      (chdir LAMBDA_DIR ;;
       run_command ["docker"; "build"; "-t"; IMAGE_NAME; "."] true false ;;
       ret tt)
      (chdir original_dir).

Definition tag_and_push_image : M unit :=
  print_step "Tagging image for LocalStack registry..." "📦" ;;
  run_command ["docker"; "tag"; IMAGE_NAME; REGISTRY ++ "/" ++ IMAGE_NAME]
    true false ;;
  print_step "Pushing image to LocalStack registry..." "📤" ;;
  print "   Note: If this fails with 'connection refused', Docker may need to allow insecure registries" ;;
  print "   Windows/Mac: Docker Desktop > Settings > Docker Engine > Add to JSON:" ;;
  print ("   " ++ DQ ++ "insecure-registries" ++ DQ ++ ": [" ++ DQ
         ++ "localhost:4510" ++ DQ ++ "]") ;;
  result <- run_command ["docker"; "push"; REGISTRY ++ "/" ++ IMAGE_NAME]
    false false ;;
  if negb (returncode result =? 0) then
    print (PyStr.NL ++ "⚠️  Push failed. Common solutions:") ;;
    print "   1. Configure Docker insecure registry (see instructions above)" ;;
    print "   2. Restart Docker Desktop after configuration change" ;;
    print "   3. Check LocalStack logs: docker-compose logs localstack | grep -i registry" ;;
    print "   4. Verify port 4510 is accessible: curl http://localhost:4510/v2/" ;;
    sys_exit 1
  else ret tt.

Definition image_uri : string := REGISTRY ++ "/" ++ IMAGE_NAME.

Definition create_cmd : list string :=
  ["aws"; "--endpoint-url"; LOCALSTACK_ENDPOINT;
   "lambda"; "create-function";
   "--function-name"; LAMBDA_NAME;
   "--package-type"; "Image";
   "--code"; "ImageUri=" ++ image_uri;
   "--role"; "arn:aws:iam::000000000000:role/lambda-role";
   "--timeout"; "30";
   "--memory-size"; "512"].

Definition update_cmd : list string :=
  ["aws"; "--endpoint-url"; LOCALSTACK_ENDPOINT;
   "lambda"; "update-function-code";
   "--function-name"; LAMBDA_NAME;
   "--image-uri"; image_uri].

Definition create_or_update_lambda : M unit :=
  print_step "Creating Lambda function in LocalStack..." "📝" ;;
  result <- run_command create_cmd false true ;;
  if returncode result =? 0 then print "✅ Lambda function created!"
  else
    err <- text_of (stderr result) ;;
    if conflict_signature err then
      print "⚠️  Lambda already exists, updating instead... ⚠️" ;;
      run_command update_cmd true false ;;
      print "✅ Lambda function updated!"
    else
      print ("❌ Failed to create Lambda function: " ++ err) ;;
      sys_exit 1.

Definition print_test_instructions : M unit :=
  print_test_instructions_of LOCALSTACK_ENDPOINT LAMBDA_NAME.

Definition main : M unit :=
  print "🚀 Deploying .NET Lambda to LocalStack" ;;
  print "==================================================" ;;
  check_prerequisites ;;
  build_docker_image ;;
  tag_and_push_image ;;
  create_or_update_lambda ;;
  print_test_instructions.

End DeployImage.

(** ** scripts/verify-localstack.py *)

Module Verify.

Definition LOCALSTACK_ENDPOINT : string := "http://localhost:4566".
Definition HEALTH_CHECK_URL : string :=
  LOCALSTACK_ENDPOINT ++ "/_localstack/health".

(** [repr] of a decoded JSON value; [JObj] holds the items of the
    [dict], keys distinct, in order. *)
Fixpoint json_repr (j : json) : string :=
  match j with
  | JNull => "None"
  | JBool true => "True"
  | JBool false => "False"
  | JNum n => PyStr.str_of_Z n
  | JStr s => repr_str s
  | JList items => "[" ++ PyStr.join ", " (map json_repr items) ++ "]"
  | JObj fields =>
      "{" ++ PyStr.join ", "
               (map (fun kv => repr_str (fst kv) ++ ": " ++ json_repr (snd kv)) fields)
      ++ "}"
  end.

(** How an f-string shows the value. *)
Definition json_str (j : json) : string :=
  match j with
  | JStr s => s
  | _ => json_repr j
  end.

Fixpoint lookup (key : string) (fields : list (string * json)) : option json :=
  match fields with
  | [] => None
  | (k, v) :: rest => if String.eqb k key then Some v else lookup key rest
  end.

(** [data.get(key, default)]; only a [dict] has [get]. *)
Definition dict_get (data : json) (key : string) (default : json) : M json :=
  match data with
  | JObj fields =>
      ret (match lookup key fields with Some v => v | None => default end)
  | _ => raise (OtherError "AttributeError")
  end.

(** [services.items()] *)
Definition dict_items (data : json) : M (list (string * json)) :=
  match data with
  | JObj fields => ret fields
  | _ => raise (OtherError "AttributeError")
  end.

Definition is_available (status : json) : bool :=
  match status with
  | JStr s => String.eqb s "available"
  | _ => false
  end.

Definition check_port_accessibility : M bool :=
  print_step "Checking if LocalStack port 4566 is accessible..." "🔌" ;;
  try_except
    (response <- urlopen HEALTH_CHECK_URL 5 ;;
     if fst response =? 200 then
       data <- read_json (snd response) ;;
       print "✅ LocalStack is accessible at http://localhost:4566" ;;
       version <- dict_get data "version" (JStr "unknown") ;;
       print ("   Version: " ++ json_str version) ;;
       edition <- dict_get data "edition" (JStr "unknown") ;;
       print ("   Edition: " ++ json_str edition) ;;
       services <- dict_get data "services" (JObj []) ;;
       items <- dict_items services ;;
       let available :=
         map fst (filter (fun kv => is_available (snd kv)) items) in
       (match available with
        | [] => ret tt
        | _ =>
            print ("   Available services: "
                   ++ PyStr.join ", " (firstn 10 available)) ;;
            if (10 <? List.length available)%nat
            then print ("   ... and "
                        ++ PyStr.str_of_Z (Z.of_nat (List.length available) - 10)
                        ++ " more")
            else ret tt
        end) ;;
       ret true
     else
       print ("⚠️  LocalStack responded with status code: "
              ++ PyStr.str_of_Z (fst response)) ;;
       ret false)
    (fun e =>
       match e with
       | URLError reason =>
           Some (print ("❌ Cannot connect to LocalStack at " ++ LOCALSTACK_ENDPOINT) ;;
                 print ("   Error: " ++ reason) ;;
                 ret false)
       | _ =>
           if is_Exception e
           then Some (print ("❌ Error checking LocalStack: " ++ exn_str e) ;;
                      ret false)
           else None
       end).

(** Returns [True], [False] or [None]. *)
Definition check_container_status : M (option bool) :=
  print_step "Checking LocalStack container status..." "🐳" ;;
  try_except
    (result <- subprocess_run
       ["docker"; "ps"; "--filter"; "name=localstack"; "--format";
        "{{.Names}}" ++ PyStr.TAB ++ "{{.Status}}" ++ PyStr.TAB ++ "{{.Ports}}"]
       true true None ;;
     out <- text_of (stdout result) ;;
     if PyStr.truthy (PyStr.strip out) then
       for_each (PyStr.split "010" (PyStr.strip out))
         (fun line =>
            let parts := PyStr.split "009" line in
            if (2 <=? List.length parts)%nat then
              print ("   Container: " ++ nth 0 parts "") ;;
              print ("   Status: " ++ nth 1 parts "") ;;
              print ("   Ports: "
                     ++ (if (2 <? List.length parts)%nat
                         then nth 2 parts "" else "N/A"))
            else ret tt) ;;
       ret (Some true)
     else
       print "❌ LocalStack container is not running" ;;
       print "   Start it with: python scripts/setup-localstack.py" ;;
       ret (Some false))
    (fun e =>
       match e with
       | FileNotFoundError =>
           Some (print "⚠️  Docker command not found - cannot check container status" ;;
                 ret None)
       | CalledProcessError _ _ _ =>
           Some (print ("⚠️  Error checking container: " ++ exn_str e) ;;
                 ret None)
       | _ => None
       end).

(** One of the two probes of [test_basic_operations]. *)
Definition probe (cmd : list string) (service : string) : M unit :=
  try_except
    (result <- subprocess_run cmd false true (Some 5) ;;
     if returncode result =? 0
     then print ("   ✅ " ++ service ++ " service is working")
     else print ("   ⚠️  " ++ service ++ " test returned: "
                 ++ PyStr.str_of_Z (returncode result)))
    (fun e =>
       if is_Exception e
       then Some (print ("   ⚠️  " ++ service ++ " test failed: " ++ exn_str e))
       else None).

Definition test_basic_operations : M unit :=
  print_step "Testing basic LocalStack operations..." "🧪" ;;
  probe ["aws"; "--endpoint-url"; LOCALSTACK_ENDPOINT; "s3"; "ls"] "S3" ;;
  probe ["aws"; "--endpoint-url"; LOCALSTACK_ENDPOINT; "lambda"; "list-functions"]
    "Lambda".

Definition main : M unit :=
  print "🔍 Verifying LocalStack Accessibility" ;;
  print "==================================================" ;;
  print "" ;;
  container_running <- check_container_status ;;
  print "" ;;
  port_accessible <- check_port_accessibility ;;
  print "" ;;
  if port_accessible then
    test_basic_operations ;;
    print "" ;;
    print "✅ LocalStack is fully operational!" ;;
    print ("   API Endpoint: " ++ LOCALSTACK_ENDPOINT) ;;
    print "" ;;
    print "You can now use LocalStack with:" ;;
    print ("   aws --endpoint-url=" ++ LOCALSTACK_ENDPOINT ++ " <command>")
  else
    match container_running with
    | Some false =>
        print "💡 Tip: Start LocalStack with:" ;;
        print "   python scripts/setup-localstack.py"
    | _ =>
        print "💡 Tip: Check LocalStack logs with:" ;;
        print "   docker-compose logs localstack"
    end ;;
    sys_exit 1.

End Verify.

(** * Vocabulary of the statements *)

(** A run ends fatally: [sys.exit] with a non-zero status. *)
Definition fatal {A} (r : Result A) : Prop :=
  exists code, r = Raise (SystemExit code) /\ code <> 0.

(** The [CompletedProcess] of a process that exited. *)
Definition completed (capture : bool) (rc : Z) (out err : string)
    : CompletedProcess :=
  {| returncode := rc;
     stdout := if capture then Some out else None;
     stderr := if capture then Some err else None |}.


(** A world with nothing on disk, an empty trace and the given oracles. *)
Definition blank_fs : FS :=
  {| fs_compose := false; fs_data := None; fs_lambda := None |}.

Definition fresh (env : Env) (fs : FS) : World :=
  {| w_env := env; w_fs := fs; w_cwd := Launch "/home/dev";
     w_trace := []; w_nproc := 0; w_nhttp := 0; w_ninput := 0;
     w_nrmtree := 0; w_nzip := 0 |}.

(** Oracles that follow a script: the n-th answer of each list, and a
    default once the list is used up.  Processes leave the files alone
    and nothing overruns or refuses. *)
Definition scripted (procs : list proc_outcome) (https : list http_outcome)
    (inputs : list (option string)) : Env :=
  {| env_root := "/work/playground"; env_win32 := false;
     env_proc := fun n => nth n procs (Exited 0 "" "");
     env_effect := fun _ fs => fs;
     env_overrun := fun _ => false;
     env_http := fun n => nth n https (HttpRaises (ConnectionFailed "Connection refused"));
     env_input := fun n => nth n inputs None;
     env_rmtree_fails := fun _ => None;
     env_zip_fails := fun _ => None |}.

(** The commands launched, oldest first, each with its [check] flag. *)
Definition launched (e : event) : list (list string * bool) :=
  match e with
  | EvRun cmd check _ _ => [(cmd, check)]
  | _ => []
  end.

Fixpoint launches (trace : list event) : list (list string * bool) :=
  match trace with
  | [] => []
  | e :: older => (launches older ++ launched e)%list
  end.

Definition commands (w : World) : list (list string * bool) :=
  launches (w_trace w).

(** [u] occurs in [s]. *)
Definition is_substring (u s : string) : Prop :=
  exists pre post, s = pre ++ u ++ post.

(** The conflict signature in the words of the specification: the
    exception name occurs in the text as written, or some stretch of the
    text reads "already exists" once letter case is ignored. *)
Definition conflict_text (err : string) : Prop :=
  is_substring "ResourceConflictException" err
  \/ exists u, is_substring u err /\ PyStr.lower u = "already exists".

(** The calls the upsert is to make, written out: the create and the
    update of the function [simple-lambda] through the AWS CLI, from an
    image and from a ZIP file. *)
Definition create_from_image : list string :=
  ["aws"; "--endpoint-url"; "http://localhost:4566";
   "lambda"; "create-function";
   "--function-name"; "simple-lambda";
   "--package-type"; "Image";
   "--code"; "ImageUri=localhost:4510/simple-lambda:latest";
   "--role"; "arn:aws:iam::000000000000:role/lambda-role";
   "--timeout"; "30";
   "--memory-size"; "512"].

Definition update_from_image : list string :=
  ["aws"; "--endpoint-url"; "http://localhost:4566";
   "lambda"; "update-function-code";
   "--function-name"; "simple-lambda";
   "--image-uri"; "localhost:4510/simple-lambda:latest"].

Definition create_from_zip (zip_file : string) : list string :=
  ["aws"; "--endpoint-url"; "http://localhost:4566";
   "lambda"; "create-function";
   "--function-name"; "simple-lambda";
   "--runtime"; "provided.al2";
   "--role"; "arn:aws:iam::000000000000:role/lambda-role";
   "--handler"; "SimpleLambda::SimpleLambda.Function::FunctionHandler";
   "--zip-file"; "fileb://" ++ zip_file;
   "--timeout"; "30";
   "--memory-size"; "512"].

Definition update_from_zip (zip_file : string) : list string :=
  ["aws"; "--endpoint-url"; "http://localhost:4566";
   "lambda"; "update-function-code";
   "--function-name"; "simple-lambda";
   "--zip-file"; "fileb://" ++ zip_file].

(** How a run ends on the outcome of an update that is required to
    succeed and whose output is not captured: it goes on when the update
    exits 0, and ends with status 1 when the tool is missing or exits
    non-zero, or on the error of a tool that cannot be started. *)
Definition update_ends (o : proc_outcome) : Result unit :=
  match o with
  | Exited rc _ _ | Garbled rc => if rc =? 0 then Ret tt else Raise (SystemExit 1)
  | NotFound => Raise (SystemExit 1)
  | CannotStart msg => Raise (OSError msg)
  end.

(** What the upsert protocol promises of one run, from world [w] to the
    result [r] and world [w'], when the create command exited with [rc]
    and error text [err]. *)
Definition upsert_protocol (create update : list string)
    (w : World) (rc : Z) (err : string) (r : Result unit) (w' : World) : Prop :=
  (rc = 0 ->
     r = Ret tt /\ commands w' = (commands w ++ [(create, false)])%list)
  /\ (rc <> 0 -> conflict_text err ->
      commands w' = (commands w ++ [(create, false); (update, true)])%list
      /\ r = update_ends (env_proc (w_env w) (S (w_nproc w)))
      /\ (r = Ret tt \/ exists e, r = Raise e /\ exit_status r = Some 1))
  /\ (rc <> 0 -> ~ conflict_text err ->
      r = Raise (SystemExit 1)
      /\ commands w' = (commands w ++ [(create, false)])%list
      /\ hd_error (w_trace w')
         = Some (EvPrint ("❌ Failed to create Lambda function: " ++ err))).

(** The HTTP requests made and the pauses taken, oldest first. *)
Fixpoint requests (trace : list event) : list (string * Z) :=
  match trace with
  | [] => []
  | EvHttpGet url timeout :: older => (requests older ++ [(url, timeout)])%list
  | _ :: older => requests older
  end.

Fixpoint pauses (trace : list event) : list Z :=
  match trace with
  | [] => []
  | EvSleep seconds :: older => (pauses older ++ [seconds])%list
  | _ :: older => pauses older
  end.

(** The health check of the verification script succeeds: status 200 and
    a body that decodes to an object whose [services], when present, is
    an object too. *)
Definition health_ok (o : http_outcome) : bool :=
  match o with
  | Response status (inr (JObj fields)) =>
      (status =? 200)
      && match Verify.lookup "services" fields with
         | None | Some (JObj _) => true
         | Some _ => false
         end
  | _ => false
  end.

(** The health endpoint answered with status 200. *)
Definition status_200 (o : http_outcome) : bool :=
  match o with
  | Response status _ => status =? 200
  | HttpRaises _ => false
  end.

(** An attempt of the readiness poller that leaves it waiting: a status
    other than 200, or one of the errors the loop catches (a refused or
    failed connection, another socket error, a timeout). *)
Definition waiting (o : http_outcome) : bool :=
  match o with
  | Response status _ => negb (status =? 200)
  | HttpRaises (ProtocolError _) => false
  | HttpRaises _ => true
  end.

(** The number of HTTP requests made between two worlds. *)
Definition attempts (w w' : World) : Z :=
  Z.of_nat (List.length (requests (w_trace w')))
  - Z.of_nat (List.length (requests (w_trace w))).

(** The turns of the poll loop left when it is entered with [counter]. *)
Definition turns (counter : Z) : nat :=
  Z.to_nat ((Setup.TIMEOUT - counter + 1) / 2).

(** [cmd] is [docker <verb> ...]. *)
Definition is_docker (verb : string) (cmd : list string) : bool :=
  match cmd with
  | tool :: v :: _ => String.eqb tool "docker" && String.eqb v verb
  | _ => false
  end.

(** The destructive actions of the teardown. *)
Inductive action : Type := DataRemoval | ContainerRemoval | ImageRemoval.

Definition action_of (e : event) : option action :=
  match e with
  | EvRmtree _ => Some DataRemoval
  | EvRun cmd _ _ _ =>
      if is_docker "rm" cmd then Some ContainerRemoval
      else if is_docker "rmi" cmd then Some ImageRemoval
      else None
  | _ => None
  end.

Definition destructive (e : event) : bool :=
  match action_of e with Some _ => true | None => false end.

(** The stop step of the teardown fails or reports nothing running: the
    compose file is missing, or [docker-compose down] exits non-zero. *)
Definition stop_fails (w : World) : Prop :=
  fs_compose (w_fs w) = false
  \/ exists rc out err,
       env_proc (w_env w) (w_nproc w) = Exited rc out err /\ rc <> 0.

(** The answer is an affirmation: lowercased, it is exactly [y]. *)
Definition affirms (answer : option string) : bool :=
  match answer with
  | Some line => String.eqb (PyStr.lower line) "y"
  | None => false
  end.





(** The latest answer given to [prompt] in a trace (newest first). *)
Fixpoint last_answer (prompt : string) (trace : list event)
    : option (option string) :=
  match trace with
  | [] => None
  | EvInput p answer :: older =>
      if String.eqb p prompt then Some answer else last_answer prompt older
  | _ :: older => last_answer prompt older
  end.

(** [prompt] has been asked and its latest answer is an affirmation. *)
Definition confirmed (prompt : string) (trace : list event) : bool :=
  match last_answer prompt trace with
  | Some answer => affirms answer
  | None => false
  end.

(** Event [e] may follow the events [earlier]: a destructive action needs
    its prompt confirmed, and the removal of an image needs two. *)
Definition permitted (e : event) (earlier : list event) : bool :=
  match action_of e with
  | None => true
  | Some DataRemoval => confirmed Teardown.DATA_PROMPT earlier
  | Some ContainerRemoval => confirmed Teardown.CONTAINERS_PROMPT earlier
  | Some ImageRemoval =>
      confirmed Teardown.MAIN_IMAGES_PROMPT earlier
      && confirmed Teardown.IMAGES_PROMPT earlier
  end.

(** Every destructive action of the trace was permitted when it happened. *)
Fixpoint guarded (trace : list event) : bool :=
  match trace with
  | [] => true
  | e :: earlier => permitted e earlier && guarded earlier
  end.

(** Events that neither destroy anything nor answer a prompt. *)
Definition quiet (e : event) : bool :=
  match e with
  | EvInput _ _ => false
  | _ => negb (destructive e)
  end.

(** Invariants of the teardown: the trace is guarded, and moreover the
    given prompts are confirmed. *)
Definition Guarded (trace : list event) : Prop := guarded trace = true.

Definition GuardedWith (prompts : list string) (trace : list event) : Prop :=
  guarded trace = true
  /\ forall p, In p prompts -> confirmed p trace = true.

(** [m], started on a trace satisfying [P], ends on one satisfying [Q]
    when it returns and on one satisfying [E] otherwise. *)
Definition triple {A} (P : list event -> Prop) (m : M A)
    (Q : A -> list event -> Prop) (E : list event -> Prop) : Prop :=
  forall w, P (w_trace w) ->
    match fst (m w) with
    | Ret a => Q a (w_trace (snd (m w)))
    | _ => E (w_trace (snd (m w)))
    end.

(** [m] keeps the trace guarded and the given prompts confirmed. *)
Definition keeps {A} (prompts : list string) (m : M A) : Prop :=
  triple (GuardedWith prompts) m (fun _ => GuardedWith prompts)
    (GuardedWith prompts).

(** Induction on directory trees, with the hypothesis for every child. *)
Section NodeInduction.

Variable P : node -> Prop.
Hypothesis file_case : forall data, P (File data).
Hypothesis special_case : P Special.
Hypothesis dir_case :
  forall children, Forall (fun entry => P (snd entry)) children -> P (Dir children).

Fixpoint node_induction (n : node) : P n :=
  match n with
  | File data => file_case data
  | Special => special_case
  | Dir children =>
      dir_case children
        ((fix each (l : list (string * node)) : Forall (fun entry => P (snd entry)) l :=
            match l with
            | [] => Forall_nil _
            | entry :: rest => Forall_cons entry (node_induction (snd entry)) (each rest)
            end) children)
  end.

End NodeInduction.

(** [at_path tree p n]: following the names [p] down from the directory
    [tree] leads to [n]. *)
Inductive at_path : node -> relpath -> node -> Prop :=
| at_child children name n :
    In (name, n) children -> at_path (Dir children) [name] n
| at_deeper children name child p n :
    In (name, child) children -> at_path child p n ->
    at_path (Dir children) (name :: p) n.

(** The regular file with content [data] at [p] below the directory
    found at a location, if any. *)
Definition file_at (tree : option node) (p : relpath) (data : string) : Prop :=
  exists t, tree = Some t /\ at_path t p (File data).

(** The number of regular files in a tree, and below a directory. *)
Fixpoint count_regular (n : node) : nat :=
  match n with
  | File _ => 1
  | Special => 0
  | Dir children => list_sum (map (fun entry => count_regular (snd entry)) children)
  end.

Definition regular_below (tree : option node) : nat :=
  match tree with
  | Some (Dir children) =>
      list_sum (map (fun entry => count_regular (snd entry)) children)
  | _ => 0
  end.

(** [entries] are exactly the regular files below [tree], each under its
    path relative to [tree], and nothing else. *)
Definition archive_of (tree : option node) (entries : list (relpath * string))
    : Prop :=
  (forall p data, In (p, data) entries <-> file_at tree p data)
  /\ List.length entries = regular_below tree.

(** The regular files among walked items. *)
Definition files_in (items : list (relpath * node)) : list (relpath * string) :=
  flat_map (fun item =>
              match snd item with
              | File data => [(fst item, data)]
              | _ => []
              end) items.







Definition with_zip (d : lambda_dir) (z : zip_node) : lambda_dir :=
  {| ld_bin := ld_bin d; ld_obj := ld_obj d; ld_publish := ld_publish d;
     ld_zip := Some z |}.





(** * Further vocabulary *)

(** The process exits with status 0. *)
Definition exits_0 (o : proc_outcome) : bool :=
  match o with
  | Exited rc _ _ | Garbled rc => rc =? 0
  | NotFound | CannotStart _ => false
  end.

(** What a launch raises that no command runner catches: the error of an
    executable that cannot be started, and, when the output is captured,
    the error of output that does not decode. *)
Definition crash (capture : bool) (o : proc_outcome) : option exn :=
  match o with
  | CannotStart msg => Some (OSError msg)
  | Garbled _ => if capture then Some (OtherError "UnicodeDecodeError") else None
  | NotFound | Exited _ _ _ => None
  end.

(** The launch comes back with exit status 0. *)
Definition passes (capture : bool) (o : proc_outcome) : bool :=
  match crash capture o with
  | Some _ => false
  | None => exits_0 o
  end.

(** What ends the run on a launch that was required to succeed and did
    not: [sys.exit(1)] of the runner, or the error no runner catches. *)
Definition ending (capture : bool) (o : proc_outcome) : exn :=
  match crash capture o with
  | Some e => e
  | None => SystemExit 1
  end.

(** The files after the next launch: a process that starts acts on them. *)
Definition fs_after (w : World) : FS :=
  match env_proc (w_env w) (w_nproc w) with
  | NotFound | CannotStart _ => w_fs w
  | Exited _ _ _ | Garbled _ => env_effect (w_env w) (w_nproc w) (w_fs w)
  end.

(** From [w] to [w'] exactly the command [cmd] was launched; nothing was
    requested, no pause taken, no prompt asked, no directory changed. *)
Definition launch_only (w : World) (cmd : list string) (check : bool)
    (w' : World) : Prop :=
  commands w' = (commands w ++ [(cmd, check)])%list
  /\ requests (w_trace w') = requests (w_trace w)
  /\ pauses (w_trace w') = pauses (w_trace w)
  /\ w_env w' = w_env w
  /\ w_nproc w' = S (w_nproc w)
  /\ w_nhttp w' = w_nhttp w
  /\ w_ninput w' = w_ninput w
  /\ w_cwd w' = w_cwd w
  /\ w_fs w' = fs_after w.

(** What the runner of the setup and deploy scripts answers to an outcome. *)
Definition runner_result (check capture : bool) (o : proc_outcome)
    : Result CompletedProcess :=
  match o with
  | NotFound => Raise (SystemExit 1)
  | Exited rc out err =>
      if check && negb (rc =? 0) then Raise (SystemExit 1)
      else Ret (completed capture rc out err)
  | CannotStart msg => Raise (OSError msg)
  | Garbled rc =>
      if capture then Raise (OtherError "UnicodeDecodeError")
      else if check && negb (rc =? 0) then Raise (SystemExit 1)
      else Ret {| returncode := rc; stdout := None; stderr := None |}
  end.

(** What the runner of the teardown script answers to an outcome. *)
Definition teardown_runner_result (check capture : bool) (o : proc_outcome)
    : Result (option CompletedProcess) :=
  match o with
  | NotFound => Raise (SystemExit 1)
  | Exited rc out err =>
      if check && negb (rc =? 0) then Ret None
      else Ret (Some (completed capture rc out err))
  | CannotStart msg => Raise (OSError msg)
  | Garbled rc =>
      if capture then Raise (OtherError "UnicodeDecodeError")
      else if check && negb (rc =? 0) then Ret None
      else Ret (Some {| returncode := rc; stdout := None; stderr := None |})
  end.

(** From [w] to [w'] only lines were printed. *)
Definition printed_only (w w' : World) : Prop :=
  commands w' = commands w
  /\ requests (w_trace w') = requests (w_trace w)
  /\ pauses (w_trace w') = pauses (w_trace w)
  /\ w_env w' = w_env w
  /\ w_nproc w' = w_nproc w
  /\ w_nhttp w' = w_nhttp w
  /\ w_ninput w' = w_ninput w
  /\ w_cwd w' = w_cwd w
  /\ w_fs w' = w_fs w.

(** From [w] to [w'] exactly the commands [cmds] were launched, in this
    order; nothing was requested, no pause taken, no prompt asked, and the
    working directory is the same. *)
Definition ran (w : World) (cmds : list (list string * bool)) (w' : World)
    : Prop :=
  commands w' = (commands w ++ cmds)%list
  /\ requests (w_trace w') = requests (w_trace w)
  /\ pauses (w_trace w') = pauses (w_trace w)
  /\ w_env w' = w_env w
  /\ w_nproc w' = (w_nproc w + List.length cmds)%nat
  /\ w_nhttp w' = w_nhttp w
  /\ w_ninput w' = w_ninput w
  /\ w_cwd w' = w_cwd w.

(** From [w] to [w'] exactly one request was made, to [url] with the
    given timeout, and nothing else happened but printing. *)
Definition asked_once (w : World) (url : string) (timeout : Z) (w' : World)
    : Prop :=
  commands w' = commands w
  /\ requests (w_trace w') = (requests (w_trace w) ++ [(url, timeout)])%list
  /\ pauses (w_trace w') = pauses (w_trace w)
  /\ w_env w' = w_env w
  /\ w_nproc w' = w_nproc w
  /\ w_nhttp w' = S (w_nhttp w)
  /\ w_ninput w' = w_ninput w
  /\ w_cwd w' = w_cwd w
  /\ w_fs w' = w_fs w.

(** The listing command of the verification script. *)
Definition container_listing : list string :=
  ["docker"; "ps"; "--filter"; "name=localstack"; "--format";
   "{{.Names}}" ++ PyStr.TAB ++ "{{.Status}}" ++ PyStr.TAB ++ "{{.Ports}}"].

(** The two probes of the verification script. *)
Definition s3_probe : list string :=
  ["aws"; "--endpoint-url"; "http://localhost:4566"; "s3"; "ls"].

Definition lambda_probe : list string :=
  ["aws"; "--endpoint-url"; "http://localhost:4566"; "lambda"; "list-functions"].

(** What the container check answers to the outcome of its listing, when
    it answers. *)
Definition container_answer (o : proc_outcome) : option bool :=
  match o with
  | Exited rc out _ =>
      if rc =? 0 then Some (PyStr.truthy (PyStr.strip out)) else None
  | NotFound | CannotStart _ | Garbled _ => None
  end.

(** Surroundings in which the teardown can do its work: every tool it
    launches runs to an exit, with output that can be read as text, and
    every prompt gets an answer. *)
Definition calm (env : Env) : Prop :=
  (forall k, exists rc out err, env_proc env k = Exited rc out err)
  /\ (forall k, env_input env k <> None).

(** [sys.exit(0)]. *)
Definition clean_exit (e : exn) : bool :=
  match e with
  | SystemExit code => code =? 0
  | _ => false
  end.

(** In calm surroundings [m] ends, by returning or with an exception
    that [ok] admits, and the surroundings stay the same. *)
Definition ends {A} (ok : exn -> bool) (m : M A) : Prop :=
  forall w, calm (w_env w) ->
    w_env (snd (m w)) = w_env w
    /\ match fst (m w) with
       | Ret _ => True
       | Raise e => ok e = true
       | OutOfFuel => False
       end.

(** The data directory goes away in the next [remove_volumes]: it is a
    directory, the answer to the prompt affirms, and the operating system
    does not refuse. *)
Definition data_removed (w : World) : bool :=
  match fs_data (w_fs w) with
  | Some (Dir _) =>
      affirms (env_input (w_env w) (w_ninput w))
      && negb (is_some (env_rmtree_fails (w_env w) (w_nrmtree w)))
  | _ => false
  end.

(** The files after a [remove_volumes] that did not remove the data
    directory: as before, unless a confirmed deletion failed part of the
    way, which leaves the directory without what had been deleted by then. *)
Definition data_left (w : World) : FS :=
  match fs_data (w_fs w), env_rmtree_fails (w_env w) (w_nrmtree w) with
  | Some (Dir children), Some (_, gone) =>
      if affirms (env_input (w_env w) (w_ninput w))
      then fs_put (w_fs w) LocalstackData (prune_all gone (Dir children))
      else w_fs w
  | _, _ => w_fs w
  end.

(** The tool can be located and started. *)
Definition starts (o : proc_outcome) : bool :=
  match o with
  | NotFound | CannotStart _ => false
  | Exited _ _ _ | Garbled _ => true
  end.

(** The listing commands of the teardown and the removals they lead to. *)
Definition list_containers : list string :=
  ["docker"; "ps"; "-a"; "--filter"; "name=localstack"; "--format"; "{{.Names}}"].

Definition list_images : list string :=
  ["docker"; "images"; "localstack/localstack"; "--format"; "{{.ID}}"].

Definition remove_container (name : string) : list string * bool :=
  (["docker"; "rm"; "-f"; name], false).

Definition remove_image (id : string) : list string * bool :=
  (["docker"; "rmi"; id], false).

(** The setup gets as far as starting LocalStack: [docker info] comes
    back with status 0, the compose file is there afterwards, and
    [docker-compose up] comes back with status 0. *)
Definition started (w : World) : bool :=
  passes true (env_proc (w_env w) (w_nproc w))
  && fs_compose (fs_after w)
  && passes false (env_proc (w_env w) (S (w_nproc w))).

Definition compose_up : list string := ["docker-compose"; "up"; "-d"; "localstack"].


(** The files after the launches [n], ..., [n + k - 1], all of processes
    that started. *)
Fixpoint files_after (env : Env) (n k : nat) (fs : FS) : FS :=
  match k with
  | O => fs
  | S k' => files_after env (S n) k' (env_effect env n fs)
  end.

(** The commands of the image deployment. *)
Definition image_checks : list (list string * bool) :=
  [(["docker"; "--version"], true); (["aws"; "--version"], true);
   (["docker"; "ps"; "--filter"; "name=localstack"; "--format"; "{{.Names}}"], false)].

Definition docker_build : list string :=
  ["docker"; "build"; "-t"; "simple-lambda:latest"; "."].

Definition docker_tag : list string :=
  ["docker"; "tag"; "simple-lambda:latest"; "localhost:4510/simple-lambda:latest"].

Definition docker_push : list string :=
  ["docker"; "push"; "localhost:4510/simple-lambda:latest"].

(** What the image deployment launches after its checks, as far as it
    gets while the image has not been built, tagged and pushed. *)
Definition image_steps (w : World) : list (list string * bool) :=
  if is_some (fs_lambda (files_after (w_env w) (w_nproc w) 3 (w_fs w))) then
    (docker_build, true)
    :: (if exits_0 (env_proc (w_env w) (w_nproc w + 3))
        then (docker_tag, true)
             :: (if exits_0 (env_proc (w_env w) (w_nproc w + 4))
                 then [(docker_push, false)] else [])
        else [])
  else [].

(** The image has been built, tagged and pushed once the checks are
    through. *)
Definition shipped (w : World) : bool :=
  is_some (fs_lambda (files_after (w_env w) (w_nproc w) 3 (w_fs w)))
  && exits_0 (env_proc (w_env w) (w_nproc w + 3))
  && exits_0 (env_proc (w_env w) (w_nproc w + 4))
  && exits_0 (env_proc (w_env w) (w_nproc w + 5)).

(** What the image deployment ends on when the image has not been
    built, tagged and pushed: status 1, or the error of the command that
    could not be started. *)
Definition image_stop (w : World) : exn :=
  if is_some (fs_lambda (files_after (w_env w) (w_nproc w) 3 (w_fs w))) then
    if exits_0 (env_proc (w_env w) (w_nproc w + 3)) then
      if exits_0 (env_proc (w_env w) (w_nproc w + 4))
      then ending false (env_proc (w_env w) (w_nproc w + 5))
      else ending false (env_proc (w_env w) (w_nproc w + 4))
    else ending false (env_proc (w_env w) (w_nproc w + 3))
  else SystemExit 1.

(** A directory tree as a file system holds it: within a directory no two
    entries share a name. *)
Fixpoint well_named (n : node) : Prop :=
  match n with
  | Dir children =>
      NoDup (map fst children)
      /\ (fix each (l : list (string * node)) : Prop :=
            match l with
            | [] => True
            | entry :: rest => well_named (snd entry) /\ each rest
            end) children
  | _ => True
  end.

(** [lambda.zip] can be opened and read: it is there and not a directory. *)
Definition readable (o : option zip_node) : bool :=
  match o with
  | Some ZipIsDir | None => false
  | Some _ => true
  end.

(** A listing that ran and printed nothing but white space. *)
Definition lists_nothing (o : proc_outcome) : bool :=
  match o with
  | Exited _ out _ => negb (PyStr.truthy (PyStr.strip out))
  | NotFound | CannotStart _ | Garbled _ => false
  end.


(** In [w'] the script has removed, since it last changed directory, the
    directories it had removed in [w]: from [w] to [w'] it has neither
    changed directory nor removed one. *)
Definition same_removals (w w' : World) : Prop :=
  forall d, removed_since_chdir d (w_trace w') = removed_since_chdir d (w_trace w).

(** * Proofs *)

(** Unfolds the monad and the runner of the setup and deploy scripts. *)
Ltac run_all :=
  unfold run_command_fatal, try_except, subprocess_run, bind, print_step, print,
    emit, text_of, ret, sys_exit, raise in *.

Ltac norm_list := rewrite ?app_nil_r, <- ?app_assoc; cbn [app]; try reflexivity.

(** ** Text *)

Lemma prefix_spec n h : prefix n h = true <-> exists post, h = n ++ post.
Proof.
  revert h. induction n as [| a n IH]; intros h; cbn.
  - split; [intros _; exists h; reflexivity | intros _; now destruct h].
  - destruct h as [| b h]; cbn.
    + split; [discriminate | intros [post E]; discriminate E].
    + destruct (ascii_dec a b) as [-> | N].
      * rewrite IH. split; intros [post E]; exists post.
        -- now rewrite E.
        -- now injection E.
      * split; [discriminate |].
        intros [post E]. injection E as E1 _. now elim N.
Qed.

Lemma contains_eq n h :
  PyStr.contains n h
  = if prefix n h then true
    else match h with
         | EmptyString => false
         | String _ rest => PyStr.contains n rest
         end.
Proof. destruct h; reflexivity. Qed.

Lemma contains_spec n h : PyStr.contains n h = true <-> is_substring n h.
Proof.
  induction h as [| c h IH]; rewrite contains_eq.
  - destruct (prefix n "") eqn:P.
    + split; [intros _ | reflexivity].
      apply prefix_spec in P. destruct P as [post E]. now exists "", post.
    + split; [discriminate |].
      intros [pre [post E]]. destruct pre; cbn in E.
      * assert (prefix n "" = true) by (apply prefix_spec; now exists post).
        congruence.
      * discriminate E.
  - destruct (prefix n (String c h)) eqn:P.
    + split; [intros _ | reflexivity].
      apply prefix_spec in P. destruct P as [post E]. now exists "", post.
    + rewrite IH. split.
      * intros [pre [post E]]. exists (String c pre), post. cbn. now rewrite E.
      * intros [pre [post E]]. destruct pre as [| c' pre]; cbn in E.
        -- assert (prefix n (String c h) = true) by (apply prefix_spec; now exists post).
           congruence.
        -- injection E as _ E. now exists pre, post.
Qed.

Lemma lower_app a b : PyStr.lower (a ++ b) = PyStr.lower a ++ PyStr.lower b.
Proof. induction a as [| c a IH]; cbn; [reflexivity | now rewrite IH]. Qed.

Lemma lower_split s a b :
  PyStr.lower s = a ++ b ->
  exists s1 s2, s = s1 ++ s2 /\ PyStr.lower s1 = a /\ PyStr.lower s2 = b.
Proof.
  revert s. induction a as [| c a IH]; intros s E; cbn in E.
  - now exists "", s.
  - destruct s as [| d s]; cbn in E; [discriminate |].
    injection E as E1 E2.
    destruct (IH s E2) as [s1 [s2 [-> [L1 L2]]]].
    exists (String d s1), s2. cbn. now rewrite E1, L1, L2.
Qed.

Lemma conflict_signature_spec err :
  conflict_signature err = true <-> conflict_text err.
Proof.
  unfold conflict_signature, conflict_text.
  rewrite orb_true_iff, !contains_spec. split.
  - intros [H | [pre [post E]]]; [now left | right].
    apply lower_split in E. destruct E as [s1 [s2 [-> [_ E]]]].
    apply lower_split in E. destruct E as [u [s3 [-> [L _]]]].
    exists u. split; [now exists s1, s3 | exact L].
  - intros [H | [u [[pre [post E]] L]]]; [now left | right].
    exists (PyStr.lower pre), (PyStr.lower post).
    now rewrite E, !lower_app, L.
Qed.

Arguments String.append : simpl never.
Arguments conflict_signature : simpl never.
Arguments PyStr.join : simpl never.
Arguments PyStr.truthy : simpl never.
Arguments PyStr.strip : simpl never.
Arguments PyStr.split : simpl never.
Arguments PyStr.lower : simpl never.
Arguments PyStr.str_of_Z : simpl never.



(** ** One step at a time *)

Lemma fatal_exit_1 {A} : fatal (@Raise A (SystemExit 1)).
Proof. exists 1. split; [reflexivity | discriminate]. Qed.


Lemma bind_run {A B} (m : M A) (k : A -> M B) w a w' :
  m w = (Ret a, w') -> bind m k w = k a w'.
Proof. intros H. unfold bind. now rewrite H. Qed.

Lemma bind_stop {A B} (m : M A) (k : A -> M B) w e w' :
  m w = (Raise e, w') -> bind m k w = (Raise e, w').
Proof. intros H. unfold bind. now rewrite H. Qed.

Ltac run_step := erewrite bind_run by reflexivity; cbv beta.

(** *** Changing directory *)

Lemma chdir_there d w :
  fs_exists (w_fs w) d = true ->
  chdir d w = (Ret tt, with_cwd (with_trace w (EvChdir d)) d).
Proof. intros X. unfold chdir. now rewrite X. Qed.

Lemma chdir_kept d w :
  removed_since_chdir d (w_trace w) = false ->
  chdir d w = (Ret tt, with_cwd (with_trace w (EvChdir d)) d).
Proof. intros X. unfold chdir. rewrite X. now rewrite andb_false_r. Qed.

Lemma try_finally_run {A} (body : M A) d w a w' :
  body w = (Ret a, w') ->
  removed_since_chdir d (w_trace w') = false ->
  try_finally body (chdir d) w = (Ret a, with_cwd (with_trace w' (EvChdir d)) d).
Proof. intros H R. unfold try_finally. now rewrite H, (chdir_kept d w' R). Qed.

Lemma try_finally_stop {A} (body : M A) d w e w' :
  body w = (Raise e, w') ->
  removed_since_chdir d (w_trace w') = false ->
  try_finally body (chdir d) w = (Raise e, with_cwd (with_trace w' (EvChdir d)) d).
Proof. intros H R. unfold try_finally. now rewrite H, (chdir_kept d w' R). Qed.

(** *** Frames *)


Lemma printed_only_refl w : printed_only w w.
Proof. repeat split. Qed.

Lemma printed_only_print w line : printed_only w (with_trace w (EvPrint line)).
Proof. unfold printed_only, commands. cbn. rewrite app_nil_r. repeat split. Qed.

Lemma printed_only_trans w1 w2 w3 :
  printed_only w1 w2 -> printed_only w2 w3 -> printed_only w1 w3.
Proof.
  unfold printed_only.
  intros [A1 [A2 [A3 [A4 [A5 [A6 [A7 [A8 A9]]]]]]]]
         [B1 [B2 [B3 [B4 [B5 [B6 [B7 [B8 B9]]]]]]]].
  repeat split; congruence.
Qed.

Lemma printed_only_print2 w l1 l2 :
  printed_only w (with_trace (with_trace w (EvPrint l1)) (EvPrint l2)).
Proof.
  apply printed_only_trans with (with_trace w (EvPrint l1)); apply printed_only_print.
Qed.

Lemma launch_only_after w0 w cmd check w' :
  printed_only w0 w -> launch_only w cmd check w' -> launch_only w0 cmd check w'.
Proof.
  unfold printed_only, launch_only, fs_after.
  intros [A1 [A2 [A3 [A4 [A5 [A6 [A7 [A8 A9]]]]]]]]
         [B1 [B2 [B3 [B4 [B5 [B6 [B7 [B8 B9]]]]]]]].
  rewrite <- A4, <- A5, <- A9. repeat split; congruence.
Qed.

Lemma launch_only_before w cmd check w1 w2 :
  launch_only w cmd check w1 -> printed_only w1 w2 -> launch_only w cmd check w2.
Proof.
  unfold printed_only, launch_only.
  intros [B1 [B2 [B3 [B4 [B5 [B6 [B7 [B8 B9]]]]]]]]
         [A1 [A2 [A3 [A4 [A5 [A6 [A7 [A8 A9]]]]]]]].
  repeat split; congruence.
Qed.

(** A command launched from another directory, the old one entered again
    afterwards, is a launch that changed no directory. *)
Lemma launch_only_moved w line d cmd check w1 :
  launch_only (with_cwd (with_trace (with_trace w (EvPrint line)) (EvChdir d)) d)
    cmd check w1 ->
  launch_only w cmd check (with_cwd (with_trace w1 (EvChdir (w_cwd w))) (w_cwd w)).
Proof.
  unfold launch_only, fs_after, commands. cbn.
  rewrite !app_nil_r.
  intros [B1 [B2 [B3 [B4 [B5 [B6 [B7 [B8 B9]]]]]]]].
  repeat split; assumption.
Qed.

Lemma ran_printed w w' : printed_only w w' -> ran w [] w'.
Proof.
  unfold printed_only, ran.
  intros [A1 [A2 [A3 [A4 [A5 [A6 [A7 [A8 A9]]]]]]]].
  rewrite app_nil_r. cbn [List.length]. rewrite Nat.add_0_r. repeat split; assumption.
Qed.

Lemma ran_launch w cmd check w' : launch_only w cmd check w' -> ran w [(cmd, check)] w'.
Proof.
  unfold launch_only, ran.
  intros [A1 [A2 [A3 [A4 [A5 [A6 [A7 [A8 A9]]]]]]]].
  cbn [List.length]. rewrite Nat.add_1_r. repeat split; assumption.
Qed.

Lemma ran_trans w1 c1 w2 c2 w3 :
  ran w1 c1 w2 -> ran w2 c2 w3 -> ran w1 (c1 ++ c2) w3.
Proof.
  unfold ran.
  intros [A1 [A2 [A3 [A4 [A5 [A6 [A7 A8]]]]]]] [B1 [B2 [B3 [B4 [B5 [B6 [B7 B8]]]]]]].
  rewrite length_app, app_assoc, Nat.add_assoc. repeat split; congruence.
Qed.

Lemma ran_print w cmds w' line :
  ran w cmds w' -> ran w cmds (with_trace w' (EvPrint line)).
Proof.
  intros R. rewrite <- (app_nil_r cmds).
  apply ran_trans with w'; [exact R | apply ran_printed, printed_only_print].
Qed.

Lemma ran_after_print w line cmds w' :
  ran (with_trace w (EvPrint line)) cmds w' -> ran w cmds w'.
Proof.
  intros R. change cmds with ([] ++ cmds)%list.
  apply ran_trans with (with_trace w (EvPrint line));
    [apply ran_printed, printed_only_print | exact R].
Qed.

(** The outcome the next launch after [ran w cmds w'] meets. *)
Lemma ran_next w cmds w' :
  ran w cmds w' ->
  env_proc (w_env w') (w_nproc w')
  = env_proc (w_env w) (w_nproc w + List.length cmds).
Proof. intros [_ [_ [_ [E [N _]]]]]. now rewrite E, N. Qed.

Lemma for_each_printed {A} (items : list A) (body : A -> M unit) :
  (forall x w, exists w', body x w = (Ret tt, w') /\ printed_only w w') ->
  forall w, exists w', for_each items body w = (Ret tt, w') /\ printed_only w w'.
Proof.
  intros B. induction items as [| x items IH]; intros w.
  - exists w. split; [reflexivity | apply printed_only_refl].
  - cbn [for_each].
    destruct (B x w) as [w1 [E1 F1]]. rewrite (bind_run _ _ _ _ _ E1).
    destruct (IH w1) as [w2 [E2 F2]]. exists w2.
    split; [exact E2 | now apply printed_only_trans with w1].
Qed.

(** *** Launches *)

Lemma subprocess_run_launch cmd check capture timeout w :
  launch_only w cmd check (snd (subprocess_run cmd check capture timeout w))
  /\ same_removals w (snd (subprocess_run cmd check capture timeout w)).
Proof.
  unfold subprocess_run, launch_only, fs_after, commands, same_removals.
  destruct (env_proc (w_env w) (w_nproc w)) as [| rc out err | msg | rc].
  - cbn. repeat split.
  - destruct (match timeout with Some _ => _ | None => _ end);
      [| destruct (check && negb (rc =? 0))]; cbn; repeat split.
  - cbn. repeat split.
  - destruct (match timeout with Some _ => _ | None => _ end);
      [| destruct capture; [| destruct (check && negb (rc =? 0))]]; cbn; repeat split.
Qed.

Lemma run_command_fatal_launch cmd check capture w :
  exists w',
    run_command_fatal cmd check capture w
    = (runner_result check capture (env_proc (w_env w) (w_nproc w)), w')
    /\ launch_only w cmd check w'
    /\ same_removals w w'.
Proof.
  unfold run_command_fatal, try_except, subprocess_run, runner_result, launch_only,
    fs_after, commands, same_removals.
  destruct (env_proc (w_env w) (w_nproc w)) as [| rc out err | msg | rc].
  - eexists. split; [reflexivity |]. cbn. repeat split; norm_list.
  - destruct (check && negb (rc =? 0)).
    + destruct capture; [destruct (PyStr.truthy err) eqn:T |];
        eexists; (split; [cbn; rewrite ?T; reflexivity |]); cbn; repeat split; norm_list.
    + eexists. split; [reflexivity |]. cbn. repeat split; norm_list.
  - eexists. split; [reflexivity |]. cbn. repeat split; norm_list.
  - destruct capture.
    + eexists. split; [reflexivity |]. cbn. repeat split; norm_list.
    + destruct (check && negb (rc =? 0));
        eexists; (split; [reflexivity |]); cbn; repeat split; norm_list.
Qed.

Lemma teardown_run_command_launch cmd check capture w :
  exists w',
    Teardown.run_command cmd check capture w
    = (teardown_runner_result check capture (env_proc (w_env w) (w_nproc w)), w')
    /\ launch_only w cmd check w'
    /\ same_removals w w'.
Proof.
  unfold Teardown.run_command, try_except, subprocess_run, teardown_runner_result,
    launch_only, fs_after, commands, bind, same_removals.
  destruct (env_proc (w_env w) (w_nproc w)) as [| rc out err | msg | rc].
  - eexists. split; [reflexivity |]. cbn. repeat split; norm_list.
  - destruct (check && negb (rc =? 0)).
    + destruct capture; [destruct (PyStr.truthy err) eqn:T |];
        eexists; (split; [cbn; rewrite ?T; reflexivity |]); cbn; repeat split; norm_list.
    + eexists. split; [reflexivity |]. cbn. repeat split; norm_list.
  - eexists. split; [reflexivity |]. cbn. repeat split; norm_list.
  - destruct capture.
    + eexists. split; [reflexivity |]. cbn. repeat split; norm_list.
    + destruct (check && negb (rc =? 0));
        eexists; (split; [reflexivity |]); cbn; repeat split; norm_list.
Qed.



Lemma passes_result check capture o :
  passes capture o = true ->
  exists r, runner_result check capture o = Ret r /\ returncode r = 0.
Proof.
  unfold passes, crash, exits_0, runner_result.
  destruct o as [| rc out err | msg | rc]; try discriminate.
  - intros E. rewrite E. cbn. rewrite andb_false_r. eexists. split; reflexivity || (cbn; now apply Z.eqb_eq).
  - destruct capture; [discriminate |]. intros E. rewrite E. cbn.
    rewrite andb_false_r. eexists. split; reflexivity || (cbn; now apply Z.eqb_eq).
Qed.

Lemma fails_result capture o :
  passes capture o = false ->
  runner_result true capture o = Raise (ending capture o).
Proof.
  unfold passes, ending, crash, exits_0, runner_result.
  destruct o as [| rc out err | msg | rc]; try reflexivity.
  - intros E. now rewrite E.
  - destruct capture; [reflexivity |]. intros E. now rewrite E.
Qed.

Lemma passes_uncaptured o : passes false o = exits_0 o.
Proof. now destruct o. Qed.

(** ** The command runners *)










(** ** The deployment upsert *)

Lemma update_ends_spec o :
  match runner_result true false o with
  | Ret _ => update_ends o = Ret tt
  | Raise e => update_ends o = Raise e
  | OutOfFuel => False
  end.
Proof.
  destruct o as [| rc out err | msg | rc]; cbn; try reflexivity;
    destruct (rc =? 0); reflexivity.
Qed.

Lemma update_ends_fatal o :
  update_ends o = Ret tt
  \/ exists e, update_ends o = Raise e /\ exit_status (update_ends o) = Some 1.
Proof.
  destruct o as [| rc out err | msg | rc]; cbn;
    try (right; eexists; split; reflexivity);
    destruct (rc =? 0); (now left) || (right; eexists; split; reflexivity).
Qed.

(** The update of either script, once the conflict has been recognised. *)
Lemma update_step line update done w :
  exists w',
    (print line ;;
     run_command_fatal update true false ;;
     print done) w
    = (update_ends (env_proc (w_env w) (w_nproc w)), w')
    /\ commands w' = (commands w ++ [(update, true)])%list.
Proof.
  run_step.
  destruct (run_command_fatal_launch update true false (with_trace w (EvPrint line)))
    as [w1 [E [L _]]].
  apply launch_only_after with (w0 := w) in L; [| apply printed_only_print].
  change (env_proc (w_env (with_trace w _)) _)
    with (env_proc (w_env w) (w_nproc w)) in E.
  pose proof (update_ends_spec (env_proc (w_env w) (w_nproc w))) as U.
  destruct (runner_result true false (env_proc (w_env w) (w_nproc w)))
    as [r | e |]; [| | contradiction].
  - rewrite (bind_run _ _ _ _ _ E), U. eexists. split; [reflexivity |].
    destruct L as [C _]. unfold commands in *. cbn. now rewrite app_nil_r.
  - rewrite (bind_stop _ _ _ _ _ E), U. exists w1. split; [reflexivity |].
    now destruct L.
Qed.

Lemma upsert_run line exists_line create update w rc out err :
  env_proc (w_env w) (w_nproc w) = Exited rc out err ->
  upsert_protocol create update w rc err
    (fst ((print line ;;
           result <- run_command_fatal create false true ;;
           if returncode result =? 0 then print "✅ Lambda function created!"
           else
             err <- text_of (stderr result) ;;
             if conflict_signature err then
               print exists_line ;;
               run_command_fatal update true false ;;
               print "✅ Lambda function updated!"
             else
               print ("❌ Failed to create Lambda function: " ++ err) ;;
               sys_exit 1) w))
    (snd ((print line ;;
           result <- run_command_fatal create false true ;;
           if returncode result =? 0 then print "✅ Lambda function created!"
           else
             err <- text_of (stderr result) ;;
             if conflict_signature err then
               print exists_line ;;
               run_command_fatal update true false ;;
               print "✅ Lambda function updated!"
             else
               print ("❌ Failed to create Lambda function: " ++ err) ;;
               sys_exit 1) w)).
Proof.
  intros H. run_step.
  destruct (run_command_fatal_launch create false true (with_trace w (EvPrint line)))
    as [w1 [E [L _]]].
  apply launch_only_after with (w0 := w) in L; [| apply printed_only_print].
  change (env_proc (w_env (with_trace w _)) _)
    with (env_proc (w_env w) (w_nproc w)) in E.
  rewrite H in E. cbn [runner_result andb] in E.
  rewrite (bind_run _ _ _ _ _ E). cbn [completed returncode stderr].
  destruct L as [C [_ [_ [V [N _]]]]].
  unfold upsert_protocol.
  destruct (Z.eqb_spec rc 0) as [Z0 | NZ].
  - cbn [fst snd]. split; [| split]; try (intros; contradiction).
    intros _. split; [reflexivity |]. unfold commands in *. cbn. now rewrite app_nil_r.
  - rewrite (bind_run _ _ _ err _ eq_refl).
    destruct (conflict_signature err) eqn:S.
    + assert (CT : conflict_text err) by now apply conflict_signature_spec.
      destruct (update_step exists_line update
                  "✅ Lambda function updated!" w1) as [w2 [E2 C2]].
      rewrite E2. cbn [fst snd]. rewrite V, N.
      split; [| split]; try (intros; contradiction).
      intros _ _. split; [| split; [reflexivity | apply update_ends_fatal]].
      rewrite C2, C. norm_list.
    + assert (CT : ~ conflict_text err).
      { intros X. apply conflict_signature_spec in X. congruence. }
      run_step. cbn [fst snd sys_exit raise].
      split; [| split]; try (intros; contradiction).
      intros _ _. split; [reflexivity |]. split; [| reflexivity].
      unfold commands in *. cbn. now rewrite app_nil_r.
Qed.

Lemma upsert_image w rc out err :
  env_proc (w_env w) (w_nproc w) = Exited rc out err ->
  upsert_protocol create_from_image update_from_image w rc err
    (fst (DeployImage.create_or_update_lambda w))
    (snd (DeployImage.create_or_update_lambda w)).
Proof.
  intros H.
  exact (upsert_run ("📝" ++ " " ++ "Creating Lambda function in LocalStack...")
           "⚠️  Lambda already exists, updating instead... ⚠️"
           create_from_image update_from_image w rc out err H).
Qed.

Lemma read_file_frame p w :
  fst (read_file p w) = Ret tt -> forall e, read_file p (with_trace w e) = (Ret tt, with_trace w e).
Proof.
  intros R e. unfold read_file in *. cbn [w_fs with_trace].
  destruct p; cbn in *;
    repeat match goal with
           | H : context [match ?x with _ => _ end] |- _ => destruct x; cbn in H
           end; try discriminate; reflexivity.
Qed.

Lemma upsert_zip w zip_path rc out err :
  env_proc (w_env w) (w_nproc w) = Exited rc out err ->
  fst (read_file zip_path w) = Ret tt ->
  upsert_protocol (create_from_zip (path_str (w_env w) zip_path))
    (update_from_zip (path_str (w_env w) zip_path)) w rc err
    (fst (DeployZip.deploy_lambda zip_path w))
    (snd (DeployZip.deploy_lambda zip_path w)).
Proof.
  intros H R.
  pose proof (upsert_run ("📝" ++ " " ++ "Deploying Lambda function...")
                "⚠️  Lambda already exists, updating code..."
                (create_from_zip (path_str (w_env w) zip_path))
                (update_from_zip (path_str (w_env w) zip_path)) w rc out err H) as U.
  match type of U with
  | upsert_protocol _ _ _ _ _ (fst ?p) _ =>
      assert (EQ : DeployZip.deploy_lambda zip_path w = p)
  end.
  { unfold DeployZip.deploy_lambda. run_step.
    rewrite (bind_run _ _ _ _ _ (read_file_frame zip_path w R _)).
    symmetry. run_step. reflexivity. }
  rewrite EQ. exact U.
Qed.

(** C1.  Whenever the create command of the deployment upsert runs to an
    exit: on exit 0 the function is created and no update is launched;
    otherwise, when the captured error text carries the conflict signature
    (the exception name as written, or "already exists" in any letter
    case), exactly one update is launched, required to succeed, and the
    run goes on exactly when it exits 0 and ends with status 1 otherwise;
    else the run ends with status 1, the last line printed carries the
    raw error text, and no update is launched.  The create is a
    [create-function] call and the update an [update-function-code] call
    for the function [simple-lambda], as written out in the statement.
    Both deploy scripts, the ZIP script once it has read the package. *)
Theorem deployment_upsert w zip_path rc out err :
  env_proc (w_env w) (w_nproc w) = Exited rc out err ->
  upsert_protocol create_from_image update_from_image w rc err
    (fst (DeployImage.create_or_update_lambda w))
    (snd (DeployImage.create_or_update_lambda w))
  /\ (fst (read_file zip_path w) = Ret tt ->
      upsert_protocol (create_from_zip (path_str (w_env w) zip_path))
        (update_from_zip (path_str (w_env w) zip_path)) w rc err
        (fst (DeployZip.deploy_lambda zip_path w))
        (snd (DeployZip.deploy_lambda zip_path w))).
Proof.
  intros H. split; [now apply upsert_image with out | intros R; now apply upsert_zip with out].
Qed.

Lemma deployment_upsert_witness :
  let w := fresh (scripted [Exited 254 "" "Function ALREADY EXISTS: simple-lambda"] [] [])
                 (set_lambda blank_fs
                    {| ld_bin := None; ld_obj := None; ld_publish := None;
                       ld_zip := Some (ZipArchive []) |}) in
  upsert_protocol create_from_image update_from_image w 254
    "Function ALREADY EXISTS: simple-lambda"
    (fst (DeployImage.create_or_update_lambda w))
    (snd (DeployImage.create_or_update_lambda w))
  /\ upsert_protocol (create_from_zip (path_str (w_env w) LambdaZip))
       (update_from_zip (path_str (w_env w) LambdaZip)) w 254
       "Function ALREADY EXISTS: simple-lambda"
       (fst (DeployZip.deploy_lambda LambdaZip w))
       (snd (DeployZip.deploy_lambda LambdaZip w)).
Proof.
  cbn zeta.
  destruct (deployment_upsert
              (fresh (scripted [Exited 254 "" "Function ALREADY EXISTS: simple-lambda"] [] [])
                 (set_lambda blank_fs
                    {| ld_bin := None; ld_obj := None; ld_publish := None;
                       ld_zip := Some (ZipArchive []) |}))
              LambdaZip 254 "" "Function ALREADY EXISTS: simple-lambda" eq_refl)
    as [I Z].
  split; [exact I | apply Z; reflexivity].
Defined.

Example conflict_signature_name :
  conflict_signature
    "An error occurred (ResourceConflictException) when calling the CreateFunction operation"
  = true.
Proof. reflexivity. Qed.

Example conflict_signature_any_case :
  conflict_signature "Function ALREADY EXISTS: simple-lambda" = true.
Proof. reflexivity. Qed.

Example conflict_signature_other :
  conflict_signature "Could not connect to the endpoint URL" = false.
Proof. reflexivity. Qed.

(** ** The verification script *)

Lemma check_container_status_run w :
  exists w',
    Verify.check_container_status w
    = (match crash true (env_proc (w_env w) (w_nproc w)) with
       | Some e => Raise e
       | None => Ret (container_answer (env_proc (w_env w) (w_nproc w)))
       end, w')
    /\ launch_only w container_listing true w'
    /\ (crash true (env_proc (w_env w) (w_nproc w)) <> None ->
        hd_error (w_trace w') = Some (EvRun container_listing true true None)).
Proof.
  unfold Verify.check_container_status. run_step.
  fold container_listing.
  match goal with |- context [try_except _ _ ?x] => set (w0 := x) end.
  pose proof (proj1 (subprocess_run_launch container_listing true true None w0)) as L.
  apply (launch_only_after w) in L; [| apply printed_only_print].
  unfold try_except, container_answer, crash.
  change (env_proc (w_env w) (w_nproc w)) with (env_proc (w_env w0) (w_nproc w0)).
  destruct (env_proc (w_env w0) (w_nproc w0)) as [| rc out err | msg | rc] eqn:P.
  - assert (E : subprocess_run container_listing true true None w0
                = (Raise FileNotFoundError,
                   snd (subprocess_run container_listing true true None w0))).
    { unfold subprocess_run. now rewrite P. }
    rewrite (bind_stop _ _ _ _ _ E). cbn [print bind emit ret].
    eexists. split; [reflexivity |]. split; [| intros X; now elim X].
    apply launch_only_before with (1 := L). apply printed_only_print.
  - destruct (rc =? 0) eqn:Z0.
    + assert (E : subprocess_run container_listing true true None w0
                  = (Ret (completed true rc out err),
                     snd (subprocess_run container_listing true true None w0))).
      { unfold subprocess_run. rewrite P, Z0. reflexivity. }
      rewrite (bind_run _ _ _ _ _ E). cbn [completed stdout text_of].
      rewrite (bind_run _ _ _ out _ eq_refl).
      destruct (PyStr.truthy (PyStr.strip out)).
      * match goal with |- context [bind (for_each ?l ?f) _ ?x] =>
          destruct (for_each_printed l f) with (w := x) as [w1 [E1 F1]]
        end.
        { intros line x.
          destruct (2 <=? List.length (PyStr.split "009" line))%nat.
          - do 2 run_step. eexists. split; [reflexivity |].
            apply printed_only_trans with (with_trace x
              (EvPrint ("   Container: " ++ nth 0 (PyStr.split "009" line) ""))).
            + apply printed_only_print.
            + apply printed_only_print2.
          - eexists. split; [reflexivity | apply printed_only_refl]. }
        rewrite (bind_run _ _ _ _ _ E1).
        eexists. split; [reflexivity |]. split; [| intros X; now elim X].
        apply launch_only_before with (1 := L). exact F1.
      * do 2 run_step. eexists. split; [reflexivity |].
        split; [| intros X; now elim X].
        apply launch_only_before with (1 := L). apply printed_only_print2.
    + assert (E : subprocess_run container_listing true true None w0
                  = (Raise (CalledProcessError container_listing rc (Some err)),
                     snd (subprocess_run container_listing true true None w0))).
      { unfold subprocess_run. rewrite P, Z0. reflexivity. }
      rewrite (bind_stop _ _ _ _ _ E). cbn [print bind emit ret].
      eexists. split; [reflexivity |]. split; [| intros X; now elim X].
      apply launch_only_before with (1 := L). apply printed_only_print.
  - assert (E : subprocess_run container_listing true true None w0
                = (Raise (OSError msg),
                   snd (subprocess_run container_listing true true None w0))).
    { unfold subprocess_run. now rewrite P. }
    rewrite (bind_stop _ _ _ _ _ E).
    eexists. split; [reflexivity |]. split; [exact L | intros _].
    unfold subprocess_run. now rewrite P.
  - assert (E : subprocess_run container_listing true true None w0
                = (Raise (OtherError "UnicodeDecodeError"),
                   snd (subprocess_run container_listing true true None w0))).
    { unfold subprocess_run. now rewrite P. }
    rewrite (bind_stop _ _ _ _ _ E).
    eexists. split; [reflexivity |]. split; [exact L | intros _].
    unfold subprocess_run. now rewrite P.
Qed.

Lemma subprocess_run_raises cmd check capture timeout w e w' :
  subprocess_run cmd check capture timeout w = (Raise e, w') -> is_Exception e = true.
Proof.
  unfold subprocess_run.
  destruct (env_proc (w_env w) (w_nproc w)) as [| rc out err | msg | rc];
    repeat match goal with
           | |- context [if ?b then _ else _] => destruct b
           end; intros E; inversion E; reflexivity.
Qed.

Lemma subprocess_run_halts cmd check capture timeout w :
  fst (subprocess_run cmd check capture timeout w) <> OutOfFuel.
Proof.
  unfold subprocess_run.
  destruct (env_proc (w_env w) (w_nproc w)) as [| rc out err | msg | rc];
    repeat match goal with
           | |- context [if ?b then _ else _] => destruct b
           end; discriminate.
Qed.

Lemma probe_run cmd service w :
  exists w', Verify.probe cmd service w = (Ret tt, w') /\ launch_only w cmd false w'.
Proof.
  unfold Verify.probe.
  pose proof (proj1 (subprocess_run_launch cmd false true (Some 5) w)) as L.
  pose proof (subprocess_run_halts cmd false true (Some 5) w) as N.
  unfold try_except.
  destruct (subprocess_run cmd false true (Some 5) w) as [[r | e |] w1] eqn:E;
    cbn [fst snd] in L, N.
  - rewrite (bind_run _ _ _ _ _ E).
    destruct (returncode r =? 0); eexists; (split; [reflexivity |]);
      (apply launch_only_before with (1 := L); apply printed_only_print).
  - rewrite (bind_stop _ _ _ _ _ E).
    rewrite (subprocess_run_raises _ _ _ _ _ _ _ E).
    eexists. split; [reflexivity |].
    apply launch_only_before with (1 := L). apply printed_only_print.
  - now elim N.
Qed.

Lemma test_basic_operations_run w :
  exists w',
    Verify.test_basic_operations w = (Ret tt, w')
    /\ ran w [(s3_probe, false); (lambda_probe, false)] w'.
Proof.
  unfold Verify.test_basic_operations. run_step.
  match goal with |- context [bind (Verify.probe ?c ?s) _ ?x] =>
    destruct (probe_run c s x) as [w1 [E1 L1]]
  end.
  rewrite (bind_run _ _ _ _ _ E1).
  match goal with |- context [Verify.probe ?c ?s w1] =>
    destruct (probe_run c s w1) as [w2 [E2 L2]]
  end.
  exists w2. split; [exact E2 |].
  apply ran_launch, ran_after_print in L1. apply ran_launch in L2.
  exact (ran_trans _ _ _ _ _ L1 L2).
Qed.

Lemma check_port_accessibility_run w :
  exists w',
    Verify.check_port_accessibility w
    = (Ret (health_ok (env_http (w_env w) (w_nhttp w))), w')
    /\ asked_once w "http://localhost:4566/_localstack/health" 5 w'.
Proof.
  unfold Verify.check_port_accessibility, health_ok, urlopen, read_json,
    Verify.dict_get, Verify.dict_items, asked_once, commands.
  run_all. cbn.
  destruct (env_http (w_env w) (w_nhttp w)) as [status body | e]; cbn.
  - destruct body as [name | j]; [| destruct j];
      destruct (status =? 200); cbn;
      try (eexists; split; [reflexivity |]; cbn; rewrite ?app_nil_r; repeat split).
    destruct (Verify.lookup "services" fields) as [sv |]; cbn.
    + destruct sv; cbn;
        try (eexists; split; [reflexivity |]; cbn; rewrite ?app_nil_r; repeat split).
      destruct (map fst (filter (fun kv => Verify.is_available (snd kv)) fields0)); cbn.
      * eexists; split; [reflexivity |]; cbn; rewrite ?app_nil_r; repeat split.
      * match goal with |- context [if ?b then _ else _] => destruct b end;
          eexists; (split; [reflexivity |]); cbn; rewrite ?app_nil_r; repeat split.
    + eexists; split; [reflexivity |]; cbn; rewrite ?app_nil_r; repeat split.
  - destruct e; cbn; eexists; (split; [reflexivity |]); cbn; rewrite ?app_nil_r;
      repeat split.
Qed.

Lemma verify_main_run w :
  exists w',
    Verify.main w
    = (match crash true (env_proc (w_env w) (w_nproc w)) with
       | Some e => Raise e
       | None =>
           if health_ok (env_http (w_env w) (w_nhttp w))
           then Ret tt else Raise (SystemExit 1)
       end, w')
    /\ commands w'
       = (commands w
          ++ (container_listing, true)
             :: match crash true (env_proc (w_env w) (w_nproc w)) with
                | Some _ => []
                | None =>
                    if health_ok (env_http (w_env w) (w_nhttp w))
                    then [(s3_probe, false); (lambda_probe, false)] else []
                end)%list
    /\ requests (w_trace w')
       = (requests (w_trace w)
          ++ match crash true (env_proc (w_env w) (w_nproc w)) with
             | Some _ => []
             | None => [("http://localhost:4566/_localstack/health"%string, 5)]
             end)%list
    /\ hd_error (w_trace w')
       = Some (match crash true (env_proc (w_env w) (w_nproc w)) with
               | Some _ => EvRun container_listing true true None
               | None =>
                   EvPrint
                     (if health_ok (env_http (w_env w) (w_nhttp w))
                      then "   aws --endpoint-url=http://localhost:4566 <command>"
                      else match container_answer (env_proc (w_env w) (w_nproc w)) with
                           | Some false => "   python scripts/setup-localstack.py"
                           | _ => "   docker-compose logs localstack"
                           end)
               end).
Proof.
  unfold Verify.main. do 3 run_step.
  match goal with |- context [bind Verify.check_container_status _ ?x] =>
    destruct (check_container_status_run x) as [w1 [E1 [L1 H1]]]
  end.
  change (env_proc (w_env (with_trace _ _)) _)
    with (env_proc (w_env w) (w_nproc w)) in E1, H1.
  assert (R1 : launch_only w container_listing true w1).
  { apply launch_only_after with (2 := L1).
    eapply printed_only_trans; [apply printed_only_print2 | apply printed_only_print]. }
  clear L1.
  destruct (crash true (env_proc (w_env w) (w_nproc w))) as [e |] eqn:K.
  - rewrite (bind_stop _ _ _ _ _ E1). exists w1. split; [reflexivity |].
    destruct R1 as [C1 [Q1 _]]. rewrite C1, Q1, app_nil_r.
    split; [reflexivity |]. split; [reflexivity |]. apply H1. discriminate.
  - rewrite (bind_run _ _ _ _ _ E1). run_step.
    match goal with |- context [bind Verify.check_port_accessibility _ ?x] =>
      destruct (check_port_accessibility_run x) as [w2 [E2 A2]]
    end.
    destruct R1 as [C1 [Q1 [_ [V1 [_ [N1 _]]]]]].
    destruct A2 as [C2 [Q2 [_ [V2 [N2 [H2 _]]]]]].
    cbn [w_env w_nhttp with_trace] in E2. rewrite V1, N1 in E2.
    rewrite (bind_run _ _ _ _ _ E2). run_step.
    destruct (health_ok (env_http (w_env w) (w_nhttp w))).
    + match goal with |- context [bind Verify.test_basic_operations _ ?x] =>
        destruct (test_basic_operations_run x) as [w3 [E3 R3]]
      end.
      rewrite (bind_run _ _ _ _ _ E3). do 4 run_step.
      destruct R3 as [C3 [Q3 _]].
      eexists. split; [reflexivity |].
      unfold commands in *. cbn in *. rewrite ?app_nil_r in *.
      split; [| split; [| reflexivity]].
      * rewrite C3, C2, C1. norm_list.
      * rewrite Q3, Q2, Q1. reflexivity.
    + destruct (container_answer (env_proc (w_env w) (w_nproc w))) as [[|] |];
        run_step; (eexists; split; [reflexivity |]);
        unfold commands in *; cbn in *; rewrite ?app_nil_r in *;
        (split; [rewrite C2, C1; reflexivity
                | split; [rewrite Q2, Q1; reflexivity | reflexivity]]).
Qed.

(** C9, as stated, fails: the health endpoint answers with status 200 and
    a body that does not decode, and the script exits with status 1. *)
Lemma verify_fails_on_undecodable_body :
  let w := fresh (scripted [] [Response 200 (inl "JSONDecodeError")] []) blank_fs in
  status_200 (env_http (w_env w) (w_nhttp w)) = true
  /\ exit_status (fst (Verify.main w)) = Some 1.
Proof. cbn zeta. split; vm_compute; reflexivity. Qed.

(** C9 (amended).  Whenever the container listing cannot be located, or
    runs to an exit with output that decodes, the exit status of the
    verification script is decided by its health check alone, whatever
    the listing exits with and whatever the S3 and Lambda probes do
    (missing tools, tools that cannot be started, non-zero exits,
    overruns, output that does not decode): it is 0 when the endpoint
    answers with status 200 and a body that decodes to an object whose
    services, when present, is an object too, and 1 in every other case
    (unreachable endpoint, another status, undecodable body).  When the
    listing cannot be started or its output does not decode, the script
    dies on that error, with status 1, before it asks the endpoint. *)
Theorem verify_exit_status w :
  exit_status (fst (Verify.main w))
  = Some (match crash true (env_proc (w_env w) (w_nproc w)) with
          | Some _ => 1
          | None => if health_ok (env_http (w_env w) (w_nhttp w)) then 0 else 1
          end)
  /\ requests (w_trace (snd (Verify.main w)))
     = (requests (w_trace w)
        ++ match crash true (env_proc (w_env w) (w_nproc w)) with
           | Some _ => []
           | None => [("http://localhost:4566/_localstack/health"%string, 5)]
           end)%list.
Proof.
  destruct (verify_main_run w) as [w' [E [_ [Q _]]]]. rewrite E. cbn [fst snd].
  split; [| exact Q].
  destruct (env_proc (w_env w) (w_nproc w)) as [| rc out err | msg | rc];
    cbn [crash]; try reflexivity; now destruct (health_ok _).
Qed.

(** ** The prerequisite checks *)

Lemma launch_only_fs w cmd check w' rc out err :
  launch_only w cmd check w' ->
  env_proc (w_env w) (w_nproc w) = Exited rc out err ->
  w_fs w' = env_effect (w_env w) (w_nproc w) (w_fs w)
  /\ w_env w' = w_env w /\ w_nproc w' = S (w_nproc w).
Proof.
  intros [_ [_ [_ [V [N [_ [_ [_ F]]]]]]]] P. unfold fs_after in F. rewrite P in F.
  repeat split; assumption.
Qed.

(** One tool check of a deploy script. *)
Lemma tool_check_run tool message w :
  exists w',
    try_except (run_command_fatal [tool; "--version"] true true ;; ret tt)
      (fun e =>
         match e with
         | SystemExit _ => Some (print message ;; sys_exit 1)
         | _ => None
         end) w
    = (if passes true (env_proc (w_env w) (w_nproc w))
       then Ret tt else Raise (ending true (env_proc (w_env w) (w_nproc w))), w')
    /\ launch_only w [tool; "--version"] true w'
    /\ (passes true (env_proc (w_env w) (w_nproc w)) = false ->
        hd_error (w_trace w')
        = Some (match crash true (env_proc (w_env w) (w_nproc w)) with
                | Some _ => EvRun [tool; "--version"] true true None
                | None => EvPrint message
                end)).
Proof.
  unfold run_command_fatal, try_except, subprocess_run, bind, passes, ending, crash,
    exits_0, launch_only, fs_after, commands.
  destruct (env_proc (w_env w) (w_nproc w)) as [| rc out err | msg | rc].
  - eexists. split; [reflexivity |]. cbn. repeat split; norm_list.
  - destruct (rc =? 0); cbn [andb negb].
    + eexists. split; [reflexivity |]. cbn. split; [| discriminate].
      repeat split; norm_list.
    + destruct (PyStr.truthy err) eqn:T;
        eexists; (split; [cbn; rewrite ?T; reflexivity |]); cbn;
        repeat split; norm_list.
  - eexists. split; [reflexivity |]. cbn. repeat split; norm_list.
  - eexists. split; [reflexivity |]. cbn. repeat split; norm_list.
Qed.

Lemma zip_prerequisites_pass w o1 e1 o2 e2 :
  env_proc (w_env w) (w_nproc w) = Exited 0 o1 e1 ->
  env_proc (w_env w) (S (w_nproc w)) = Exited 0 o2 e2 ->
  exists w',
    DeployZip.check_prerequisites w
    = (if status_200 (env_http (w_env w) (w_nhttp w))
       then Ret tt else Raise (SystemExit 1), w')
    /\ commands w'
       = (commands w
          ++ [(["dotnet"; "--version"], true); (["aws"; "--version"], true)])%list
    /\ requests (w_trace w')
       = (requests (w_trace w)
          ++ [("http://localhost:4566/_localstack/health"%string, 2)])%list
    /\ pauses (w_trace w') = pauses (w_trace w)
    /\ w_env w' = w_env w
    /\ w_nproc w' = S (S (w_nproc w))
    /\ w_cwd w' = w_cwd w
    /\ w_fs w' = files_after (w_env w) (w_nproc w) 2 (w_fs w).
Proof.
  intros P1 P2.
  unfold DeployZip.check_prerequisites, DeployZip.run_command. run_step.
  match goal with |- context [bind (try_except _ _) _ ?x] =>
    destruct (tool_check_run "dotnet" "❌ .NET SDK is not installed or not in PATH" x)
      as [w1 [E1 [L1 _]]]
  end.
  apply launch_only_after with (w0 := w) in L1; [| apply printed_only_print].
  change (env_proc (w_env (with_trace w _)) _)
    with (env_proc (w_env w) (w_nproc w)) in E1.
  rewrite P1 in E1. cbn in E1. rewrite (bind_run _ _ _ _ _ E1).
  destruct (launch_only_fs _ _ _ _ _ _ _ L1 P1) as [F1 [V1 N1]].
  destruct (tool_check_run "aws" "❌ AWS CLI is not installed or not in PATH" w1)
    as [w2 [E2 [L2 _]]].
  rewrite V1, N1, P2 in E2. cbn in E2. rewrite (bind_run _ _ _ _ _ E2).
  assert (P2' : env_proc (w_env w1) (w_nproc w1) = Exited 0 o2 e2)
    by now rewrite V1, N1.
  destruct (launch_only_fs _ _ _ _ _ _ _ L2 P2') as [F2 [V2 N2]].
  destruct L1 as [C1 [Q1 [S1 [_ [_ [H1 [_ [D1 _]]]]]]]].
  destruct L2 as [C2 [Q2 [S2 [_ [_ [H2 [_ [D2 _]]]]]]]].
  assert (Hw : env_http (w_env w2) (w_nhttp w2) = env_http (w_env w) (w_nhttp w))
    by now rewrite V2, V1, H2, H1.
  unfold status_200.
  unfold try_except at 1, urlopen. unfold bind at 2. unfold bind at 1. rewrite Hw.
  destruct (env_http (w_env w) (w_nhttp w)) as [status body | e].
  - cbn [fst]. destruct (status =? 200); cbn;
      (eexists; split; [reflexivity |]);
      unfold commands in *; cbn; rewrite ?app_nil_r;
      rewrite C2, C1, Q2, Q1, S2, S1, F2, F1, V2, V1, N2, N1, D2, D1;
      repeat split; norm_list.
  - destruct e; cbn;
      (eexists; split; [reflexivity |]);
      unfold commands in *; cbn; rewrite ?app_nil_r;
      rewrite C2, C1, Q2, Q1, S2, S1, F2, F1, V2, V1, N2, N1, D2, D1;
      repeat split; norm_list.
Qed.

Lemma zip_prerequisites w o1 e1 o2 e2 :
  env_proc (w_env w) (w_nproc w) = Exited 0 o1 e1 ->
  env_proc (w_env w) (S (w_nproc w)) = Exited 0 o2 e2 ->
  requests (w_trace (snd (DeployZip.check_prerequisites w)))
  = (requests (w_trace w)
     ++ [((DeployZip.LOCALSTACK_ENDPOINT ++ "/_localstack/health")%string, 2)])%list
  /\ pauses (w_trace (snd (DeployZip.check_prerequisites w))) = pauses (w_trace w)
  /\ fst (DeployZip.check_prerequisites w)
     = if status_200 (env_http (w_env w) (w_nhttp w))
       then Ret tt else Raise (SystemExit 1).
Proof.
  intros H1 H2.
  destruct (zip_prerequisites_pass w o1 e1 o2 e2 H1 H2) as [w' [E [_ [Q [S _]]]]].
  rewrite E. cbn [fst snd]. split; [exact Q |]. split; [exact S | reflexivity].
Qed.

Lemma image_prerequisites_run w o1 e1 o2 e2 rc out err :
  env_proc (w_env w) (w_nproc w) = Exited 0 o1 e1 ->
  env_proc (w_env w) (S (w_nproc w)) = Exited 0 o2 e2 ->
  env_proc (w_env w) (S (S (w_nproc w))) = Exited rc out err ->
  exists w',
    DeployImage.check_prerequisites w
    = (if PyStr.truthy (PyStr.strip out) then Ret tt else Raise (SystemExit 1), w')
    /\ ran w image_checks w'
    /\ w_fs w' = files_after (w_env w) (w_nproc w) 3 (w_fs w).
Proof.
  intros P1 P2 P3.
  unfold DeployImage.check_prerequisites, DeployImage.run_command. run_step.
  match goal with |- context [bind (try_except _ _) _ ?x] =>
    destruct (tool_check_run "docker" "❌ Docker is not installed or not in PATH" x)
      as [w1 [E1 [L1 _]]]
  end.
  apply launch_only_after with (w0 := w) in L1; [| apply printed_only_print].
  change (env_proc (w_env (with_trace w _)) _)
    with (env_proc (w_env w) (w_nproc w)) in E1.
  rewrite P1 in E1. cbn in E1. rewrite (bind_run _ _ _ _ _ E1).
  destruct (launch_only_fs _ _ _ _ _ _ _ L1 P1) as [F1 [V1 N1]].
  destruct (tool_check_run "aws" "❌ AWS CLI is not installed or not in PATH" w1)
    as [w2 [E2 [L2 _]]].
  rewrite V1, N1, P2 in E2. cbn in E2. rewrite (bind_run _ _ _ _ _ E2).
  assert (P2' : env_proc (w_env w1) (w_nproc w1) = Exited 0 o2 e2)
    by now rewrite V1, N1.
  destruct (launch_only_fs _ _ _ _ _ _ _ L2 P2') as [F2 [V2 N2]].
  match goal with |- context [bind (run_command_fatal ?c _ _) _ w2] =>
    destruct (run_command_fatal_launch c false true w2) as [w3 [E3 [L3 _]]]
  end.
  assert (P3' : env_proc (w_env w2) (w_nproc w2) = Exited rc out err)
    by now rewrite V2, N2, V1, N1.
  rewrite P3' in E3. cbn [runner_result andb] in E3. rewrite (bind_run _ _ _ _ _ E3).
  destruct (launch_only_fs _ _ _ _ _ _ _ L3 P3') as [F3 [V3 N3]].
  unfold completed. cbn [stdout]. rewrite (bind_run _ _ _ out _ eq_refl).
  apply ran_launch in L1. apply ran_launch in L2. apply ran_launch in L3.
  pose proof (ran_trans _ _ _ _ _ (ran_trans _ _ _ _ _ L1 L2) L3) as R.
  assert (F : w_fs w3 = files_after (w_env w) (w_nproc w) 3 (w_fs w)).
  { cbn [files_after]. rewrite F3, F2, F1, V2, N2, V1, N1. reflexivity. }
  destruct (PyStr.truthy (PyStr.strip out)); cbn [negb].
  - eexists. split; [reflexivity |]. split; [apply ran_print; exact R | exact F].
  - do 5 run_step. eexists. split; [reflexivity |].
    split; [do 5 apply ran_print; exact R | exact F].
Qed.

Lemma image_prerequisites w o1 e1 o2 e2 rc out err :
  env_proc (w_env w) (w_nproc w) = Exited 0 o1 e1 ->
  env_proc (w_env w) (S (w_nproc w)) = Exited 0 o2 e2 ->
  env_proc (w_env w) (S (S (w_nproc w))) = Exited rc out err ->
  requests (w_trace (snd (DeployImage.check_prerequisites w))) = requests (w_trace w)
  /\ pauses (w_trace (snd (DeployImage.check_prerequisites w))) = pauses (w_trace w)
  /\ commands (snd (DeployImage.check_prerequisites w))
     = (commands w
        ++ [(["docker"; "--version"], true); (["aws"; "--version"], true);
            (["docker"; "ps"; "--filter"; "name=localstack"; "--format"; "{{.Names}}"],
             false)])%list
  /\ fst (DeployImage.check_prerequisites w)
     = if PyStr.truthy (PyStr.strip out) then Ret tt else Raise (SystemExit 1).
Proof.
  intros H1 H2 H3.
  destruct (image_prerequisites_run w o1 e1 o2 e2 rc out err H1 H2 H3)
    as [w' [E [[C [R [P _]]] _]]].
  rewrite E. repeat split; assumption.
Qed.

(** C6, as stated, fails for the image deploy script: its prerequisite
    check passes on the container listing alone and makes no HTTP request,
    here while the health endpoint refuses connections. *)
Lemma image_prerequisites_skip_health :
  let w := fresh (scripted [Exited 0 "Docker version 27.3.1" "";
                            Exited 0 "aws-cli/2.17.0" "";
                            Exited 0 ("localstack-main" ++ PyStr.NL) ""]
                           [HttpRaises (ConnectionFailed "Connection refused")] [])
                 blank_fs in
  env_http (w_env w) (w_nhttp w) = HttpRaises (ConnectionFailed "Connection refused")
  /\ fst (DeployImage.check_prerequisites w) = Ret tt
  /\ requests (w_trace (snd (DeployImage.check_prerequisites w))) = [].
Proof. cbn zeta. repeat split; vm_compute; reflexivity. Qed.

(** C6 (amended).  Once the two tool checks have passed, the prerequisite
    check of the ZIP deploy script makes exactly one HTTP GET of the
    health path with a 2 second timeout, passes when the status is 200,
    and otherwise (any error raised, any other status) ends the run with
    status 1 at once, without a pause; the prerequisite check of the image
    deploy script makes no HTTP request: it lists the containers named
    localstack once, passes when the listing is not blank, and otherwise
    ends the run with status 1 at once, without a pause. *)
Theorem prerequisite_check_single_attempt w o1 e1 o2 e2 rc out err :
  env_proc (w_env w) (w_nproc w) = Exited 0 o1 e1 ->
  env_proc (w_env w) (S (w_nproc w)) = Exited 0 o2 e2 ->
  env_proc (w_env w) (S (S (w_nproc w))) = Exited rc out err ->
  (requests (w_trace (snd (DeployZip.check_prerequisites w)))
   = (requests (w_trace w)
      ++ [((DeployZip.LOCALSTACK_ENDPOINT ++ "/_localstack/health")%string, 2)])%list
   /\ pauses (w_trace (snd (DeployZip.check_prerequisites w))) = pauses (w_trace w)
   /\ fst (DeployZip.check_prerequisites w)
      = if status_200 (env_http (w_env w) (w_nhttp w))
        then Ret tt else Raise (SystemExit 1))
  /\ (requests (w_trace (snd (DeployImage.check_prerequisites w))) = requests (w_trace w)
      /\ pauses (w_trace (snd (DeployImage.check_prerequisites w))) = pauses (w_trace w)
      /\ commands (snd (DeployImage.check_prerequisites w))
         = (commands w
            ++ [(["docker"; "--version"], true); (["aws"; "--version"], true);
                (["docker"; "ps"; "--filter"; "name=localstack"; "--format";
                  "{{.Names}}"], false)])%list
      /\ fst (DeployImage.check_prerequisites w)
         = if PyStr.truthy (PyStr.strip out) then Ret tt else Raise (SystemExit 1)).
Proof.
  intros H1 H2 H3. split.
  - now apply zip_prerequisites with o1 e1 o2 e2.
  - now apply image_prerequisites with o1 e1 o2 e2 rc err.
Qed.

Lemma prerequisite_check_single_attempt_witness :
  let w := fresh (scripted [] [Response 503 (inl "JSONDecodeError")] []) blank_fs in
  fst (DeployZip.check_prerequisites w) = Raise (SystemExit 1)
  /\ requests (w_trace (snd (DeployZip.check_prerequisites w)))
     = [("http://localhost:4566/_localstack/health", 2)]
  /\ fst (DeployImage.check_prerequisites w) = Raise (SystemExit 1).
Proof.
  cbn zeta.
  destruct (prerequisite_check_single_attempt
              (fresh (scripted [] [Response 503 (inl "JSONDecodeError")] []) blank_fs)
              "" "" "" "" 0 "" "" eq_refl eq_refl eq_refl)
    as [[R [_ Z]] [_ [_ [_ I]]]].
  split; [exact Z | split; [exact R | exact I]].
Defined.

(** ** The readiness poller *)

Lemma poll_once_waiting w :
  waiting (env_http (w_env w) (w_nhttp w)) = true ->
  Setup.poll_once w
  = (Ret false, tick_http (with_trace w (EvHttpGet Setup.HEALTH_CHECK_URL 2))).
Proof.
  intros H. unfold Setup.poll_once, urlopen. run_all. cbn.
  destruct (env_http (w_env w) (w_nhttp w)) as [status body | e]; cbn in *.
  - destruct (status =? 200); [discriminate | reflexivity].
  - destruct e; try discriminate; reflexivity.
Qed.

Lemma poll_once_ready w body :
  env_http (w_env w) (w_nhttp w) = Response 200 body ->
  Setup.poll_once w
  = (Ret true,
     with_trace (tick_http (with_trace w (EvHttpGet Setup.HEALTH_CHECK_URL 2)))
       (EvPrint "✅ LocalStack is ready!")).
Proof.
  intros H. unfold Setup.poll_once, urlopen. run_all. cbn. now rewrite H.
Qed.

Lemma wait_loop_eq fuel counter :
  Setup.wait_loop fuel counter
  = if counter <? Setup.TIMEOUT then
      match fuel with
      | O => out_of_fuel
      | S fuel' =>
          ready <- Setup.poll_once ;;
          if ready then ret tt
          else
            print ("   Waiting... (" ++ PyStr.str_of_Z counter ++ "/"
                   ++ PyStr.str_of_Z Setup.TIMEOUT ++ ")") ;;
            sleep 2 ;;
            Setup.wait_loop fuel' (counter + 2)
      end
    else
      print ("❌ LocalStack failed to start within "
             ++ PyStr.str_of_Z Setup.TIMEOUT ++ " seconds") ;;
      sys_exit 1.
Proof. destruct fuel; reflexivity. Qed.

Lemma turns_done counter : Setup.TIMEOUT <= counter -> turns counter = 0%nat.
Proof.
  intros H. unfold turns.
  assert ((Setup.TIMEOUT - counter + 1) / 2 <= 0).
  { apply Z.lt_succ_r. apply Z.div_lt_upper_bound; lia. }
  lia.
Qed.

Lemma turns_step counter :
  counter < Setup.TIMEOUT -> turns counter = S (turns (counter + 2)).
Proof.
  intros H. unfold turns.
  replace (Setup.TIMEOUT - counter + 1) with ((Setup.TIMEOUT - (counter + 2) + 1) + 1 * 2) by lia.
  rewrite Z.div_add by lia.
  assert (0 <= (Setup.TIMEOUT - (counter + 2) + 1) / 2).
  { apply Z.div_pos; lia. }
  lia.
Qed.

Lemma wait_loop_times_out fuel : forall counter w,
  (Z.to_nat (Setup.TIMEOUT - counter) <= fuel)%nat ->
  (forall k, waiting (env_http (w_env w) (w_nhttp w + k)) = true) ->
  exists w',
    Setup.wait_loop fuel counter w = (Raise (SystemExit 1), w')
    /\ requests (w_trace w')
       = (requests (w_trace w)
          ++ repeat (Setup.HEALTH_CHECK_URL, 2) (turns counter))%list
    /\ pauses (w_trace w') = (pauses (w_trace w) ++ repeat 2 (turns counter))%list
    /\ hd_error (w_trace w')
       = Some (EvPrint ("❌ LocalStack failed to start within "
                        ++ PyStr.str_of_Z Setup.TIMEOUT ++ " seconds")).
Proof.
  induction fuel as [| fuel IH]; intros counter w F W; rewrite wait_loop_eq;
    destruct (Z.ltb_spec counter Setup.TIMEOUT) as [L | G].
  - exfalso. lia.
  - eexists. split; [reflexivity |]. rewrite turns_done by lia. cbn.
    rewrite !app_nil_r. repeat split.
  - unfold bind at 1. rewrite poll_once_waiting.
    2:{ specialize (W 0%nat). now rewrite Nat.add_0_r in W. }
    unfold bind, print, sleep, emit.
    match goal with |- context [Setup.wait_loop fuel _ ?w0] =>
      destruct (IH (counter + 2) w0) as [w' [E [R [P Hd]]]] end.
    + lia.
    + intros k. cbn. specialize (W (S k)). now rewrite Nat.add_succ_r in W.
    + exists w'. split; [exact E |]. rewrite (turns_step counter L).
      cbn in R, P. rewrite R, P. cbn [repeat]. repeat split; norm_list; try assumption.
  - eexists. split; [reflexivity |]. rewrite turns_done by lia. cbn.
    rewrite !app_nil_r. repeat split.
Qed.

Lemma wait_loop_ready k : forall fuel counter w body,
  counter + 2 * Z.of_nat k < Setup.TIMEOUT ->
  (k < fuel)%nat ->
  (forall j, (j < k)%nat -> waiting (env_http (w_env w) (w_nhttp w + j)) = true) ->
  env_http (w_env w) (w_nhttp w + k) = Response 200 body ->
  exists w',
    Setup.wait_loop fuel counter w = (Ret tt, w')
    /\ requests (w_trace w')
       = (requests (w_trace w) ++ repeat (Setup.HEALTH_CHECK_URL, 2) (S k))%list
    /\ pauses (w_trace w') = (pauses (w_trace w) ++ repeat 2 k)%list
    /\ hd_error (w_trace w') = Some (EvPrint "✅ LocalStack is ready!").
Proof.
  induction k as [| k IH]; intros fuel counter w body C F W R; rewrite wait_loop_eq;
    (destruct (Z.ltb_spec counter Setup.TIMEOUT) as [L | G]; [| exfalso; lia]);
    (destruct fuel as [| fuel]; [exfalso; lia |]).
  - rewrite Nat.add_0_r in R. unfold bind at 1. rewrite (poll_once_ready w body R).
    eexists. split; [reflexivity |]. cbn. rewrite app_nil_r. repeat split.
  - unfold bind at 1. rewrite poll_once_waiting.
    2:{ specialize (W 0%nat). rewrite Nat.add_0_r in W. apply W. lia. }
    unfold bind, print, sleep, emit.
    match goal with |- context [Setup.wait_loop fuel _ ?w0] =>
      destruct (IH fuel (counter + 2) w0 body) as [w' [E [Rq [P Hd]]]] end.
    + lia.
    + lia.
    + intros j Hj. cbn. specialize (W (S j)). rewrite Nat.add_succ_r in W.
      apply W. lia.
    + cbn. now rewrite Nat.add_succ_r in R.
    + exists w'. split; [exact E |].
      cbn in Rq, P. rewrite Rq, P. cbn [repeat]. repeat split; norm_list; try assumption.
Qed.

Lemma attempts_repeat w w' n x :
  requests (w_trace w') = (requests (w_trace w) ++ repeat x n)%list ->
  attempts w w' = Z.of_nat n.
Proof.
  intros H. unfold attempts. rewrite H, length_app, repeat_length. lia.
Qed.

Lemma poll_once_frame w :
  commands (snd (Setup.poll_once w)) = commands w
  /\ w_cwd (snd (Setup.poll_once w)) = w_cwd w
  /\ fst (Setup.poll_once w) <> OutOfFuel.
Proof.
  unfold Setup.poll_once, urlopen, commands. run_all.
  destruct (env_http (w_env w) (w_nhttp w)) as [status body | e].
  - destruct (fst (status, body) =? 200); cbn; rewrite ?app_nil_r;
      repeat split; discriminate.
  - destruct e; cbn; rewrite ?app_nil_r; repeat split; discriminate.
Qed.

Lemma wait_loop_frame fuel : forall counter w,
  commands (snd (Setup.wait_loop fuel counter w)) = commands w
  /\ w_cwd (snd (Setup.wait_loop fuel counter w)) = w_cwd w.
Proof.
  induction fuel as [| fuel IH]; intros counter w; rewrite wait_loop_eq;
    destruct (counter <? Setup.TIMEOUT).
  - split; reflexivity.
  - unfold commands. cbn. rewrite app_nil_r. split; reflexivity.
  - destruct (poll_once_frame w) as [C [D N]].
    destruct (Setup.poll_once w) as [[ready | e |] w1] eqn:E; cbn [fst snd] in *.
    + rewrite (bind_run _ _ _ _ _ E).
      destruct ready; [split; assumption |].
      do 2 run_step.
      match goal with |- context [Setup.wait_loop fuel _ ?w0] =>
        destruct (IH (counter + 2) w0) as [C2 D2] end.
      rewrite C2, D2. unfold commands in *. cbn. rewrite !app_nil_r.
      split; assumption.
    + rewrite (bind_stop _ _ _ _ _ E). split; assumption.
    + now contradiction N.
  - unfold commands. cbn. rewrite app_nil_r. split; reflexivity.
Qed.

Lemma poll_once_aborts w name :
  env_http (w_env w) (w_nhttp w) = HttpRaises (ProtocolError name) ->
  Setup.poll_once w
  = (Raise (OtherError name),
     tick_http (with_trace w (EvHttpGet Setup.HEALTH_CHECK_URL 2))).
Proof.
  intros H. unfold Setup.poll_once, urlopen. run_all. cbn. now rewrite H.
Qed.

Lemma wait_loop_aborts k : forall fuel counter w name,
  counter + 2 * Z.of_nat k < Setup.TIMEOUT ->
  (k < fuel)%nat ->
  (forall j, (j < k)%nat -> waiting (env_http (w_env w) (w_nhttp w + j)) = true) ->
  env_http (w_env w) (w_nhttp w + k) = HttpRaises (ProtocolError name) ->
  exists w',
    Setup.wait_loop fuel counter w = (Raise (OtherError name), w')
    /\ requests (w_trace w')
       = (requests (w_trace w) ++ repeat (Setup.HEALTH_CHECK_URL, 2) (S k))%list
    /\ pauses (w_trace w') = (pauses (w_trace w) ++ repeat 2 k)%list
    /\ hd_error (w_trace w') = Some (EvHttpGet Setup.HEALTH_CHECK_URL 2).
Proof.
  induction k as [| k IH]; intros fuel counter w name C F W R; rewrite wait_loop_eq;
    (destruct (Z.ltb_spec counter Setup.TIMEOUT) as [L | G]; [| exfalso; lia]);
    (destruct fuel as [| fuel]; [exfalso; lia |]).
  - rewrite Nat.add_0_r in R. unfold bind at 1. rewrite (poll_once_aborts w name R).
    eexists. split; [reflexivity |]. cbn. rewrite app_nil_r. repeat split.
  - unfold bind at 1. rewrite poll_once_waiting.
    2:{ specialize (W 0%nat). rewrite Nat.add_0_r in W. apply W. lia. }
    unfold bind, print, sleep, emit.
    match goal with |- context [Setup.wait_loop fuel _ ?w0] =>
      destruct (IH fuel (counter + 2) w0 name) as [w' [E [Rq [P Hd]]]] end.
    + lia.
    + lia.
    + intros j Hj. cbn. specialize (W (S j)). rewrite Nat.add_succ_r in W.
      apply W. lia.
    + cbn. now rewrite Nat.add_succ_r in R.
    + exists w'. split; [exact E |].
      cbn in Rq, P. rewrite Rq, P. cbn [repeat]. repeat split; norm_list; try assumption.
Qed.

(** C3, as stated, fails: the check never returns true, yet the poller
    neither goes on for 30 attempts nor names the timeout.  The first
    attempt raises an error the loop does not catch, which ends the
    script there and then. *)
Lemma poll_dies_without_timeout :
  let w := fresh (scripted [] [HttpRaises (ProtocolError "BadStatusLine")] []) blank_fs in
  (forall k, status_200 (env_http (w_env w) (w_nhttp w + k)) = false)
  /\ fst (Setup.wait_for_localstack w) = Raise (OtherError "BadStatusLine")
  /\ attempts w (snd (Setup.wait_for_localstack w)) = 1
  /\ hd_error (w_trace (snd (Setup.wait_for_localstack w)))
     <> Some (EvPrint "❌ LocalStack failed to start within 60 seconds").
Proof.
  cbn zeta. split; [| split; [| split]].
  - intros [| [| k]]; reflexivity.
  - reflexivity.
  - reflexivity.
  - discriminate.
Qed.

(** C3 (amended).  When every attempt leaves the readiness poller
    waiting (the endpoint answers with a status other than 200, or the
    request raises one of the errors the loop catches), the poller ends
    the run with status 1, its last line names the timeout of 60 seconds,
    and it has made 30 attempts, which is the floor of 60 / 2 (and so
    within one of it). *)
Theorem poll_times_out w :
  (forall k, waiting (env_http (w_env w) (w_nhttp w + k)) = true) ->
  fst (Setup.wait_for_localstack w) = Raise (SystemExit 1)
  /\ fatal (fst (Setup.wait_for_localstack w))
  /\ hd_error (w_trace (snd (Setup.wait_for_localstack w)))
     = Some (EvPrint "❌ LocalStack failed to start within 60 seconds")
  /\ attempts w (snd (Setup.wait_for_localstack w)) = 30
  /\ attempts w (snd (Setup.wait_for_localstack w)) = Setup.TIMEOUT / 2
  /\ Z.abs (attempts w (snd (Setup.wait_for_localstack w)) - Setup.TIMEOUT / 2) <= 1
  /\ pauses (w_trace (snd (Setup.wait_for_localstack w)))
     = (pauses (w_trace w) ++ repeat 2 30)%list.
Proof.
  intros W. unfold Setup.wait_for_localstack, bind, print_step, print, emit.
  match goal with |- context [Setup.wait_loop ?f ?c ?w0] =>
    destruct (wait_loop_times_out f c w0) as [w' [E [R [P Hd]]]] end.
  - cbn. lia.
  - intros k. cbn. apply W.
  - rewrite E. cbn [fst snd].
    assert (A : attempts w w' = 30)
      by exact (attempts_repeat w w' 30 (Setup.HEALTH_CHECK_URL, 2) R).
    split; [reflexivity |]. split; [apply fatal_exit_1 |].
    split; [exact Hd |]. rewrite A.
    repeat split; try reflexivity.
    + vm_compute. discriminate.
    + exact P.
Qed.

Lemma poll_times_out_witness :
  let w := fresh (scripted [] [] []) blank_fs in
  fst (Setup.wait_for_localstack w) = Raise (SystemExit 1)
  /\ attempts w (snd (Setup.wait_for_localstack w)) = 30.
Proof.
  cbn zeta.
  destruct (poll_times_out (fresh (scripted [] [] []) blank_fs))
    as [R [_ [_ [A _]]]].
  - intros k. cbn. destruct k; reflexivity.
  - split; [exact R | exact A].
Defined.

(** C4, as stated, fails: in this sequence of outcomes the second
    attempt would find the endpoint ready, but the first raises an error
    the loop does not catch, so the poller never gets there. *)
Lemma poll_aborts_before_success :
  let w := fresh (scripted [] [HttpRaises (ProtocolError "BadStatusLine");
                               Response 200 (inr (JObj []))] []) blank_fs in
  env_http (w_env w) (w_nhttp w + 1) = Response 200 (inr (JObj []))
  /\ fst (Setup.wait_for_localstack w) = Raise (OtherError "BadStatusLine")
  /\ attempts w (snd (Setup.wait_for_localstack w)) = 1.
Proof. cbn zeta. repeat split. Qed.

(** C4 (amended).  Whatever the earlier attempts brought, as long as each
    left the poller waiting (a status other than 200, or one of the
    errors the loop catches), the poller returns at the first attempt
    answered with status 200: it has then made exactly that many
    requests, its last action is the line announcing readiness, and so no
    request and no pause follows the success.  And an attempt that raises
    a refused or failed connection, another socket error or a timeout
    never ends the loop: the attempt just counts as not ready, as does an
    answer with another status, while any other error leaves the check
    uncaught. *)
Theorem poll_returns_at_first_success w k body :
  (k < 30)%nat ->
  (forall j, (j < k)%nat -> waiting (env_http (w_env w) (w_nhttp w + j)) = true) ->
  env_http (w_env w) (w_nhttp w + k) = Response 200 body ->
  fst (Setup.wait_for_localstack w) = Ret tt
  /\ attempts w (snd (Setup.wait_for_localstack w)) = Z.of_nat k + 1
  /\ requests (w_trace (snd (Setup.wait_for_localstack w)))
     = (requests (w_trace w) ++ repeat (Setup.HEALTH_CHECK_URL, 2) (S k))%list
  /\ pauses (w_trace (snd (Setup.wait_for_localstack w)))
     = (pauses (w_trace w) ++ repeat 2 k)%list
  /\ hd_error (w_trace (snd (Setup.wait_for_localstack w)))
     = Some (EvPrint "✅ LocalStack is ready!")
  /\ (forall w0,
        fst (Setup.poll_once w0)
        = match env_http (w_env w0) (w_nhttp w0) with
          | Response status _ => Ret (status =? 200)
          | HttpRaises (ConnectionFailed _) => Ret false
          | HttpRaises (SocketError _) => Ret false
          | HttpRaises SocketTimeout => Ret false
          | HttpRaises (ProtocolError name) => Raise (OtherError name)
          end).
Proof.
  intros K W R. unfold Setup.wait_for_localstack, bind, print_step, print, emit.
  match goal with |- context [Setup.wait_loop ?f ?c ?w0] =>
    destruct (wait_loop_ready k f c w0 body) as [w' [E [Rq [P Hd]]]] end.
  - unfold Setup.TIMEOUT. lia.
  - unfold Setup.TIMEOUT. lia.
  - intros j Hj. cbn. now apply W.
  - cbn. exact R.
  - rewrite E. cbn [fst snd].
    split; [reflexivity |]. split.
    + rewrite (attempts_repeat w w' (S k) (Setup.HEALTH_CHECK_URL, 2) Rq). lia.
    + repeat split; try assumption.
      intros w0.
      destruct (env_http (w_env w0) (w_nhttp w0)) as [status b | [r | m | | name]] eqn:X.
      * destruct (status =? 200) eqn:S200.
        -- apply Z.eqb_eq in S200. subst status.
           now rewrite (poll_once_ready w0 b X).
        -- rewrite poll_once_waiting; [reflexivity |]. rewrite X. cbn. now rewrite S200.
      * rewrite poll_once_waiting; [reflexivity | now rewrite X].
      * rewrite poll_once_waiting; [reflexivity | now rewrite X].
      * rewrite poll_once_waiting; [reflexivity | now rewrite X].
      * now rewrite (poll_once_aborts w0 name X).
Qed.

Lemma poll_returns_at_first_success_witness :
  let w := fresh (scripted [] [HttpRaises (ConnectionFailed "Connection refused");
                               Response 503 (inl "JSONDecodeError");
                               HttpRaises SocketTimeout;
                               Response 200 (inr (JObj []))] []) blank_fs in
  fst (Setup.wait_for_localstack w) = Ret tt
  /\ attempts w (snd (Setup.wait_for_localstack w)) = 4.
Proof.
  cbn zeta.
  destruct (poll_returns_at_first_success
              (fresh (scripted [] [HttpRaises (ConnectionFailed "Connection refused");
                                   Response 503 (inl "JSONDecodeError");
                                   HttpRaises SocketTimeout;
                                   Response 200 (inr (JObj []))] []) blank_fs)
              3 (inr (JObj []))) as [R [A _]].
  - lia.
  - intros j Hj. destruct j as [| [| [| j]]]; [reflexivity | reflexivity | reflexivity | lia].
  - reflexivity.
  - split; [exact R | exact A].
Defined.


(** ** Declining the teardown *)

Lemma stop_localstack_fails w :
  stop_fails w ->
  exists w',
    Teardown.stop_localstack w = (Ret false, w')
    /\ w_env w' = w_env w /\ w_ninput w' = w_ninput w
    /\ filter destructive (w_trace w') = filter destructive (w_trace w).
Proof.
  intros Hs. unfold Teardown.stop_localstack. run_step. run_step.
  change (fs_exists _ ComposeFile) with (fs_compose (w_fs w)).
  destruct (fs_compose (w_fs w)) eqn:C; cbn [negb].
  - destruct Hs as [Hs | [rc [out [err [P N]]]]]; [congruence |].
    run_step.
    match goal with |- context [try_finally (chdir ?d ;; ?k) (chdir ?o) ?x] =>
      change o with (w_cwd w); set (body := chdir d ;; k); set (w0 := x)
    end.
    assert (B : body w0
                = (Ret false,
                   with_trace
                     (with_fs (tick_proc
                        (with_trace (with_cwd (with_trace w0 (EvChdir ProjectRoot)) ProjectRoot)
                           (EvRun ["docker-compose"; "down"] false false None)))
                        (env_effect (w_env w) (w_nproc w) (w_fs w)))
                     (EvPrint "⚠️  LocalStack may not have been running"))).
    { unfold body. rewrite (bind_run _ _ _ _ _ (chdir_there ProjectRoot w0 eq_refl)).
      unfold Teardown.run_command, try_except, subprocess_run, bind.
      cbn [w_env w_nproc with_trace with_cwd w0]. rewrite P. cbn.
      destruct (Z.eqb_spec rc 0) as [Z0 | _]; [contradiction | reflexivity]. }
    rewrite (try_finally_run _ _ _ _ _ B) by reflexivity.
    eexists. split; [reflexivity |]. repeat split.
  - run_step. eexists. split; [reflexivity |]. repeat split.
Qed.

Lemma teardown_main_declined w answer :
  stop_fails w ->
  env_input (w_env w) (w_ninput w) = Some answer ->
  PyStr.lower answer <> "y" ->
  exists w',
    Teardown.main w = (Raise (SystemExit 0), w')
    /\ filter destructive (w_trace w') = filter destructive (w_trace w)
    /\ hd_error (w_trace w') = Some (EvPrint "Aborted.").
Proof.
  intros S I N.
  assert (E : String.eqb (PyStr.lower answer) "y" = false)
    by now apply String.eqb_neq.
  unfold Teardown.main.
  unfold bind at 1. unfold bind at 1. unfold bind at 1. unfold print at 1 2.
  unfold emit at 1 2.
  match goal with |- context [Teardown.stop_localstack ?w0] =>
    destruct (stop_localstack_fails w0) as [w' [St [Ev [In D]]]] end.
  { exact S. }
  rewrite St. cbn in Ev, In, D.
  unfold bind at 1. cbn [negb].
  unfold bind at 1. unfold bind at 1. unfold print at 1. unfold emit at 1.
  unfold bind at 1. unfold input at 1.
  cbn [w_env w_ninput with_trace]. rewrite Ev, In, I.
  rewrite E. cbn [negb].
  unfold bind at 1. unfold print at 1. unfold emit at 1. unfold sys_exit, raise.
  eexists. split; [reflexivity |].
  cbn [fst snd w_trace with_trace tick_input filter destructive action_of hd_error].
  rewrite D. split; reflexivity.
Qed.

(** C7.  When the stop step fails or reports nothing running and the
    operator answers the prompt to continue with anything but y, the
    teardown exits with status 0 and has removed no data, no container
    and no image. *)
Theorem teardown_decline_aborts w answer :
  stop_fails w ->
  env_input (w_env w) (w_ninput w) = Some answer ->
  PyStr.lower answer <> "y" ->
  fst (Teardown.main w) = Raise (SystemExit 0)
  /\ exit_status (fst (Teardown.main w)) = Some 0
  /\ filter destructive (w_trace (snd (Teardown.main w)))
     = filter destructive (w_trace w)
  /\ hd_error (w_trace (snd (Teardown.main w))) = Some (EvPrint "Aborted.").
Proof.
  intros S I N.
  destruct (teardown_main_declined w answer S I N) as [w' [E [D H]]].
  rewrite E. repeat split; assumption.
Qed.

Lemma teardown_decline_aborts_witness :
  let w := fresh (scripted [Exited 1 "" "no configuration file provided"] [] [Some ""])
                 {| fs_compose := true; fs_data := Some (Dir []); fs_lambda := None |} in
  exit_status (fst (Teardown.main w)) = Some 0
  /\ filter destructive (w_trace (snd (Teardown.main w))) = [].
Proof.
  cbn zeta.
  destruct (teardown_decline_aborts
              (fresh (scripted [Exited 1 "" "no configuration file provided"] [] [Some ""])
                     {| fs_compose := true; fs_data := Some (Dir []); fs_lambda := None |})
              "") as [_ [X [D _]]].
  - right. exists 1, "", "no configuration file provided". split; [reflexivity | discriminate].
  - reflexivity.
  - discriminate.
  - split; [exact X | exact D].
Defined.


(** ** The scoped change of directory *)



























(** ** The confirmations of the teardown *)

Lemma guarded_cons e tr :
  guarded (e :: tr) = permitted e tr && guarded tr.
Proof. reflexivity. Qed.

Lemma quiet_permitted e tr : quiet e = true -> permitted e tr = true.
Proof.
  unfold quiet, permitted, destructive.
  destruct e; try reflexivity; destruct (action_of _); cbn; try discriminate; reflexivity.
Qed.

Lemma quiet_last_answer p e tr :
  quiet e = true -> last_answer p (e :: tr) = last_answer p tr.
Proof. destruct e; try reflexivity. discriminate. Qed.

Lemma quiet_confirmed p e tr :
  quiet e = true -> confirmed p (e :: tr) = confirmed p tr.
Proof. intros Q. unfold confirmed. now rewrite quiet_last_answer. Qed.

Lemma GuardedWith_quiet ps e tr :
  quiet e = true -> GuardedWith ps tr -> GuardedWith ps (e :: tr).
Proof.
  intros Q [G C]. split.
  - rewrite guarded_cons, G, quiet_permitted by exact Q. reflexivity.
  - intros p Hp. rewrite quiet_confirmed by exact Q. now apply C.
Qed.

Lemma GuardedWith_guarded ps tr : GuardedWith ps tr -> guarded tr = true.
Proof. now intros [G _]. Qed.

Lemma GuardedWith_nil tr : Guarded tr <-> GuardedWith [] tr.
Proof.
  split; [intros G; split; [exact G | intros p []] | now intros [G _]].
Qed.

Lemma GuardedWith_weaken ps qs tr :
  incl qs ps -> GuardedWith ps tr -> GuardedWith qs tr.
Proof. intros I [G C]. split; [exact G | intros p Hp; apply C, I, Hp]. Qed.

(** An answered prompt keeps the trace guarded; the prompt is confirmed
    when the answer affirms, and the other confirmations stay. *)
Lemma GuardedWith_input ps prompt answer tr :
  GuardedWith ps tr ->
  ~ In prompt ps ->
  GuardedWith ps (EvInput prompt answer :: tr)
  /\ (affirms answer = true ->
      GuardedWith (prompt :: ps) (EvInput prompt answer :: tr)).
Proof.
  intros [G C] N.
  assert (K : forall p, In p ps -> confirmed p (EvInput prompt answer :: tr) = true).
  { intros p Hp. unfold confirmed. cbn [last_answer].
    destruct (String.eqb_spec prompt p) as [-> | _]; [contradiction |].
    now apply C. }
  assert (G' : guarded (EvInput prompt answer :: tr) = true) by (cbn; exact G).
  split; [split; assumption |].
  intros A. split; [exact G' |]. intros p [E | Hp]; [subst p | now apply K].
  unfold confirmed. cbn [last_answer]. now rewrite String.eqb_refl.
Qed.

(** *** Rules *)

Lemma triple_bind {A B} P (m : M A) Q (k : A -> M B) R E :
  triple P m Q E -> (forall a, triple (Q a) (k a) R E) -> triple P (bind m k) R E.
Proof.
  intros Hm Hk w Pw. unfold bind. specialize (Hm w Pw).
  destruct (m w) as [[a | e |] w']; cbn in *.
  - now apply Hk.
  - exact Hm.
  - exact Hm.
Qed.

Lemma triple_conseq {A} (P P' : list event -> Prop) (m : M A)
    (Q Q' : A -> list event -> Prop) (E E' : list event -> Prop) :
  (forall tr, P' tr -> P tr) ->
  (forall a tr, Q a tr -> Q' a tr) ->
  (forall tr, E tr -> E' tr) ->
  triple P m Q E -> triple P' m Q' E'.
Proof.
  intros IP IQ IE H w Pw. specialize (H w (IP _ Pw)).
  destruct (fst (m w)); [now apply IQ | now apply IE | now apply IE].
Qed.

Lemma keeps_weaken {A} ps qs (m : M A) :
  incl qs ps -> keeps ps m ->
  triple (GuardedWith ps) m (fun _ => GuardedWith qs) (GuardedWith qs).
Proof.
  intros I H. eapply triple_conseq; [| | | exact H]; cbn; intros;
    try assumption; now apply GuardedWith_weaken with ps.
Qed.

Lemma keeps_ret {A} ps (a : A) : keeps ps (ret a).
Proof. intros w Pw. exact Pw. Qed.

Lemma keeps_bind {A B} ps (m : M A) (k : A -> M B) :
  keeps ps m -> (forall a, keeps ps (k a)) -> keeps ps (bind m k).
Proof. intros Hm Hk. eapply triple_bind; [exact Hm | exact Hk]. Qed.

Lemma keeps_with_env {A} ps (f : World -> M A) :
  (forall w0, keeps ps (f w0)) -> keeps ps (fun w => f w w).
Proof. intros H w Pw. now apply (H w). Qed.

Lemma keeps_if {A} ps (b : bool) (m1 m2 : M A) :
  keeps ps m1 -> keeps ps m2 -> keeps ps (if b then m1 else m2).
Proof. now destruct b. Qed.

Lemma keeps_emit ps e : quiet e = true -> keeps ps (emit e).
Proof. intros Q w Pw. cbn. now apply GuardedWith_quiet. Qed.

Lemma keeps_print ps line : keeps ps (print line).
Proof. now apply keeps_emit. Qed.

Lemma keeps_raise {A} ps e : keeps ps (@raise A e).
Proof. intros w Pw. exact Pw. Qed.

Lemma keeps_path_exists ps p : keeps ps (path_exists p).
Proof. intros w Pw. exact Pw. Qed.

Lemma keeps_getcwd ps : keeps ps getcwd.
Proof. intros w Pw. exact Pw. Qed.

Lemma keeps_chdir ps d : keeps ps (chdir d).
Proof.
  intros w Pw. unfold chdir.
  destruct (negb (fs_exists (w_fs w) d) && removed_since_chdir d (w_trace w)); cbn.
  - exact Pw.
  - now apply GuardedWith_quiet.
Qed.

Lemma keeps_try_except {A} ps (body : M A) handler :
  keeps ps body ->
  (forall e h, handler e = Some h -> keeps ps h) ->
  keeps ps (try_except body handler).
Proof.
  intros Hb Hh w Pw. unfold try_except. specialize (Hb w Pw).
  destruct (body w) as [[a | e |] w']; cbn in *.
  - exact Hb.
  - destruct (handler e) as [h |] eqn:E; [| exact Hb].
    now apply (Hh e h E).
  - exact Hb.
Qed.

Lemma keeps_try_finally {A} ps (body : M A) fin :
  keeps ps body -> keeps ps fin -> keeps ps (try_finally body fin).
Proof.
  intros Hb Hf w Pw. unfold try_finally. specialize (Hb w Pw).
  destruct (body w) as [[a | e |] w']; cbn in *.
  - specialize (Hf w' Hb). destruct (fin w') as [[u | e |] w'']; exact Hf.
  - specialize (Hf w' Hb). destruct (fin w') as [[u | e' |] w'']; exact Hf.
  - exact Hb.
Qed.

Lemma keeps_for_each {A} ps (items : list A) body :
  (forall x, keeps ps (body x)) -> keeps ps (for_each items body).
Proof.
  intros Hb. induction items as [| x items IH]; cbn [for_each].
  - apply keeps_ret.
  - apply keeps_bind; [apply Hb | intros _; exact IH].
Qed.

(** Asking [prompt] keeps the invariant, and an affirmation adds the
    prompt to the confirmed ones. *)
Lemma triple_input ps prompt :
  ~ In prompt ps ->
  triple (GuardedWith ps) (input prompt)
    (fun answer tr =>
       GuardedWith ps tr
       /\ (String.eqb (PyStr.lower answer) "y" = true ->
           GuardedWith (prompt :: ps) tr))
    (GuardedWith ps).
Proof.
  intros N w Pw. unfold input.
  destruct (GuardedWith_input ps prompt (env_input (w_env w) (w_ninput w))
              (w_trace w) Pw N) as [G C].
  destruct (env_input (w_env w) (w_ninput w)) as [line |] eqn:E; cbn.
  - split; [exact G | exact C].
  - exact G.
Qed.

(** A launch that is permitted after any trace satisfying the invariant. *)
Lemma keeps_subprocess_run ps cmd check capture timeout :
  (forall tr, GuardedWith ps tr ->
              permitted (EvRun cmd check capture timeout) tr = true) ->
  keeps ps (subprocess_run cmd check capture timeout).
Proof.
  intros Hp w Pw. unfold subprocess_run.
  assert (G : GuardedWith ps (EvRun cmd check capture timeout :: w_trace w)).
  { destruct Pw as [G C]. split.
    - rewrite guarded_cons, Hp, G by (split; assumption). reflexivity.
    - intros p Ip. unfold confirmed. cbn [last_answer]. now apply C. }
  destruct (env_proc (w_env w) (w_nproc w)) as [| rc out err | msg | rc]; cbn.
  - exact G.
  - destruct timeout; [destruct (env_overrun (w_env w) (w_nproc w)) |]; cbn;
      try exact G; destruct (check && negb (rc =? 0)); cbn; exact G.
  - exact G.
  - destruct timeout; [destruct (env_overrun (w_env w) (w_nproc w)) |]; cbn;
      try exact G; destruct capture; cbn; try exact G;
      destruct (check && negb (rc =? 0)); cbn; exact G.
Qed.

Lemma keeps_run_command ps cmd check capture :
  (forall tr, GuardedWith ps tr ->
              permitted (EvRun cmd check capture None) tr = true) ->
  keeps ps (Teardown.run_command cmd check capture).
Proof.
  intros Hp. unfold Teardown.run_command.
  apply keeps_try_except.
  - apply keeps_bind; [now apply keeps_subprocess_run | intros r; apply keeps_ret].
  - intros e h E. destruct e; try discriminate; injection E as <-.
    + apply keeps_bind; [apply keeps_print | intros _].
      apply keeps_bind; [| intros _; apply keeps_ret].
      destruct err as [text |]; [apply keeps_if |];
        first [apply keeps_print | apply keeps_ret].
    + apply keeps_bind; [apply keeps_print | intros _].
      apply keeps_bind; [apply keeps_print | intros _; apply keeps_raise].
Qed.

Lemma keeps_rmtree_data ps :
  In Teardown.DATA_PROMPT ps -> keeps ps (rmtree LocalstackData).
Proof.
  intros I w Pw. unfold rmtree.
  assert (G : GuardedWith ps (EvRmtree LocalstackData :: w_trace w)).
  { destruct Pw as [G C]. split.
    - rewrite guarded_cons, G. unfold permitted. cbn [action_of].
      now rewrite (C _ I).
    - intros p Ip. unfold confirmed. cbn [last_answer]. now apply C. }
  destruct (fs_tree (w_fs w) LocalstackData) as [[| |] |]; cbn; try exact G.
  destruct (env_rmtree_fails (w_env w) (w_nrmtree w)) as [[msg gone] |]; cbn; exact G.
Qed.

Ltac keeps_step :=
  first
    [ apply keeps_bind; [| intros ?]
    | apply keeps_print | apply keeps_ret | apply keeps_raise
    | apply keeps_path_exists | apply keeps_getcwd | apply keeps_chdir
    | apply keeps_with_env; intros ?
    | apply keeps_emit; reflexivity ].

Lemma keeps_stop_localstack ps : keeps ps Teardown.stop_localstack.
Proof.
  unfold Teardown.stop_localstack, print_step.
  apply keeps_bind; [apply keeps_print | intros _].
  apply keeps_bind; [apply keeps_path_exists | intros found].
  destruct found; cbn [negb].
  - apply keeps_bind; [apply keeps_getcwd | intros d].
    apply keeps_try_finally; [| apply keeps_chdir].
    apply keeps_bind; [apply keeps_chdir | intros _].
    apply keeps_bind; [apply keeps_run_command; reflexivity | intros result].
    destruct result as [r |]; [destruct (returncode r =? 0) |]; repeat keeps_step.
  - repeat keeps_step.
Qed.

(** After a prompt: the guarded branch may rely on the confirmation, the
    other one may not. *)
Lemma confirmed_branch {A} ps prompt (c : bool) (yes no : M A) :
  keeps (prompt :: ps) yes ->
  keeps ps no ->
  triple (fun tr => GuardedWith ps tr
                    /\ (c = true -> GuardedWith (prompt :: ps) tr))
    (if c then yes else no) (fun _ => GuardedWith ps) (GuardedWith ps).
Proof.
  intros Hy Hn. destruct c.
  - eapply triple_conseq; [| | | apply (keeps_weaken (prompt :: ps) ps yes)].
    + intros tr [_ G]. now apply G.
    + intros a tr G. exact G.
    + intros tr G. exact G.
    + intros p Hp. now right.
    + exact Hy.
  - eapply triple_conseq; [| | | exact Hn].
    + now intros tr [G _].
    + intros a tr G. exact G.
    + intros tr G. exact G.
Qed.

Lemma keeps_remove_volumes ps :
  ~ In Teardown.DATA_PROMPT ps -> keeps ps Teardown.remove_volumes.
Proof.
  intros N. unfold Teardown.remove_volumes, print_step.
  apply keeps_bind; [apply keeps_print | intros _].
  apply keeps_bind; [apply keeps_path_exists | intros found].
  destruct found; [| apply keeps_print].
  apply keeps_bind; [repeat keeps_step | intros _].
  eapply triple_bind; [apply (triple_input ps _ N) | intros response].
  apply confirmed_branch; [| apply keeps_print].
  apply keeps_try_except.
  - apply keeps_bind; [apply keeps_rmtree_data; now left | intros _; apply keeps_print].
  - intros e h E. destruct (is_Exception e); [| discriminate].
    injection E as <-. apply keeps_print.
Qed.

Lemma keeps_cleanup_containers ps :
  ~ In Teardown.CONTAINERS_PROMPT ps -> keeps ps Teardown.cleanup_containers.
Proof.
  intros N. unfold Teardown.cleanup_containers, print_step.
  apply keeps_bind; [apply keeps_print | intros _].
  apply keeps_bind; [apply keeps_run_command; reflexivity | intros result].
  destruct (Teardown.listed result) as [text |]; [| apply keeps_print].
  apply keeps_bind; [apply keeps_print | intros _].
  eapply triple_bind; [apply (triple_input ps _ N) | intros response].
  apply confirmed_branch; [| apply keeps_print].
  apply keeps_bind; [| intros _; apply keeps_print].
  apply keeps_for_each. intros container.
  apply keeps_bind; [| intros _; apply keeps_ret].
  apply keeps_run_command. intros tr [_ C].
  unfold permitted. cbn [action_of]. apply C. now left.
Qed.

Lemma keeps_cleanup_images ps :
  In Teardown.MAIN_IMAGES_PROMPT ps ->
  ~ In Teardown.IMAGES_PROMPT ps ->
  keeps ps Teardown.cleanup_images.
Proof.
  intros I N. unfold Teardown.cleanup_images, print_step.
  apply keeps_bind; [apply keeps_print | intros _].
  apply keeps_bind; [apply keeps_run_command; reflexivity | intros result].
  destruct (Teardown.listed result) as [text |]; [| apply keeps_print].
  apply keeps_bind; [apply keeps_print | intros _].
  eapply triple_bind; [apply (triple_input ps _ N) | intros response].
  apply confirmed_branch; [| apply keeps_print].
  apply keeps_bind; [| intros _; apply keeps_print].
  apply keeps_for_each. intros image_id.
  apply keeps_bind; [| intros _; apply keeps_ret].
  apply keeps_run_command. intros tr [_ C].
  unfold permitted. cbn [action_of].
  rewrite (C Teardown.MAIN_IMAGES_PROMPT), (C Teardown.IMAGES_PROMPT);
    [reflexivity | now left | now right].
Qed.

Lemma keeps_teardown_main : keeps [] Teardown.main.
Proof.
  unfold Teardown.main, print_step.
  apply keeps_bind; [apply keeps_print | intros _].
  apply keeps_bind; [apply keeps_print | intros _].
  apply keeps_bind; [apply keeps_stop_localstack | intros stopped].
  apply keeps_bind.
  { destruct stopped; cbn [negb]; [apply keeps_ret |].
    apply keeps_bind; [apply keeps_print | intros _].
    eapply triple_bind; [apply (triple_input [] Teardown.CONTINUE_PROMPT); intros [] |].
    intros response.
    eapply triple_conseq with (P := GuardedWith []);
      [now intros tr [G _] | intros a tr G; exact G | intros tr G; exact G |].
    apply keeps_if; repeat keeps_step. }
  intros _.
  apply keeps_bind; [apply keeps_print | intros _].
  apply keeps_bind; [apply keeps_remove_volumes; intros [] | intros _].
  apply keeps_bind; [apply keeps_print | intros _].
  apply keeps_bind; [apply keeps_cleanup_containers; intros [] | intros _].
  apply keeps_bind; [apply keeps_print | intros _].
  eapply triple_bind;
    [apply (triple_input [] Teardown.MAIN_IMAGES_PROMPT); intros [] |].
  intros response.
  eapply triple_bind.
  { apply confirmed_branch; [| apply keeps_print].
    apply keeps_cleanup_images; [now left |].
    intros [E | []]. discriminate E. }
  intros u. cbv beta. repeat keeps_step.
Qed.

Lemma guarded_spec tr :
  guarded tr = true
  <-> forall later e earlier,
        tr = (later ++ e :: earlier)%list -> permitted e earlier = true.
Proof.
  induction tr as [| x tr IH]; cbn [guarded].
  - split; [| reflexivity]. intros _ later e earlier E.
    destruct later; discriminate E.
  - rewrite andb_true_iff, IH. split.
    + intros [P G] later e earlier E. destruct later as [| y later]; cbn in E.
      * injection E as -> ->. exact P.
      * injection E as -> E. now apply (G later).
    + intros H. split.
      * now apply (H [] x tr).
      * intros later e earlier E. apply (H (x :: later)). cbn. now rewrite E.
Qed.

Arguments Teardown.listed : simpl never.

Ltac teardown_all :=
  unfold Teardown.run_command, try_except, subprocess_run, bind, print_step,
    print, emit, input, ret, sys_exit, raise, path_exists, rmtree.

Lemma remove_volumes_skips w :
  affirms (env_input (w_env w) (w_ninput w)) = false ->
  filter destructive (w_trace (snd (Teardown.remove_volumes w)))
  = filter destructive (w_trace w).
Proof.
  intros A. unfold Teardown.remove_volumes. teardown_all. cbn.
  destruct (is_some (fs_data (w_fs w))); cbn; [| reflexivity].
  destruct (env_input (w_env w) (w_ninput w)) as [line |]; cbn in *;
    [rewrite A |]; reflexivity.
Qed.

Lemma cleanup_containers_skips w :
  affirms (env_input (w_env w) (w_ninput w)) = false ->
  filter destructive (w_trace (snd (Teardown.cleanup_containers w)))
  = filter destructive (w_trace w).
Proof.
  intros A. unfold Teardown.cleanup_containers. teardown_all. cbn.
  destruct (env_proc (w_env w) (w_nproc w)) as [| rc out err | msg | rc]; cbn;
    [reflexivity | | reflexivity | reflexivity].
  destruct (Teardown.listed _) as [text |]; cbn; [| reflexivity].
  destruct (env_input (w_env w) (w_ninput w)) as [line |]; cbn in *;
    [rewrite A |]; reflexivity.
Qed.

Lemma cleanup_images_skips w :
  affirms (env_input (w_env w) (w_ninput w)) = false ->
  filter destructive (w_trace (snd (Teardown.cleanup_images w)))
  = filter destructive (w_trace w).
Proof.
  intros A. unfold Teardown.cleanup_images. teardown_all. cbn.
  destruct (env_proc (w_env w) (w_nproc w)) as [| rc out err | msg | rc]; cbn;
    [reflexivity | | reflexivity | reflexivity].
  destruct (Teardown.listed _) as [text |]; cbn; [| reflexivity].
  destruct (env_input (w_env w) (w_ninput w)) as [line |]; cbn in *;
    [rewrite A |]; reflexivity.
Qed.

(** C10.  In a run of the teardown every destructive action comes after
    the confirmation it needs: the data directory is deleted only when
    the latest answer to the data prompt, lowercased, is y; a container is
    removed only when the latest answer to the containers prompt is; an
    image is removed only when both the latest answer to the images prompt
    of the main flow and the latest answer to the prompt inside the image
    clean-up are.  And each of the three steps, when the line typed at its
    prompt is anything else (the empty line included, or the end of
    input), removes nothing. *)
Theorem teardown_actions_confirmed w :
  guarded (w_trace w) = true ->
  (forall later e earlier,
     w_trace (snd (Teardown.main w)) = (later ++ e :: earlier)%list ->
     permitted e earlier = true)
  /\ (forall w0,
        affirms (env_input (w_env w0) (w_ninput w0)) = false ->
        filter destructive (w_trace (snd (Teardown.remove_volumes w0)))
        = filter destructive (w_trace w0)
        /\ filter destructive (w_trace (snd (Teardown.cleanup_containers w0)))
           = filter destructive (w_trace w0)
        /\ filter destructive (w_trace (snd (Teardown.cleanup_images w0)))
           = filter destructive (w_trace w0))
  /\ affirms (Some "") = false
  /\ affirms (Some "yes") = false
  /\ affirms (Some "Y") = true.
Proof.
  intros G. split; [| split; [| repeat split]].
  - apply guarded_spec.
    assert (K := keeps_teardown_main w).
    assert (P : GuardedWith [] (w_trace w)) by now apply GuardedWith_nil.
    specialize (K P).
    destruct (fst (Teardown.main w)); now apply GuardedWith_guarded with (@nil string).
  - intros w0 A. split; [| split].
    + now apply remove_volumes_skips.
    + now apply cleanup_containers_skips.
    + now apply cleanup_images_skips.
Qed.

Lemma teardown_actions_confirmed_witness :
  let w := fresh (scripted [Exited 0 "" "";
                            Exited 0 ("localstack-main" ++ PyStr.NL) "";
                            Exited 0 "" "";
                            Exited 0 ("0123456789ab" ++ PyStr.NL) "";
                            Exited 0 "" ""]
                           [] [Some "Y"; Some "y"; Some "y"; Some "y"])
                 {| fs_compose := true; fs_data := Some (Dir []); fs_lambda := None |} in
  guarded (w_trace (snd (Teardown.main w))) = true
  /\ List.length (filter destructive (w_trace (snd (Teardown.main w)))) = 3%nat.
Proof.
  cbn zeta. split; [| vm_compute; reflexivity].
  apply guarded_spec.
  apply (teardown_actions_confirmed
           (fresh (scripted [Exited 0 "" "";
                             Exited 0 ("localstack-main" ++ PyStr.NL) "";
                             Exited 0 "" "";
                             Exited 0 ("0123456789ab" ++ PyStr.NL) "";
                             Exited 0 "" ""]
                            [] [Some "Y"; Some "y"; Some "y"; Some "y"])
                  {| fs_compose := true; fs_data := Some (Dir []); fs_lambda := None |})).
  reflexivity.
Defined.


(** ** The archive *)

Lemma walk_spec t : forall prefix p n,
  In (p, n) (walk prefix t)
  <-> exists q, p = (prefix ++ q)%list /\ at_path t q n.
Proof.
  induction t as [data | | children IH] using node_induction; intros prefix p n.
  - cbn. split; [intros [] | intros [q [_ H]]; inversion H].
  - cbn. split; [intros [] | intros [q [_ H]]; inversion H].
  - cbn [walk]. rewrite in_app_iff, in_map_iff, in_flat_map. split.
    + intros [[entry [E I]] | [entry [I W]]].
      * injection E as <- <-. exists [fst entry]. split; [reflexivity |].
        apply at_child. now destruct entry.
      * rewrite Forall_forall in IH. apply (IH entry I) in W.
        destruct W as [q [-> A]]. exists (fst entry :: q). split.
        -- now rewrite <- app_assoc.
        -- apply at_deeper with (snd entry); [now destruct entry | exact A].
    + intros [q [-> A]]. inversion A as [ch name m I | ch name child q' m I A']; subst.
      * left. exists (name, n). split; [reflexivity | exact I].
      * right. exists (name, child). split; [exact I |].
        rewrite Forall_forall in IH. apply (IH (name, child) I).
        exists q'. split; [cbn; now rewrite <- app_assoc | exact A'].
Qed.

Lemma files_in_app a b : files_in (a ++ b) = (files_in a ++ files_in b)%list.
Proof. unfold files_in. apply flat_map_app. Qed.

Lemma files_in_spec items p data :
  In (p, data) (files_in items) <-> In (p, File data) items.
Proof.
  unfold files_in. rewrite in_flat_map. split.
  - intros [[q n] [I H]]. cbn in H. destruct n; cbn in H; try contradiction.
    destruct H as [H | []]. injection H as -> ->. exact I.
  - intros I. exists (p, File data). split; [exact I | now left].
Qed.

Lemma files_in_cons item items :
  files_in (item :: items)
  = (match snd item with
     | File data => [(fst item, data)]
     | _ => []
     end ++ files_in items)%list.
Proof. reflexivity. Qed.

Lemma count_regular_split n :
  count_regular n
  = (match n with File _ => 1 | _ => 0 end + regular_below (Some n))%nat.
Proof. destruct n; cbn; lia. Qed.

Lemma files_in_children_length prefix children :
  Forall (fun entry =>
            forall prefix,
              List.length (files_in (walk prefix (snd entry)))
              = regular_below (Some (snd entry))) children ->
  (List.length
     (files_in (map (fun entry => ((prefix ++ [fst entry])%list, snd entry)) children))
   + List.length
       (files_in
          (flat_map (fun entry => walk (prefix ++ [fst entry])%list (snd entry))
             children)))%nat
  = list_sum (map (fun entry => count_regular (snd entry)) children).
Proof.
  induction 1 as [| [name child] rest Hc Hrest IH]; [reflexivity |].
  cbn [map flat_map list_sum fst snd] in *.
  rewrite files_in_app, length_app, files_in_cons, length_app.
  rewrite (Hc (prefix ++ [name])%list), (count_regular_split child).
  change (list_sum (?a :: ?l)) with (a + list_sum l)%nat.
  cbn [fst snd]. destruct child; cbn [List.length]; lia.
Qed.

Lemma files_in_walk_length t : forall prefix,
  List.length (files_in (walk prefix t)) = regular_below (Some t).
Proof.
  induction t as [data | | children IH] using node_induction; intros prefix;
    [reflexivity | reflexivity |].
  cbn [walk regular_below]. rewrite files_in_app, length_app.
  now apply files_in_children_length.
Qed.

Lemma path_eqb_refl p : path_eqb p p = true.
Proof. destruct p; cbn; [apply String.eqb_refl | reflexivity ..]. Qed.

(** What the loop over [publish_dir.rglob('*')] writes. *)
Lemma archive_of_walk tree :
  archive_of tree
    (files_in (match tree with Some t => walk [] t | None => [] end)).
Proof.
  split.
  - intros p data. rewrite files_in_spec. unfold file_at. destruct tree as [t |].
    + rewrite walk_spec. split.
      * intros [q [-> A]]. now exists t.
      * intros [t' [E A]]. injection E as <-. now exists p.
    + split; [intros [] | intros [t [E _]]; discriminate E].
  - destruct tree as [t |]; [apply files_in_walk_length | reflexivity].
Qed.

Arguments files_in : simpl never.
Arguments walk : simpl never.

(** *** The steps of the packaging *)






Lemma zip_write_run arcname data w d entries :
  env_zip_fails (w_env w) (w_nzip w) = None ->
  fs_lambda (w_fs w) = Some d ->
  ld_zip d = Some (ZipArchive entries) ->
  zip_write arcname data w
  = (Ret tt,
     with_fs (tick_zip (with_trace w (EvWriteZip arcname)))
       (set_lambda (w_fs w)
          (with_zip d (ZipArchive (entries ++ [(arcname, data)]))))).
Proof. intros Z L A. unfold zip_write. now rewrite Z, L, A. Qed.

(** The loop over the files found writes the regular ones, in the order
    found, after the entries the archive holds already. *)
Lemma zip_files_run base items : forall w d entries,
  (forall n, env_zip_fails (w_env w) n = None) ->
  fs_lambda (w_fs w) = Some d ->
  ld_zip d = Some (ZipArchive entries) ->
  exists w',
    zip_files base (map (fun item => ((base, fst item), snd item)) items) w
    = (Ret tt, w')
    /\ w_fs w'
       = set_lambda (w_fs w) (with_zip d (ZipArchive (entries ++ files_in items)))
    /\ w_env w' = w_env w /\ w_nproc w' = w_nproc w /\ w_cwd w' = w_cwd w
    /\ same_removals w w'.
Proof.
  induction items as [| [p n] items IH]; intros w d entries Z L A;
    cbn [map zip_files fst snd].
  - exists w. split; [reflexivity |]. rewrite app_nil_r.
    split; [| repeat split].
    destruct w as [env fs cwd tr np nh ni nr nz]. destruct fs as [compose data lam].
    cbn in *. subst lam. destruct d as [b o pb z]. cbn in A. now subst z.
  - rewrite files_in_cons. cbn [fst snd].
    destruct n as [data | children |]; [| now apply IH | now apply IH].
    unfold relative_to. cbn [fst snd]. rewrite path_eqb_refl.
    run_step.
    rewrite (bind_run _ _ _ _ _ (zip_write_run p data w d entries (Z _) L A)).
    match goal with |- context [zip_files _ _ ?w0] => set (w1 := w0) end.
    destruct (IH w1 (with_zip d (ZipArchive (entries ++ [(p, data)])))
                (entries ++ [(p, data)])%list)
      as [w' [E [F [V [N [C Q]]]]]]; [exact Z | reflexivity | reflexivity |].
    exists w'. split; [exact E |]. split; [| repeat split; assumption].
    rewrite F. cbn. now rewrite <- app_assoc.
Qed.














(** Nor is an archive produced for every set of regular files: a file
    that cannot be archived (here one dated before 1980) ends the step
    with the error of the write, and leaves the archive with the entries
    written before it. *)
Lemma packaging_stops_at_unarchivable_file :
  let env :=
    {| env_root := "/work/playground"; env_win32 := false;
       env_proc := fun _ => Exited 0 "" "";
       env_effect := fun _ fs => fs;
       env_overrun := fun _ => false;
       env_http := fun _ => Response 200 (inr (JObj []));
       env_input := fun _ => None;
       env_rmtree_fails := fun _ => None;
       env_zip_fails := fun n => match n with 1%nat => Some OldTimestamp | _ => None end |} in
  let w := fresh env
             (set_lambda blank_fs
                {| ld_bin := None; ld_obj := None;
                   ld_publish := Some (Dir [("bootstrap", File "#!/bin/sh");
                                            ("SimpleLambda.dll", File "MZ")]);
                   ld_zip := None |}) in
  fst (DeployZip.build_and_package w) = Raise (OtherError "ValueError")
  /\ in_lambda (w_fs (snd (DeployZip.build_and_package w))) ld_zip
     = Some (ZipArchive [(["bootstrap"], "#!/bin/sh")]).
Proof. cbn zeta. split; reflexivity. Qed.



(** * Further properties *)

(** ** The runners, whatever the outcome *)

(** X1.  A tool that cannot be located ends the run with status 1 in every
    script, the teardown included and whether or not the command was
    required to succeed; the last line printed names the tool, and the
    files are as before. *)
Theorem missing_tool_is_fatal cmd check capture w :
  env_proc (w_env w) (w_nproc w) = NotFound ->
  (fst (run_command_fatal cmd check capture w) = Raise (SystemExit 1)
   /\ hd_error (w_trace (snd (run_command_fatal cmd check capture w)))
      = Some (EvPrint ("Please ensure " ++ hd "" cmd
                       ++ " is installed and in your PATH"))
   /\ w_fs (snd (run_command_fatal cmd check capture w)) = w_fs w)
  /\ (fst (Teardown.run_command cmd check capture w) = Raise (SystemExit 1)
      /\ hd_error (w_trace (snd (Teardown.run_command cmd check capture w)))
         = Some (EvPrint ("Please ensure " ++ hd "" cmd
                          ++ " is installed and in your PATH"))
      /\ w_fs (snd (Teardown.run_command cmd check capture w)) = w_fs w).
Proof.
  intros P.
  unfold run_command_fatal, Teardown.run_command, try_except, subprocess_run, bind.
  rewrite P. cbn. repeat split.
Qed.

Lemma missing_tool_is_fatal_witness :
  let w := fresh (scripted [NotFound] [] []) blank_fs in
  fst (Teardown.run_command ["docker"; "rm"; "-f"; "localstack-main"] false false w)
  = Raise (SystemExit 1)
  /\ fst (run_command_fatal ["aws"; "--version"] false true w) = Raise (SystemExit 1).
Proof.
  cbn zeta.
  destruct (missing_tool_is_fatal ["docker"; "rm"; "-f"; "localstack-main"] false false
              (fresh (scripted [NotFound] [] []) blank_fs) eq_refl) as [_ [T _]].
  destruct (missing_tool_is_fatal ["aws"; "--version"] false true
              (fresh (scripted [NotFound] [] []) blank_fs) eq_refl) as [[F _] _].
  split; [exact T | exact F].
Defined.

(** ** [check_docker] *)

Lemma check_docker_run w :
  exists w',
    Setup.check_docker w
    = (if passes true (env_proc (w_env w) (w_nproc w))
       then Ret tt else Raise (ending true (env_proc (w_env w) (w_nproc w))), w')
    /\ hd_error (w_trace w')
       = Some (match crash true (env_proc (w_env w) (w_nproc w)) with
               | Some _ => EvRun ["docker"; "info"] true true None
               | None =>
                   EvPrint
                     (if exits_0 (env_proc (w_env w) (w_nproc w))
                      then "✅ Docker is running"
                      else "❌ Docker is not running. Please start Docker and try again.")
               end)
    /\ launch_only w ["docker"; "info"] true w'.
Proof.
  unfold Setup.check_docker, Setup.run_command, print_step.
  unfold run_command_fatal, try_except, subprocess_run, bind, print, emit, passes,
    ending, crash, exits_0, launch_only, fs_after, commands.
  cbn [w_env w_nproc with_trace].
  destruct (env_proc (w_env w) (w_nproc w)) as [| rc out err | msg | rc].
  - eexists. split; [reflexivity |]. cbn. repeat split; norm_list.
  - destruct (rc =? 0); cbn [andb negb].
    + eexists. split; [reflexivity |]. cbn. repeat split; norm_list.
    + destruct (PyStr.truthy err) eqn:T;
        eexists; (split; [cbn; rewrite ?T; reflexivity |]); cbn;
        repeat split; norm_list.
  - eexists. split; [reflexivity |]. cbn. repeat split; norm_list.
  - eexists. split; [reflexivity |]. cbn. repeat split; norm_list.
Qed.

(** X2.  The Docker check passes exactly when [docker info] can be
    started, exits 0 and its output can be decoded.  When the tool is
    missing or exits non-zero it ends the run with status 1, and its last
    line tells the operator to start Docker; when the tool cannot be
    started or its output cannot be decoded, that error leaves the check
    right after the launch.  It launches that one command and does
    nothing else. *)
Theorem check_docker_outcome w :
  fst (Setup.check_docker w)
  = (if passes true (env_proc (w_env w) (w_nproc w))
     then Ret tt else Raise (ending true (env_proc (w_env w) (w_nproc w))))
  /\ hd_error (w_trace (snd (Setup.check_docker w)))
     = Some (match crash true (env_proc (w_env w) (w_nproc w)) with
             | Some _ => EvRun ["docker"; "info"] true true None
             | None =>
                 EvPrint
                   (if exits_0 (env_proc (w_env w) (w_nproc w))
                    then "✅ Docker is running"
                    else "❌ Docker is not running. Please start Docker and try again.")
             end)
  /\ launch_only w ["docker"; "info"] true (snd (Setup.check_docker w)).
Proof.
  destruct (check_docker_run w) as [w' [E [H L]]]. rewrite E. cbn [fst snd].
  split; [reflexivity |]. split; assumption.
Qed.

(** ** Entering a directory for one command *)

(** Nothing has been removed since a directory was entered when only a
    command has been launched since. *)
Lemma entered_kept w d d0 w1 :
  same_removals (with_cwd (with_trace w (EvChdir d)) d) w1 ->
  removed_since_chdir d0 (w_trace w1) = false.
Proof. intros Q. now rewrite Q. Qed.

(** ** [stop_localstack] *)

Lemma stop_localstack_run w :
  exists w',
    Teardown.stop_localstack w
    = (if fs_compose (w_fs w)
       then match env_proc (w_env w) (w_nproc w) with
            | NotFound => Raise (SystemExit 1)
            | Exited rc _ _ => Ret (rc =? 0)
            | CannotStart msg => Raise (OSError msg)
            | Garbled rc => Ret (rc =? 0)
            end
       else Ret false, w')
    /\ (if fs_compose (w_fs w)
        then launch_only w ["docker-compose"; "down"] false w'
        else printed_only w w').
Proof.
  unfold Teardown.stop_localstack. run_step. run_step.
  change (fs_exists _ ComposeFile) with (fs_compose (w_fs w)).
  destruct (fs_compose (w_fs w)); cbn [negb].
  - run_step.
    match goal with |- context [try_finally (chdir ?d ;; ?k) (chdir ?o) ?x] =>
      change o with (w_cwd w); set (body := chdir d ;; k); set (w0 := x)
    end.
    destruct (teardown_run_command_launch ["docker-compose"; "down"] false false
                (with_cwd (with_trace w0 (EvChdir ProjectRoot)) ProjectRoot))
      as [w1 [E [L Q]]].
    apply launch_only_moved in L.
    pose proof (entered_kept _ _ (w_cwd w) _ Q) as K.
    change (env_proc _ _) with (env_proc (w_env w) (w_nproc w)) in E.
    change (w_cwd (with_trace _ _)) with (w_cwd w).
    assert (C : chdir ProjectRoot w0
                = (Ret tt, with_cwd (with_trace w0 (EvChdir ProjectRoot)) ProjectRoot))
      by (now apply chdir_there).
    assert (Done : forall b line,
              body w0 = (Ret b, with_trace w1 (EvPrint line)) ->
              exists w',
                try_finally body (chdir (w_cwd w)) w0 = (Ret b, w')
                /\ launch_only w ["docker-compose"; "down"] false w').
    { intros b line B. rewrite (try_finally_run _ _ _ _ _ B K).
      eexists. split; [reflexivity |].
      revert L. unfold launch_only, commands. cbn. now rewrite !app_nil_r. }
    assert (Stop : forall e,
              body w0 = (Raise e, w1) ->
              exists w',
                try_finally body (chdir (w_cwd w)) w0 = (Raise e, w')
                /\ launch_only w ["docker-compose"; "down"] false w').
    { intros e B. rewrite (try_finally_stop _ _ _ _ _ B K).
      eexists. split; [reflexivity | exact L]. }
    destruct (env_proc (w_env w) (w_nproc w)) as [| rc out err | msg | rc]; cbn in E.
    + apply Stop. unfold body. rewrite (bind_run _ _ _ _ _ C).
      now rewrite (bind_stop _ _ _ _ _ E).
    + destruct (rc =? 0) eqn:Z0.
      * apply Done with "✅ LocalStack stopped and containers removed".
        unfold body. rewrite (bind_run _ _ _ _ _ C), (bind_run _ _ _ _ _ E).
        cbn. now rewrite Z0.
      * apply Done with "⚠️  LocalStack may not have been running".
        unfold body. rewrite (bind_run _ _ _ _ _ C), (bind_run _ _ _ _ _ E).
        cbn. now rewrite Z0.
    + apply Stop. unfold body. rewrite (bind_run _ _ _ _ _ C).
      now rewrite (bind_stop _ _ _ _ _ E).
    + destruct (rc =? 0) eqn:Z0.
      * apply Done with "✅ LocalStack stopped and containers removed".
        unfold body. rewrite (bind_run _ _ _ _ _ C), (bind_run _ _ _ _ _ E).
        cbn. now rewrite Z0.
      * apply Done with "⚠️  LocalStack may not have been running".
        unfold body. rewrite (bind_run _ _ _ _ _ C), (bind_run _ _ _ _ _ E).
        cbn. now rewrite Z0.
  - run_step. eexists. split; [reflexivity |]. apply printed_only_print2.
Qed.

(** X3.  The stop step of the teardown: without a compose file it
    launches nothing and answers false; with one it launches
    [docker-compose down] once from the project root, answers whether
    that exited 0 (a failure is no error), ends the run with status 1
    only when the tool cannot be located, lets through the error of a
    tool that cannot be started, and in every case leaves the working
    directory as it found it. *)
Theorem stop_localstack_outcome w :
  if fs_compose (w_fs w) then
    fst (Teardown.stop_localstack w)
    = match env_proc (w_env w) (w_nproc w) with
      | NotFound => Raise (SystemExit 1)
      | Exited rc _ _ => Ret (rc =? 0)
      | CannotStart msg => Raise (OSError msg)
      | Garbled rc => Ret (rc =? 0)
      end
    /\ launch_only w ["docker-compose"; "down"] false
         (snd (Teardown.stop_localstack w))
  else
    fst (Teardown.stop_localstack w) = Ret false
    /\ printed_only w (snd (Teardown.stop_localstack w)).
Proof.
  destruct (stop_localstack_run w) as [w' [E F]]. rewrite E. cbn [fst snd].
  destruct (fs_compose (w_fs w)); split; (reflexivity || exact F).
Qed.

(** ** [tag_and_push_image] *)

Lemma tag_and_push_image_run w :
  exists w',
    DeployImage.tag_and_push_image w
    = (if exits_0 (env_proc (w_env w) (w_nproc w))
          && exits_0 (env_proc (w_env w) (S (w_nproc w)))
       then Ret tt
       else Raise (if exits_0 (env_proc (w_env w) (w_nproc w))
                   then ending false (env_proc (w_env w) (S (w_nproc w)))
                   else ending false (env_proc (w_env w) (w_nproc w))), w')
    /\ ran w
         ((["docker"; "tag"; "simple-lambda:latest";
            "localhost:4510/simple-lambda:latest"], true)
          :: (if exits_0 (env_proc (w_env w) (w_nproc w))
              then [(["docker"; "push"; "localhost:4510/simple-lambda:latest"], false)]
              else [])) w'.
Proof.
  unfold DeployImage.tag_and_push_image, DeployImage.run_command. run_step.
  match goal with |- context [bind (run_command_fatal ?c _ _) _ ?x] =>
    destruct (run_command_fatal_launch c true false x) as [w1 [E1 [L1 _]]]
  end.
  apply ran_launch, ran_after_print in L1.
  change (env_proc (w_env (with_trace w _)) _)
    with (env_proc (w_env w) (w_nproc w)) in E1.
  rewrite <- (passes_uncaptured (env_proc (w_env w) (w_nproc w))).
  destruct (passes false (env_proc (w_env w) (w_nproc w))) eqn:X1; cbn [andb].
  - destruct (passes_result true false _ X1) as [r [R _]].
    rewrite R in E1. rewrite (bind_run _ _ _ _ _ E1). do 4 run_step.
    match goal with |- context [bind (run_command_fatal ?c _ _) _ ?x] =>
      destruct (run_command_fatal_launch c false false x) as [w2 [E2 [L2 _]]];
      assert (R1 : ran w [(["docker"; "tag"; "simple-lambda:latest";
                            "localhost:4510/simple-lambda:latest"], true)] x)
        by (do 4 apply ran_print; exact L1)
    end.
    apply ran_launch in L2.
    rewrite (ran_next _ _ _ R1) in E2. cbn [List.length] in E2.
    rewrite Nat.add_1_r in E2.
    pose proof (ran_trans _ _ _ _ _ R1 L2) as R2. cbn [app] in R2.
    destruct (env_proc (w_env w) (S (w_nproc w))) as [| rc2 out2 err2 | msg2 | rc2];
      cbn [runner_result andb exits_0 ending crash] in *.
    + rewrite (bind_stop _ _ _ _ _ E2). eexists. split; [reflexivity | exact R2].
    + rewrite (bind_run _ _ _ _ _ E2). cbn [completed returncode].
      destruct (rc2 =? 0); cbn [negb].
      * eexists. split; [reflexivity | exact R2].
      * do 5 run_step. eexists. split; [reflexivity |].
        do 5 apply ran_print. exact R2.
    + rewrite (bind_stop _ _ _ _ _ E2). eexists. split; [reflexivity | exact R2].
    + rewrite (bind_run _ _ _ _ _ E2). cbn [completed returncode].
      destruct (rc2 =? 0); cbn [negb].
      * eexists. split; [reflexivity | exact R2].
      * do 5 run_step. eexists. split; [reflexivity |].
        do 5 apply ran_print. exact R2.
  - rewrite (fails_result false _ X1) in E1. rewrite (bind_stop _ _ _ _ _ E1).
    eexists. split; [reflexivity | exact L1].
Qed.

(** X4.  The image is pushed only after it has been tagged: a failed or
    missing [docker tag] ends the run with status 1 before any push, and
    so does a failed or missing [docker push]; the step returns exactly
    when both commands exit 0.  A tool that cannot be started ends the
    step where a missing one does, with its own error. *)
Theorem tag_and_push_outcome w :
  fst (DeployImage.tag_and_push_image w)
  = (if exits_0 (env_proc (w_env w) (w_nproc w))
        && exits_0 (env_proc (w_env w) (S (w_nproc w)))
     then Ret tt
     else Raise (if exits_0 (env_proc (w_env w) (w_nproc w))
                 then ending false (env_proc (w_env w) (S (w_nproc w)))
                 else ending false (env_proc (w_env w) (w_nproc w))))
  /\ ran w
       ((["docker"; "tag"; "simple-lambda:latest";
          "localhost:4510/simple-lambda:latest"], true)
        :: (if exits_0 (env_proc (w_env w) (w_nproc w))
            then [(["docker"; "push"; "localhost:4510/simple-lambda:latest"], false)]
            else []))
       (snd (DeployImage.tag_and_push_image w)).
Proof.
  destruct (tag_and_push_image_run w) as [w' [E R]]. rewrite E. cbn [fst snd].
  split; [reflexivity | exact R].
Qed.

(** ** [build_docker_image] *)

Lemma build_docker_image_run w :
  exists w',
    DeployImage.build_docker_image w
    = (if is_some (fs_lambda (w_fs w)) && exits_0 (env_proc (w_env w) (w_nproc w))
       then Ret tt
       else Raise (if is_some (fs_lambda (w_fs w))
                   then ending false (env_proc (w_env w) (w_nproc w))
                   else SystemExit 1), w')
    /\ (if is_some (fs_lambda (w_fs w))
        then launch_only w ["docker"; "build"; "-t"; "simple-lambda:latest"; "."]
               true w'
        else printed_only w w').
Proof.
  unfold DeployImage.build_docker_image, DeployImage.run_command. run_step. run_step.
  change (fs_exists _ DeployImage.LAMBDA_DIR) with (is_some (fs_lambda (w_fs w))).
  destruct (is_some (fs_lambda (w_fs w))) eqn:X0; cbn [negb andb].
  - run_step.
    match goal with |- context [try_finally (chdir ?d ;; ?k) (chdir ?o) ?x] =>
      change o with (w_cwd w); set (body := chdir d ;; k); set (w0 := x)
    end.
    destruct (run_command_fatal_launch
                ["docker"; "build"; "-t"; "simple-lambda:latest"; "."] true false
                (with_cwd (with_trace w0 (EvChdir LambdaDir)) LambdaDir))
      as [w1 [E [L Q]]].
    apply launch_only_moved in L.
    pose proof (entered_kept _ _ (w_cwd w) _ Q) as K.
    change (env_proc _ _) with (env_proc (w_env w) (w_nproc w)) in E.
    change (w_cwd (with_trace _ _)) with (w_cwd w).
    assert (C : chdir DeployImage.LAMBDA_DIR w0
                = (Ret tt, with_cwd (with_trace w0 (EvChdir LambdaDir)) LambdaDir))
      by (apply chdir_there; exact X0).
    rewrite <- (passes_uncaptured (env_proc (w_env w) (w_nproc w))).
    destruct (passes false (env_proc (w_env w) (w_nproc w))) eqn:X.
    + destruct (passes_result true false _ X) as [r [R _]].
      rewrite R in E.
      assert (B : body w0 = (Ret tt, w1)).
      { unfold body. rewrite (bind_run _ _ _ _ _ C). now rewrite (bind_run _ _ _ _ _ E). }
      rewrite (try_finally_run _ _ _ _ _ B K).
      eexists. split; [reflexivity | exact L].
    + rewrite (fails_result false _ X) in E.
      assert (B : body w0 = (Raise (ending false (env_proc (w_env w) (w_nproc w))), w1)).
      { unfold body. rewrite (bind_run _ _ _ _ _ C). now rewrite (bind_stop _ _ _ _ _ E). }
      rewrite (try_finally_stop _ _ _ _ _ B K).
      eexists. split; [reflexivity | exact L].
  - run_step. eexists. split; [reflexivity |]. apply printed_only_print2.
Qed.

(** X5.  The image build returns exactly when the Lambda directory
    exists and [docker build] exits 0, and ends the run with status 1
    otherwise, or with the error of a tool that cannot be started.
    Without the directory nothing is launched; with it the build is
    launched once from inside it, and the working directory is
    afterwards the one the step was entered with, also when the build
    failed. *)
Theorem build_docker_image_outcome w :
  fst (DeployImage.build_docker_image w)
  = (if is_some (fs_lambda (w_fs w)) && exits_0 (env_proc (w_env w) (w_nproc w))
     then Ret tt
     else Raise (if is_some (fs_lambda (w_fs w))
                 then ending false (env_proc (w_env w) (w_nproc w))
                 else SystemExit 1))
  /\ (if is_some (fs_lambda (w_fs w))
      then launch_only w ["docker"; "build"; "-t"; "simple-lambda:latest"; "."]
             true (snd (DeployImage.build_docker_image w))
      else printed_only w (snd (DeployImage.build_docker_image w))).
Proof.
  destruct (build_docker_image_run w) as [w' [E R]]. rewrite E. cbn [fst snd].
  split; [reflexivity | exact R].
Qed.

(** ** The tool checks of the deploy scripts *)

Lemma tool_checks_fail_fast {A} tool1 message1 message2 (rest : M A) w :
  passes true (env_proc (w_env w) (w_nproc w))
  && passes true (env_proc (w_env w) (S (w_nproc w))) = false ->
  exists w',
    (print_step "Checking prerequisites..." "🔍" ;;
     try_except (run_command_fatal [tool1; "--version"] true true ;; ret tt)
       (fun e =>
          match e with
          | SystemExit _ => Some (print message1 ;; sys_exit 1)
          | _ => None
          end) ;;
     try_except (run_command_fatal ["aws"; "--version"] true true ;; ret tt)
       (fun e =>
          match e with
          | SystemExit _ => Some (print message2 ;; sys_exit 1)
          | _ => None
          end) ;;
     rest) w
    = (Raise (ending true
                (if passes true (env_proc (w_env w) (w_nproc w))
                 then env_proc (w_env w) (S (w_nproc w))
                 else env_proc (w_env w) (w_nproc w))), w')
    /\ ran w
         (([tool1; "--version"], true)
          :: (if passes true (env_proc (w_env w) (w_nproc w))
              then [(["aws"; "--version"], true)] else [])) w'
    /\ hd_error (w_trace w')
       = Some (if passes true (env_proc (w_env w) (w_nproc w))
               then match crash true (env_proc (w_env w) (S (w_nproc w))) with
                    | Some _ => EvRun ["aws"; "--version"] true true None
                    | None => EvPrint message2
                    end
               else match crash true (env_proc (w_env w) (w_nproc w)) with
                    | Some _ => EvRun [tool1; "--version"] true true None
                    | None => EvPrint message1
                    end).
Proof.
  intros F. run_step.
  match goal with |- context [bind (try_except _ _) _ ?x] =>
    destruct (tool_check_run tool1 message1 x) as [w1 [E1 [L1 H1]]]
  end.
  pose proof (launch_only_after _ _ _ _ _ (printed_only_print w _) L1) as L1'.
  apply ran_launch, ran_after_print in L1.
  change (env_proc (w_env (with_trace w _)) _)
    with (env_proc (w_env w) (w_nproc w)) in E1, H1.
  destruct (passes true (env_proc (w_env w) (w_nproc w))) eqn:X1; cbn [andb] in F.
  - rewrite (bind_run _ _ _ _ _ E1).
    destruct (tool_check_run "aws" message2 w1) as [w2 [E2 [L2 H2]]].
    apply ran_launch in L2.
    rewrite (ran_next _ _ _ L1) in E2, H2. cbn [List.length] in E2, H2.
    rewrite Nat.add_1_r in E2, H2. rewrite F in E2.
    rewrite (bind_stop _ _ _ _ _ E2).
    eexists. split; [reflexivity |]. split; [| exact (H2 F)].
    exact (ran_trans _ _ _ _ _ L1 L2).
  - rewrite (bind_stop _ _ _ _ _ E1).
    eexists. split; [reflexivity |]. split; [exact L1 | exact (H1 eq_refl)].
Qed.

(** X6.  Both deploy scripts stop at the first tool check that fails:
    when the first tool ([dotnet], resp. [docker]) or the AWS CLI is
    missing or its [--version] exits non-zero, the run ends with status
    1, the last line names the tool that failed, the AWS CLI is tried
    only after the first tool passed, and nothing else happens: no
    request to LocalStack and no further command.  A tool that cannot be
    started, or whose output cannot be decoded, stops the checks in the
    same place, with that error and no line of the check. *)
Theorem prerequisites_fail_fast w :
  passes true (env_proc (w_env w) (w_nproc w))
  && passes true (env_proc (w_env w) (S (w_nproc w))) = false ->
  (fst (DeployZip.check_prerequisites w)
   = Raise (ending true
              (if passes true (env_proc (w_env w) (w_nproc w))
               then env_proc (w_env w) (S (w_nproc w))
               else env_proc (w_env w) (w_nproc w)))
   /\ ran w
        ((["dotnet"; "--version"], true)
         :: (if passes true (env_proc (w_env w) (w_nproc w))
             then [(["aws"; "--version"], true)] else []))
        (snd (DeployZip.check_prerequisites w))
   /\ hd_error (w_trace (snd (DeployZip.check_prerequisites w)))
      = Some (if passes true (env_proc (w_env w) (w_nproc w))
              then match crash true (env_proc (w_env w) (S (w_nproc w))) with
                   | Some _ => EvRun ["aws"; "--version"] true true None
                   | None => EvPrint "❌ AWS CLI is not installed or not in PATH"
                   end
              else match crash true (env_proc (w_env w) (w_nproc w)) with
                   | Some _ => EvRun ["dotnet"; "--version"] true true None
                   | None => EvPrint "❌ .NET SDK is not installed or not in PATH"
                   end))
  /\ (fst (DeployImage.check_prerequisites w)
      = Raise (ending true
                 (if passes true (env_proc (w_env w) (w_nproc w))
                  then env_proc (w_env w) (S (w_nproc w))
                  else env_proc (w_env w) (w_nproc w)))
      /\ ran w
           ((["docker"; "--version"], true)
            :: (if passes true (env_proc (w_env w) (w_nproc w))
                then [(["aws"; "--version"], true)] else []))
           (snd (DeployImage.check_prerequisites w))
      /\ hd_error (w_trace (snd (DeployImage.check_prerequisites w)))
         = Some (if passes true (env_proc (w_env w) (w_nproc w))
                 then match crash true (env_proc (w_env w) (S (w_nproc w))) with
                      | Some _ => EvRun ["aws"; "--version"] true true None
                      | None => EvPrint "❌ AWS CLI is not installed or not in PATH"
                      end
                 else match crash true (env_proc (w_env w) (w_nproc w)) with
                      | Some _ => EvRun ["docker"; "--version"] true true None
                      | None => EvPrint "❌ Docker is not installed or not in PATH"
                      end)).
Proof.
  intros F. split.
  - unfold DeployZip.check_prerequisites, DeployZip.run_command.
    match goal with |- context [bind _ (fun _ => bind _ (fun _ => bind _ (fun _ => ?r))) w] =>
      destruct (tool_checks_fail_fast "dotnet"
                  "❌ .NET SDK is not installed or not in PATH"
                  "❌ AWS CLI is not installed or not in PATH" r w F) as [w' [E [R H]]]
    end.
    rewrite E. cbn [fst snd]. split; [reflexivity |]. split; assumption.
  - unfold DeployImage.check_prerequisites, DeployImage.run_command.
    match goal with |- context [bind _ (fun _ => bind _ (fun _ => bind _ (fun _ => ?r))) w] =>
      destruct (tool_checks_fail_fast "docker"
                  "❌ Docker is not installed or not in PATH"
                  "❌ AWS CLI is not installed or not in PATH" r w F) as [w' [E [R H]]]
    end.
    rewrite E. cbn [fst snd]. split; [reflexivity |]. split; assumption.
Qed.

Lemma prerequisites_fail_fast_witness :
  let w := fresh (scripted [Exited 0 "8.0.100" ""; NotFound] [] []) blank_fs in
  fst (DeployZip.check_prerequisites w) = Raise (SystemExit 1)
  /\ requests (w_trace (snd (DeployZip.check_prerequisites w))) = []
  /\ fst (DeployImage.check_prerequisites w) = Raise (SystemExit 1).
Proof.
  cbn zeta.
  destruct (prerequisites_fail_fast
              (fresh (scripted [Exited 0 "8.0.100" ""; NotFound] [] []) blank_fs)
              eq_refl) as [[Z [[_ [R _]] _]] [I _]].
  split; [exact Z |]. split; [exact R | exact I].
Defined.

(** ** The verification script *)

(** X7.  The container check of the verification script launches its one
    listing command: it answers true when the listing exits 0 with a line
    in it, false when it exits 0 with only blanks, and gives no answer
    when Docker cannot be located or the listing exits non-zero.  It
    catches those two failures only: when Docker cannot be started, or
    the listing cannot be decoded, that error leaves the check. *)
Theorem check_container_status_outcome w :
  fst (Verify.check_container_status w)
  = match crash true (env_proc (w_env w) (w_nproc w)) with
    | Some e => Raise e
    | None => Ret (container_answer (env_proc (w_env w) (w_nproc w)))
    end
  /\ launch_only w container_listing true (snd (Verify.check_container_status w)).
Proof.
  destruct (check_container_status_run w) as [w' [E [L _]]]. rewrite E. cbn [fst snd].
  split; [reflexivity | exact L].
Qed.

(** X8.  The basic-operations test always returns and always launches
    both probes, S3 first and Lambda second: a probe that cannot be
    located, overruns its five seconds or exits non-zero is reported and
    does not keep the other from running. *)
Theorem probes_are_independent w :
  fst (Verify.test_basic_operations w) = Ret tt
  /\ ran w [(s3_probe, false); (lambda_probe, false)]
       (snd (Verify.test_basic_operations w)).
Proof.
  destruct (test_basic_operations_run w) as [w' [E R]]. rewrite E. cbn [fst snd].
  split; [reflexivity | exact R].
Qed.

(** X9.  The port check of the verification script never raises: a
    refused connection, a timeout, a protocol error, a body that does
    not decode or is not an object all make it answer false.  It makes
    exactly one request, to the health endpoint with a timeout of five
    seconds, and launches nothing. *)
Theorem port_check_never_raises w :
  fst (Verify.check_port_accessibility w)
  = Ret (health_ok (env_http (w_env w) (w_nhttp w)))
  /\ asked_once w "http://localhost:4566/_localstack/health" 5
       (snd (Verify.check_port_accessibility w)).
Proof.
  destruct (check_port_accessibility_run w) as [w' [E R]]. rewrite E. cbn [fst snd].
  split; [reflexivity | exact R].
Qed.

(** X10.  The verification script lists the containers once, first of
    all.  When the listing can be started and decoded, the script asks
    the health endpoint once; the S3 and Lambda probes are launched
    exactly when the health check passed; and when it did not, the
    closing tip depends on the container listing: start LocalStack when
    the listing showed no container, read its logs otherwise.  When the
    listing cannot be started or decoded, the script ends there, on that
    error: no request is made and no probe launched. *)
Theorem verify_main_steps w :
  commands (snd (Verify.main w))
  = (commands w
     ++ (container_listing, true)
        :: match crash true (env_proc (w_env w) (w_nproc w)) with
           | Some _ => []
           | None =>
               if health_ok (env_http (w_env w) (w_nhttp w))
               then [(s3_probe, false); (lambda_probe, false)] else []
           end)%list
  /\ requests (w_trace (snd (Verify.main w)))
     = (requests (w_trace w)
        ++ match crash true (env_proc (w_env w) (w_nproc w)) with
           | Some _ => []
           | None => [("http://localhost:4566/_localstack/health"%string, 5)]
           end)%list
  /\ hd_error (w_trace (snd (Verify.main w)))
     = Some (match crash true (env_proc (w_env w) (w_nproc w)) with
             | Some _ => EvRun container_listing true true None
             | None =>
                 EvPrint
                   (if health_ok (env_http (w_env w) (w_nhttp w))
                    then "   aws --endpoint-url=http://localhost:4566 <command>"
                    else match container_answer (env_proc (w_env w) (w_nproc w)) with
                         | Some false => "   python scripts/setup-localstack.py"
                         | _ => "   docker-compose logs localstack"
                         end)
             end)
  /\ fst (Verify.main w)
     = match crash true (env_proc (w_env w) (w_nproc w)) with
       | Some e => Raise e
       | None =>
           if health_ok (env_http (w_env w) (w_nhttp w))
           then Ret tt else Raise (SystemExit 1)
       end.
Proof.
  destruct (verify_main_run w) as [w' [E [C [Q H]]]]. rewrite E. cbn [fst snd].
  repeat split; assumption.
Qed.

(** ** The teardown never fails *)

Lemma ends_ret {A} ok (a : A) : ends ok (ret a).
Proof. intros w _. split; [reflexivity | exact I]. Qed.

Lemma ends_raise {A} (ok : exn -> bool) e : ok e = true -> ends ok (@raise A e).
Proof. intros H w _. split; [reflexivity | exact H]. Qed.

Lemma ends_emit ok e : ends ok (emit e).
Proof. intros w _. split; [reflexivity | exact I]. Qed.

Lemma ends_print ok line : ends ok (print line).
Proof. apply ends_emit. Qed.

Lemma ends_bind {A B} ok (m : M A) (k : A -> M B) :
  ends ok m -> (forall a, ends ok (k a)) -> ends ok (bind m k).
Proof.
  intros Hm Hk w C. unfold bind. specialize (Hm w C).
  destruct (m w) as [[a | e |] w1]; cbn [fst snd] in *.
  - destruct Hm as [E _]. assert (C1 : calm (w_env w1)) by now rewrite E.
    destruct (Hk a w1 C1) as [E2 R2]. split; [congruence | exact R2].
  - exact Hm.
  - exact Hm.
Qed.

Lemma ends_if {A} ok (b : bool) (m1 m2 : M A) :
  ends ok m1 -> ends ok m2 -> ends ok (if b then m1 else m2).
Proof. now destruct b. Qed.

Lemma ends_print_env ok (line : World -> string) :
  ends ok (fun w => print (line w) w).
Proof. intros w _. split; [reflexivity | exact I]. Qed.

Lemma ends_path_exists ok p : ends ok (path_exists p).
Proof. intros w _. split; [reflexivity | exact I]. Qed.

Lemma ends_input ok prompt : ends ok (input prompt).
Proof.
  intros w [_ C]. unfold input. specialize (C (w_ninput w)).
  destruct (env_input (w_env w) (w_ninput w)); [| contradiction].
  split; [reflexivity | exact I].
Qed.

Lemma ends_run_command ok cmd check capture :
  ends ok (Teardown.run_command cmd check capture).
Proof.
  intros w [C _].
  destruct (teardown_run_command_launch cmd check capture w) as [w' [E [L _]]].
  rewrite E. cbn [fst snd]. destruct L as [_ [_ [_ [V _]]]]. split; [exact V |].
  destruct (C (w_nproc w)) as [rc [out [err ->]]].
  cbn. now destruct (check && negb (rc =? 0)).
Qed.

Lemma ends_rmtree p : ends is_Exception (rmtree p).
Proof.
  intros w _. unfold rmtree.
  destruct (fs_tree (w_fs w) p) as [[data | children |] |];
    try (split; reflexivity).
  destruct (env_rmtree_fails (w_env w) (w_nrmtree w)) as [[msg gone] |];
    split; (reflexivity || exact I).
Qed.

Lemma ends_try_except {A} (ok1 ok2 : exn -> bool) (body : M A) handler :
  ends ok1 body ->
  (forall e, ok1 e = true ->
     match handler e with
     | Some h => ends ok2 h
     | None => ok2 e = true
     end) ->
  ends ok2 (try_except body handler).
Proof.
  intros Hb Hh w C. unfold try_except. specialize (Hb w C).
  destruct (body w) as [[a | e |] w1]; cbn [fst snd] in *.
  - exact Hb.
  - destruct Hb as [E R]. specialize (Hh e R).
    destruct (handler e) as [h |].
    + assert (C1 : calm (w_env w1)) by now rewrite E.
      destruct (Hh w1 C1) as [E2 R2]. split; [congruence | exact R2].
    + split; [exact E | exact Hh].
  - exact Hb.
Qed.

Lemma ends_for_each {A} ok (items : list A) body :
  (forall x, ends ok (body x)) -> ends ok (for_each items body).
Proof.
  intros H. induction items as [| x items IH]; cbn [for_each].
  - apply ends_ret.
  - apply ends_bind; [apply H | intros _; exact IH].
Qed.

Ltac ends_step :=
  lazymatch goal with
  | |- ends _ (fun w => print _ w) => apply ends_print_env
  | |- ends _ (if _ then _ else _) => apply ends_if
  | |- ends _ (bind _ _) => apply ends_bind; [| intros ?]
  | |- ends _ (print _) => apply ends_print
  | |- ends _ (ret _) => apply ends_ret
  | |- ends _ (path_exists _) => apply ends_path_exists
  | |- ends _ (input _) => apply ends_input
  | |- ends _ (Teardown.run_command _ _ _) => apply ends_run_command
  | |- ends _ (for_each _ _) => apply ends_for_each; intros ?
  end.

Lemma ends_stop_localstack ok : ends ok Teardown.stop_localstack.
Proof.
  intros w [C _]. destruct (stop_localstack_run w) as [w' [E F]].
  rewrite E. cbn [fst snd]. destruct (C (w_nproc w)) as [rc [out [err P]]].
  rewrite P in *. destruct (fs_compose (w_fs w)).
  - destruct F as [_ [_ [_ [V _]]]]. split; [exact V | exact I].
  - destruct F as [_ [_ [_ [V _]]]]. split; [exact V | exact I].
Qed.

Lemma ends_remove_volumes ok : ends ok Teardown.remove_volumes.
Proof.
  unfold Teardown.remove_volumes, print_step.
  repeat ends_step.
  apply ends_try_except with (ok1 := is_Exception).
  - apply ends_bind; [apply ends_rmtree | intros _; apply ends_print].
  - intros e X. rewrite X. apply ends_print.
Qed.

Lemma ends_cleanup_containers ok : ends ok Teardown.cleanup_containers.
Proof.
  unfold Teardown.cleanup_containers, print_step.
  repeat ends_step.
  match goal with |- context [Teardown.listed ?r] => destruct (Teardown.listed r) end;
    repeat ends_step.
Qed.

Lemma ends_cleanup_images ok : ends ok Teardown.cleanup_images.
Proof.
  unfold Teardown.cleanup_images, print_step.
  repeat ends_step.
  match goal with |- context [Teardown.listed ?r] => destruct (Teardown.listed r) end;
    repeat ends_step.
Qed.

Lemma ends_teardown_main : ends clean_exit Teardown.main.
Proof.
  unfold Teardown.main, print_step.
  repeat first
    [ apply ends_stop_localstack | apply ends_remove_volumes
    | apply ends_cleanup_containers | apply ends_cleanup_images
    | apply ends_raise; reflexivity
    | ends_step ].
Qed.

(** X11.  The teardown is best effort: when every tool it launches runs
    to an exit with output that can be read, and every prompt gets an
    answer, the script exits with status 0 whatever the answers are,
    whatever the commands exit with, and whether or not the data
    directory could be deleted, in full or in part. *)
Theorem teardown_never_fails w :
  calm (w_env w) -> exit_status (fst (Teardown.main w)) = Some 0.
Proof.
  intros C. destruct (ends_teardown_main w C) as [_ R].
  destruct (fst (Teardown.main w)) as [a | e |]; [reflexivity | | contradiction].
  destruct e; try discriminate R. cbn in R. apply Z.eqb_eq in R. now subst.
Qed.

Lemma teardown_never_fails_witness :
  let env :=
    {| env_root := "/work/playground"; env_win32 := false;
       env_proc := fun _ => Exited 1 "localstack-main" "permission denied";
       env_effect := fun _ fs => fs;
       env_overrun := fun _ => false;
       env_http := fun _ => HttpRaises (ConnectionFailed "Connection refused");
       env_input := fun _ => Some "y";
       env_rmtree_fails := fun _ => Some ("[Errno 13] Permission denied", [["state"]]);
       env_zip_fails := fun _ => None |} in
  let fs := {| fs_compose := true;
               fs_data := Some (Dir [("state", File "{}"); ("cache", Dir [])]);
               fs_lambda := None |} in
  exit_status (fst (Teardown.main (fresh env fs))) = Some 0.
Proof.
  cbn zeta. apply teardown_never_fails.
  split; intros k; [now exists 1, "localstack-main", "permission denied" | discriminate].
Defined.


(** ** The clean-up steps of the teardown *)

Lemma remove_volumes_run w :
  exists w',
    Teardown.remove_volumes w
    = (if is_some (fs_data (w_fs w))
       then match env_input (w_env w) (w_ninput w) with
            | Some _ => Ret tt
            | None => Raise EOFError
            end
       else Ret tt, w')
    /\ w_fs w' = (if data_removed w then fs_remove (w_fs w) LocalstackData
                  else data_left w)
    /\ commands w' = commands w.
Proof.
  unfold Teardown.remove_volumes, data_removed, data_left, affirms, commands.
  run_step. run_step.
  change (fs_exists _ LocalstackData) with (is_some (fs_data (w_fs w))).
  destruct (fs_data (w_fs w)) as [t |] eqn:D; cbn [is_some].
  - run_step. unfold input at 1. unfold bind at 1. cbn [w_env w_ninput with_trace].
    destruct (env_input (w_env w) (w_ninput w)) as [line |].
    + destruct (String.eqb (PyStr.lower line) "y").
      * unfold try_except, rmtree, bind.
        cbn [w_fs w_env w_nrmtree with_trace tick_input fs_tree].
        rewrite D.
        destruct t as [data | children |].
        -- eexists. split; [reflexivity |]. cbn. rewrite !app_nil_r. split; reflexivity.
        -- destruct (env_rmtree_fails (w_env w) (w_nrmtree w)) as [[msg gone] |]; cbn.
           ++ eexists. split; [reflexivity |]. cbn. rewrite !app_nil_r. split; reflexivity.
           ++ eexists. split; [reflexivity |]. cbn. rewrite !app_nil_r. split; reflexivity.
        -- eexists. split; [reflexivity |]. cbn. rewrite !app_nil_r. split; reflexivity.
      * eexists. split; [reflexivity |]. cbn. rewrite !app_nil_r.
        destruct t; [| destruct (env_rmtree_fails _ _) as [[msg gone] |] |];
          split; reflexivity.
    + eexists. split; [reflexivity |]. cbn. rewrite !app_nil_r.
      destruct t; [| destruct (env_rmtree_fails _ _) as [[msg gone] |] |];
        split; reflexivity.
  - eexists. split; [reflexivity |]. cbn. rewrite !app_nil_r. split; reflexivity.
Qed.

(** X12.  The data step of the teardown launches nothing and deletes the
    data directory exactly when it is a directory, the answer to the
    prompt affirms and the operating system does not refuse.  When it
    refuses part of the way through a confirmed deletion, the directory
    stays, without what had been deleted by then; in every other case
    the files are as before.  A deletion that fails is reported and the
    step returns all the same; the one thing that makes it raise is a
    prompt that gets no answer. *)
Theorem remove_volumes_outcome w :
  fst (Teardown.remove_volumes w)
  = (if is_some (fs_data (w_fs w))
     then match env_input (w_env w) (w_ninput w) with
          | Some _ => Ret tt
          | None => Raise EOFError
          end
     else Ret tt)
  /\ w_fs (snd (Teardown.remove_volumes w))
     = (if data_removed w then fs_remove (w_fs w) LocalstackData else data_left w)
  /\ commands (snd (Teardown.remove_volumes w)) = commands w.
Proof.
  destruct (remove_volumes_run w) as [w' [E R]]. rewrite E. cbn [fst snd].
  split; [reflexivity | exact R].
Qed.

(** A deletion refused part of the way leaves the rest of the data
    directory behind. *)
Example remove_volumes_partial :
  let env :=
    {| env_root := "/work/playground"; env_win32 := false;
       env_proc := fun _ => Exited 0 "" "";
       env_effect := fun _ fs => fs;
       env_overrun := fun _ => false;
       env_http := fun _ => HttpRaises (ConnectionFailed "Connection refused");
       env_input := fun _ => Some "y";
       env_rmtree_fails := fun _ => Some ("[Errno 13] Permission denied", [["cache"]]);
       env_zip_fails := fun _ => None |} in
  let fs := {| fs_compose := true;
               fs_data := Some (Dir [("cache", Dir []); ("state", File "{}")]);
               fs_lambda := None |} in
  fst (Teardown.remove_volumes (fresh env fs)) = Ret tt
  /\ fs_data (w_fs (snd (Teardown.remove_volumes (fresh env fs))))
     = Some (Dir [("state", File "{}")]).
Proof. cbn zeta. split; reflexivity. Qed.

Lemma for_each_launches (mk : string -> list string) items : forall w,
  (forall k, starts (env_proc (w_env w) k) = true) ->
  exists w',
    for_each items (fun x => Teardown.run_command (mk x) false false ;; ret tt) w
    = (Ret tt, w')
    /\ commands w' = (commands w ++ map (fun x => (mk x, false)) items)%list
    /\ w_env w' = w_env w.
Proof.
  induction items as [| x items IH]; intros w C.
  - exists w. cbn. rewrite app_nil_r. repeat split.
  - cbn [for_each map].
    destruct (teardown_run_command_launch (mk x) false false w) as [w1 [E1 [L1 _]]].
    pose proof (C (w_nproc w)) as N.
    destruct L1 as [C1 [_ [_ [V1 _]]]].
    assert (B : (Teardown.run_command (mk x) false false ;; ret tt) w = (Ret tt, w1)).
    { destruct (env_proc (w_env w) (w_nproc w)) as [| rc out err | msg | rc];
        try discriminate N; cbn in E1; now rewrite (bind_run _ _ _ _ _ E1). }
    rewrite (bind_run _ _ _ _ _ B).
    destruct (IH w1) as [w2 [E2 [C2 V2]]].
    { intros k. rewrite V1. apply C. }
    exists w2. split; [exact E2 |]. split; [| congruence].
    rewrite C2, C1. norm_list.
Qed.

Lemma listing_run cmd w rc out err :
  env_proc (w_env w) (w_nproc w) = Exited rc out err ->
  PyStr.truthy (PyStr.strip out) = true ->
  exists w',
    Teardown.run_command cmd false true w = (Ret (Some (completed true rc out err)), w')
    /\ Teardown.listed (Some (completed true rc out err)) = Some (PyStr.strip out)
    /\ launch_only w cmd false w'.
Proof.
  intros P T.
  destruct (teardown_run_command_launch cmd false true w) as [w' [E [L _]]].
  rewrite P in E. cbn in E. exists w'. split; [exact E |]. split; [| exact L].
  unfold Teardown.listed, completed. cbn. now rewrite T.
Qed.

Lemma cleanup_containers_run w rc out err :
  (forall k, starts (env_proc (w_env w) k) = true) ->
  env_proc (w_env w) (w_nproc w) = Exited rc out err ->
  PyStr.truthy (PyStr.strip out) = true ->
  affirms (env_input (w_env w) (w_ninput w)) = true ->
  exists w',
    Teardown.cleanup_containers w = (Ret tt, w')
    /\ commands w'
       = (commands w
          ++ (list_containers, false)
             :: map remove_container (PyStr.split "010" (PyStr.strip out)))%list.
Proof.
  intros C P T Y. unfold Teardown.cleanup_containers. run_step.
  fold list_containers.
  match goal with |- context [bind (Teardown.run_command _ _ _) _ ?x] =>
    destruct (listing_run list_containers x rc out err P T) as [w1 [E1 [Li L1]]]
  end.
  apply launch_only_after with (w0 := w) in L1; [| apply printed_only_print].
  rewrite (bind_run _ _ _ _ _ E1). rewrite Li. cbv zeta. run_step.
  destruct L1 as [C1 [_ [_ [V1 [_ [_ [I1 _]]]]]]].
  unfold input at 1. unfold bind at 1. cbn [w_env w_ninput with_trace].
  rewrite V1, I1. unfold affirms in Y.
  destruct (env_input (w_env w) (w_ninput w)) as [line |]; [| discriminate].
  rewrite Y.
  match goal with |- context [bind (for_each ?l _) _ ?x] =>
    destruct (for_each_launches (fun c => ["docker"; "rm"; "-f"; c]) l x)
      as [w2 [E2 [C2 V2]]]
  end.
  { intros k. cbn [w_env with_trace tick_input]. rewrite V1. apply C. }
  rewrite (bind_run _ _ _ _ _ E2).
  eexists. split; [reflexivity |].
  unfold commands in *. cbn in *. rewrite ?app_nil_r in *.
  rewrite C2, C1. unfold remove_container. norm_list.
Qed.

(** X13.  Once the removal of orphaned containers is confirmed, and
    with tools that can be located and started, every container of the
    listing gets its own [docker rm -f], in the order listed, and the
    step returns: a removal that exits non-zero is a warning and does
    not keep the remaining containers from being removed. *)
Theorem cleanup_containers_removes_each w rc out err :
  (forall k, starts (env_proc (w_env w) k) = true) ->
  env_proc (w_env w) (w_nproc w) = Exited rc out err ->
  PyStr.truthy (PyStr.strip out) = true ->
  affirms (env_input (w_env w) (w_ninput w)) = true ->
  fst (Teardown.cleanup_containers w) = Ret tt
  /\ commands (snd (Teardown.cleanup_containers w))
     = (commands w
        ++ (list_containers, false)
           :: map remove_container (PyStr.split "010" (PyStr.strip out)))%list.
Proof.
  intros C P T Y.
  destruct (cleanup_containers_run w rc out err C P T Y) as [w' [E R]].
  rewrite E. split; [reflexivity | exact R].
Qed.

Lemma cleanup_containers_removes_each_witness :
  let env :=
    {| env_root := "/work/playground"; env_win32 := false;
       env_proc := fun k =>
         match k with
         | O => Exited 0 ("localstack-main" ++ PyStr.NL ++ "localstack-old" ++ PyStr.NL) ""
         | _ => Exited 1 "" "No such container"
         end;
       env_effect := fun _ fs => fs;
       env_overrun := fun _ => false;
       env_http := fun _ => HttpRaises (ConnectionFailed "Connection refused");
       env_input := fun _ => Some "Y";
       env_rmtree_fails := fun _ => None;
       env_zip_fails := fun _ => None |} in
  commands (snd (Teardown.cleanup_containers (fresh env blank_fs)))
  = [(list_containers, false);
     remove_container "localstack-main"; remove_container "localstack-old"].
Proof.
  cbn zeta.
  match goal with |- commands (snd (Teardown.cleanup_containers ?w0)) = _ =>
    destruct (cleanup_containers_removes_each w0 0
                ("localstack-main" ++ PyStr.NL ++ "localstack-old" ++ PyStr.NL) "")
      as [_ R]
  end.
  - intros [| k]; reflexivity.
  - reflexivity.
  - reflexivity.
  - reflexivity.
  - rewrite R. reflexivity.
Defined.

Lemma dedup_In items x : In x (PyStr.dedup items) <-> In x items.
Proof.
  induction items as [| y items IH]; cbn [PyStr.dedup]; [tauto |].
  destruct (existsb (String.eqb y) items) eqn:X.
  - rewrite IH. cbn [In]. split; [tauto |]. intros [-> | H]; [| exact H].
    apply existsb_exists in X. destruct X as [z [Hz Ez]].
    apply String.eqb_eq in Ez. now subst.
  - cbn [In]. now rewrite IH.
Qed.

Lemma dedup_NoDup items : NoDup (PyStr.dedup items).
Proof.
  induction items as [| y items IH]; cbn [PyStr.dedup]; [constructor |].
  destruct (existsb (String.eqb y) items) eqn:X; [exact IH |].
  constructor; [| exact IH].
  rewrite dedup_In. intros H.
  assert (existsb (String.eqb y) items = true); [| congruence].
  apply existsb_exists. exists y. split; [exact H | apply String.eqb_refl].
Qed.

Lemma cleanup_images_run w rc out err :
  (forall k, starts (env_proc (w_env w) k) = true) ->
  env_proc (w_env w) (w_nproc w) = Exited rc out err ->
  PyStr.truthy (PyStr.strip out) = true ->
  affirms (env_input (w_env w) (w_ninput w)) = true ->
  exists w',
    Teardown.cleanup_images w = (Ret tt, w')
    /\ commands w'
       = (commands w
          ++ (list_images, false)
             :: map remove_image
                  (PyStr.dedup (PyStr.split "010" (PyStr.strip out))))%list.
Proof.
  intros C P T Y. unfold Teardown.cleanup_images. run_step.
  fold list_images.
  match goal with |- context [bind (Teardown.run_command _ _ _) _ ?x] =>
    destruct (listing_run list_images x rc out err P T) as [w1 [E1 [Li L1]]]
  end.
  apply launch_only_after with (w0 := w) in L1; [| apply printed_only_print].
  rewrite (bind_run _ _ _ _ _ E1). rewrite Li. cbv zeta. run_step.
  destruct L1 as [C1 [_ [_ [V1 [_ [_ [I1 _]]]]]]].
  unfold input at 1. unfold bind at 1. cbn [w_env w_ninput with_trace].
  rewrite V1, I1. unfold affirms in Y.
  destruct (env_input (w_env w) (w_ninput w)) as [line |]; [| discriminate].
  rewrite Y.
  match goal with |- context [bind (for_each ?l _) _ ?x] =>
    destruct (for_each_launches (fun i => ["docker"; "rmi"; i]) l x)
      as [w2 [E2 [C2 V2]]]
  end.
  { intros k. cbn [w_env with_trace tick_input]. rewrite V1. apply C. }
  rewrite (bind_run _ _ _ _ _ E2).
  eexists. split; [reflexivity |].
  unfold commands in *. cbn in *. rewrite ?app_nil_r in *.
  rewrite C2, C1. unfold remove_image. norm_list.
Qed.

(** X14.  Once the removal of the images is confirmed, and with tools
    that can be located and started, every image id of the listing is
    removed with its own [docker rmi], and an id listed several times
    (one image under several tags) is removed once; a removal that exits
    non-zero does not keep the remaining ones from being tried. *)
Theorem cleanup_images_removes_each_once w rc out err :
  (forall k, starts (env_proc (w_env w) k) = true) ->
  env_proc (w_env w) (w_nproc w) = Exited rc out err ->
  PyStr.truthy (PyStr.strip out) = true ->
  affirms (env_input (w_env w) (w_ninput w)) = true ->
  exists ids,
    NoDup ids
    /\ (forall id, In id ids <-> In id (PyStr.split "010" (PyStr.strip out)))
    /\ fst (Teardown.cleanup_images w) = Ret tt
    /\ commands (snd (Teardown.cleanup_images w))
       = (commands w ++ (list_images, false) :: map remove_image ids)%list.
Proof.
  intros C P T Y.
  destruct (cleanup_images_run w rc out err C P T Y) as [w' [E R]].
  exists (PyStr.dedup (PyStr.split "010" (PyStr.strip out))).
  split; [apply dedup_NoDup |]. split; [intros id; apply dedup_In |].
  rewrite E. split; [reflexivity | exact R].
Qed.

Lemma cleanup_images_removes_each_once_witness :
  let env :=
    {| env_root := "/work/playground"; env_win32 := false;
       env_proc := fun k =>
         match k with
         | O => Exited 0 ("0f1e2d3c4b5a" ++ PyStr.NL ++ "0f1e2d3c4b5a" ++ PyStr.NL
                          ++ "99aa88bb77cc" ++ PyStr.NL) ""
         | _ => Exited 1 "" "image is being used"
         end;
       env_effect := fun _ fs => fs;
       env_overrun := fun _ => false;
       env_http := fun _ => HttpRaises (ConnectionFailed "Connection refused");
       env_input := fun _ => Some "y";
       env_rmtree_fails := fun _ => None;
       env_zip_fails := fun _ => None |} in
  exists ids,
    NoDup ids
    /\ In "99aa88bb77cc" ids
    /\ commands (snd (Teardown.cleanup_images (fresh env blank_fs)))
       = ((list_images, false) :: map remove_image ids)%list.
Proof.
  cbn zeta.
  match goal with |- exists ids, _ /\ _ /\ commands (snd (Teardown.cleanup_images ?w0)) = _ =>
    destruct (cleanup_images_removes_each_once w0 0
                ("0f1e2d3c4b5a" ++ PyStr.NL ++ "0f1e2d3c4b5a" ++ PyStr.NL
                 ++ "99aa88bb77cc" ++ PyStr.NL) "")
      as [ids [N [Hin [_ R]]]]
  end.
  - intros [| k]; reflexivity.
  - reflexivity.
  - reflexivity.
  - reflexivity.
  - exists ids. split; [exact N |]. split; [| rewrite R; reflexivity].
    apply Hin. vm_compute. auto.
Defined.


(** ** The setup script as a whole *)

Lemma start_localstack_run w :
  exists w',
    Setup.start_localstack w
    = (if fs_compose (w_fs w) && passes false (env_proc (w_env w) (w_nproc w))
       then Ret tt
       else Raise (if fs_compose (w_fs w)
                   then ending false (env_proc (w_env w) (w_nproc w))
                   else SystemExit 1), w')
    /\ (if fs_compose (w_fs w)
        then launch_only w compose_up true w'
        else printed_only w w').
Proof.
  unfold Setup.start_localstack, Setup.run_command. run_step. run_step.
  change (fs_exists _ ComposeFile) with (fs_compose (w_fs w)).
  destruct (fs_compose (w_fs w)); cbn [negb andb].
  - run_step.
    match goal with |- context [try_finally (chdir ?d ;; ?k) (chdir ?o) ?x] =>
      change o with (w_cwd w); set (body := chdir d ;; k); set (w0 := x)
    end.
    destruct (run_command_fatal_launch compose_up true false
                (with_cwd (with_trace w0 (EvChdir ProjectRoot)) ProjectRoot))
      as [w1 [E [L Q]]].
    apply launch_only_moved in L.
    pose proof (entered_kept _ _ (w_cwd w) _ Q) as K.
    change (env_proc _ _) with (env_proc (w_env w) (w_nproc w)) in E.
    change (w_cwd (with_trace _ _)) with (w_cwd w).
    assert (C : chdir ProjectRoot w0
                = (Ret tt, with_cwd (with_trace w0 (EvChdir ProjectRoot)) ProjectRoot))
      by (now apply chdir_there).
    destruct (passes false (env_proc (w_env w) (w_nproc w))) eqn:X.
    + destruct (passes_result true false _ X) as [r [R _]].
      rewrite R in E.
      assert (B : body w0 = (Ret tt, w1)).
      { unfold body. rewrite (bind_run _ _ _ _ _ C). fold compose_up.
        now rewrite (bind_run _ _ _ _ _ E). }
      rewrite (try_finally_run _ _ _ _ _ B K).
      eexists. split; [reflexivity | exact L].
    + rewrite (fails_result false _ X) in E.
      assert (B : body w0 = (Raise (ending false (env_proc (w_env w) (w_nproc w))), w1)).
      { unfold body. rewrite (bind_run _ _ _ _ _ C). fold compose_up.
        now rewrite (bind_stop _ _ _ _ _ E). }
      rewrite (try_finally_stop _ _ _ _ _ B K).
      eexists. split; [reflexivity | exact L].
  - run_step. eexists. split; [reflexivity |]. apply printed_only_print2.
Qed.

(** The first two steps of the setup. *)
Lemma setup_start_run {A} (rest : M A) w :
  exists w1,
    ran w
      ((["docker"; "info"], true)
       :: (if passes true (env_proc (w_env w) (w_nproc w)) && fs_compose (fs_after w)
           then [(compose_up, true)] else [])) w1
    /\ (print "🚀 Setting up LocalStack development environment" ;;
        print "==================================================" ;;
        Setup.check_docker ;;
        Setup.start_localstack ;;
        rest) w
       = if started w then rest w1
         else (Raise (if passes true (env_proc (w_env w) (w_nproc w))
                      then if fs_compose (fs_after w)
                           then ending false (env_proc (w_env w) (S (w_nproc w)))
                           else SystemExit 1
                      else ending true (env_proc (w_env w) (w_nproc w))), w1).
Proof.
  do 2 run_step.
  match goal with |- context [bind Setup.check_docker _ ?x] =>
    destruct (check_docker_run x) as [w1 [E1 [_ L1]]]
  end.
  apply launch_only_after with (w0 := w) in L1; [| apply printed_only_print2].
  change (env_proc (w_env (with_trace _ _)) _)
    with (env_proc (w_env w) (w_nproc w)) in E1.
  unfold started.
  destruct (passes true (env_proc (w_env w) (w_nproc w))); cbn [andb].
  - rewrite (bind_run _ _ _ _ _ E1).
    destruct (start_localstack_run w1) as [w2 [E2 L2]].
    pose proof L1 as [_ [_ [_ [V1 [N1 [_ [_ [_ F1]]]]]]]].
    rewrite F1, V1, N1 in E2. rewrite F1 in L2.
    apply ran_launch in L1.
    destruct (fs_compose (fs_after w)); cbn [andb] in *.
    + apply ran_launch in L2. exists w2.
      split; [exact (ran_trans _ _ _ _ _ L1 L2) |].
      destruct (passes false (env_proc (w_env w) (S (w_nproc w)))).
      * now rewrite (bind_run _ _ _ _ _ E2).
      * now rewrite (bind_stop _ _ _ _ _ E2).
    + apply ran_printed in L2. exists w2.
      split; [exact (ran_trans _ _ _ _ _ L1 L2) |].
      now rewrite (bind_stop _ _ _ _ _ E2).
  - rewrite (bind_stop _ _ _ _ _ E1). exists w1.
    split; [apply ran_launch; exact L1 | reflexivity].
Qed.

Lemma setup_main_stops w :
  started w = false ->
  exists w',
    Setup.main w
    = (Raise (if passes true (env_proc (w_env w) (w_nproc w))
              then if fs_compose (fs_after w)
                   then ending false (env_proc (w_env w) (S (w_nproc w)))
                   else SystemExit 1
              else ending true (env_proc (w_env w) (w_nproc w))), w')
    /\ ran w
         ((["docker"; "info"], true)
          :: (if passes true (env_proc (w_env w) (w_nproc w)) && fs_compose (fs_after w)
              then [(compose_up, true)] else [])) w'.
Proof.
  intros S. unfold Setup.main.
  match goal with |- context [bind Setup.start_localstack (fun _ => ?r)] =>
    destruct (setup_start_run r w) as [w1 [R E]]
  end.
  rewrite S in E. exists w1. split; [exact E | exact R].
Qed.

(** X15.  The setup waits for LocalStack only once it has started it:
    when [docker info] fails, the compose file is missing, or
    [docker-compose up] fails (a missing tool included), the script exits
    with status 1 at that step, without a single request to the health
    endpoint and without a pause; [docker-compose up] is launched only
    when Docker answered and the compose file is there; and the working
    directory is the one the script was started in.  A tool that cannot
    be started, or output of [docker info] that cannot be decoded, ends
    the script at the same step, with that error. *)
Theorem setup_stops_before_waiting w :
  started w = false ->
  fst (Setup.main w)
  = Raise (if passes true (env_proc (w_env w) (w_nproc w))
           then if fs_compose (fs_after w)
                then ending false (env_proc (w_env w) (S (w_nproc w)))
                else SystemExit 1
           else ending true (env_proc (w_env w) (w_nproc w)))
  /\ ran w
       ((["docker"; "info"], true)
        :: (if passes true (env_proc (w_env w) (w_nproc w)) && fs_compose (fs_after w)
            then [(compose_up, true)] else []))
       (snd (Setup.main w)).
Proof.
  intros S. destruct (setup_main_stops w S) as [w' [E R]]. rewrite E.
  split; [reflexivity | exact R].
Qed.

Lemma setup_stops_before_waiting_witness :
  let w :=
    fresh (scripted [Exited 0 "" ""; Exited 1 "" "port is already allocated"]
             [Response 200 (inr (JObj []))] [])
      {| fs_compose := true; fs_data := None; fs_lambda := None |} in
  fst (Setup.main w) = Raise (SystemExit 1)
  /\ requests (w_trace (snd (Setup.main w))) = [].
Proof.
  cbn zeta.
  destruct (setup_stops_before_waiting
              (fresh (scripted [Exited 0 "" ""; Exited 1 "" "port is already allocated"]
                        [Response 200 (inr (JObj []))] [])
                 {| fs_compose := true; fs_data := None; fs_lambda := None |})
              eq_refl) as [E [_ [R _]]].
  split; [exact E | exact R].
Defined.

Lemma print_environment_setup_run w :
  exists w',
    Setup.print_environment_setup w = (Ret tt, w')
    /\ printed_only w w'
    /\ hd_error (w_trace w')
       = Some (EvPrint "🎉 You can now deploy infrastructure to LocalStack.").
Proof.
  unfold Setup.print_environment_setup, print_step, print, emit, bind.
  cbn [w_env with_trace].
  destruct (env_win32 (w_env w)); (eexists; split; [reflexivity |]);
    unfold printed_only, commands; cbn; rewrite !app_nil_r; repeat split.
Qed.

Lemma setup_main_run w k body :
  started w = true ->
  (k < 30)%nat ->
  (forall j, (j < k)%nat -> waiting (env_http (w_env w) (w_nhttp w + j)) = true) ->
  env_http (w_env w) (w_nhttp w + k) = Response 200 body ->
  exists w',
    Setup.main w = (Ret tt, w')
    /\ commands w'
       = (commands w ++ [(["docker"; "info"], true); (compose_up, true)])%list
    /\ requests (w_trace w')
       = (requests (w_trace w)
          ++ repeat ("http://localhost:4566/_localstack/health"%string, 2) (S k))%list
    /\ pauses (w_trace w') = (pauses (w_trace w) ++ repeat 2 k)%list
    /\ w_cwd w' = w_cwd w
    /\ hd_error (w_trace w')
       = Some (EvPrint "🎉 You can now deploy infrastructure to LocalStack.").
Proof.
  intros S K W R. unfold Setup.main.
  match goal with |- context [bind Setup.start_localstack (fun _ => ?r)] =>
    destruct (setup_start_run r w) as [w1 [R1 E]]
  end.
  rewrite S in E. rewrite E. clear E.
  unfold started in S. apply andb_prop in S. destruct S as [S _]. rewrite S in R1.
  destruct R1 as [C1 [Q1 [P1 [V1 [_ [H1 [_ D1]]]]]]].
  unfold Setup.wait_for_localstack. unfold bind at 1. unfold bind at 1.
  unfold print_step, print at 1, emit at 1.
  match goal with |- context [Setup.wait_loop ?f ?c ?w0] =>
    destruct (wait_loop_ready k f c w0 body) as [w2 [E2 [Q2 [P2 _]]]];
    [ | | | | pose proof (wait_loop_frame f c w0) as [C2 D2] ]
  end.
  - unfold Setup.TIMEOUT. lia.
  - unfold Setup.TIMEOUT. lia.
  - intros j Hj. cbn [w_env w_nhttp with_trace]. rewrite V1, H1. now apply W.
  - cbn [w_env w_nhttp with_trace]. rewrite V1, H1. exact R.
  - rewrite E2 in C2, D2 |- *. cbn [fst snd] in *.
    destruct (print_environment_setup_run w2) as [w3 [E3 [F3 Hd]]].
    rewrite E3. exists w3. split; [reflexivity |].
    destruct F3 as [C3 [Q3 [P3 [_ [_ [_ [_ [D3 _]]]]]]]].
    unfold commands in *. cbn in *. rewrite ?app_nil_r in *.
    repeat split.
    + rewrite C3, C2, C1. reflexivity.
    + rewrite Q3, Q2, Q1. reflexivity.
    + rewrite P3, P2, P1. reflexivity.
    + rewrite D3, D2, D1. reflexivity.
    + exact Hd.
Qed.

(** X16.  The setup script end to end: when Docker answers, the compose
    file is there and [docker-compose up] exits 0, and the health
    endpoint answers 200 at some attempt before the thirtieth with every
    earlier attempt left waiting, the script returns; it has launched
    exactly [docker info] and [docker-compose up -d localstack], made
    one request per attempt with a pause of two seconds between them,
    is back in the directory it was started in, and its last line tells
    the operator that infrastructure can now be deployed. *)
Theorem setup_succeeds w k body :
  started w = true ->
  (k < 30)%nat ->
  (forall j, (j < k)%nat -> waiting (env_http (w_env w) (w_nhttp w + j)) = true) ->
  env_http (w_env w) (w_nhttp w + k) = Response 200 body ->
  fst (Setup.main w) = Ret tt
  /\ commands (snd (Setup.main w))
     = (commands w ++ [(["docker"; "info"], true); (compose_up, true)])%list
  /\ requests (w_trace (snd (Setup.main w)))
     = (requests (w_trace w)
        ++ repeat ("http://localhost:4566/_localstack/health"%string, 2) (S k))%list
  /\ pauses (w_trace (snd (Setup.main w))) = (pauses (w_trace w) ++ repeat 2 k)%list
  /\ w_cwd (snd (Setup.main w)) = w_cwd w
  /\ hd_error (w_trace (snd (Setup.main w)))
     = Some (EvPrint "🎉 You can now deploy infrastructure to LocalStack.").
Proof.
  intros S K W R. destruct (setup_main_run w k body S K W R) as [w' [E F]].
  rewrite E. split; [reflexivity | exact F].
Qed.

Lemma setup_succeeds_witness :
  let w :=
    fresh (scripted [] [HttpRaises (ConnectionFailed "Connection refused");
                        Response 200 (inr (JObj []))] [])
      {| fs_compose := true; fs_data := None; fs_lambda := None |} in
  fst (Setup.main w) = Ret tt
  /\ pauses (w_trace (snd (Setup.main w))) = [2].
Proof.
  cbn zeta.
  destruct (setup_succeeds
              (fresh (scripted [] [HttpRaises (ConnectionFailed "Connection refused");
                                   Response 200 (inr (JObj []))] [])
                 {| fs_compose := true; fs_data := None; fs_lambda := None |})
              1 (inr (JObj []))) as [E [_ [_ [P _]]]].
  - reflexivity.
  - lia.
  - intros j Hj. destruct j as [| j]; [reflexivity | lia].
  - reflexivity.
  - split; [exact E | exact P].
Defined.

(** X17.  The readiness poller swallows only the errors it names.  When
    an attempt before the thirtieth raises anything else (a malformed
    reply, say) after earlier attempts left the poller waiting, that
    exception leaves the poller at once: no further request, no pause,
    no timeout message, and the script dies with status 1 on the
    exception rather than on its own [sys.exit]. *)
Theorem poll_lets_other_errors_through w k name :
  (k < 30)%nat ->
  (forall j, (j < k)%nat -> waiting (env_http (w_env w) (w_nhttp w + j)) = true) ->
  env_http (w_env w) (w_nhttp w + k) = HttpRaises (ProtocolError name) ->
  fst (Setup.wait_for_localstack w) = Raise (OtherError name)
  /\ exit_status (fst (Setup.wait_for_localstack w)) = Some 1
  /\ requests (w_trace (snd (Setup.wait_for_localstack w)))
     = (requests (w_trace w)
        ++ repeat ("http://localhost:4566/_localstack/health"%string, 2) (S k))%list
  /\ pauses (w_trace (snd (Setup.wait_for_localstack w)))
     = (pauses (w_trace w) ++ repeat 2 k)%list
  /\ hd_error (w_trace (snd (Setup.wait_for_localstack w)))
     = Some (EvHttpGet "http://localhost:4566/_localstack/health" 2).
Proof.
  intros K W R. unfold Setup.wait_for_localstack, bind, print_step, print, emit.
  match goal with |- context [Setup.wait_loop ?f ?c ?w0] =>
    destruct (wait_loop_aborts k f c w0 name) as [w' [E [Rq [P Hd]]]] end.
  - unfold Setup.TIMEOUT. lia.
  - unfold Setup.TIMEOUT. lia.
  - intros j Hj. cbn. now apply W.
  - cbn. exact R.
  - rewrite E. cbn [fst snd]. repeat split; assumption.
Qed.

Lemma poll_lets_other_errors_through_witness :
  let w := fresh (scripted [] [HttpRaises SocketTimeout;
                               HttpRaises (ProtocolError "BadStatusLine")] [])
             blank_fs in
  fst (Setup.wait_for_localstack w) = Raise (OtherError "BadStatusLine")
  /\ pauses (w_trace (snd (Setup.wait_for_localstack w))) = [2].
Proof.
  cbn zeta.
  destruct (poll_lets_other_errors_through
              (fresh (scripted [] [HttpRaises SocketTimeout;
                                   HttpRaises (ProtocolError "BadStatusLine")] [])
                 blank_fs) 1 "BadStatusLine") as [E [_ [_ [P _]]]].
  - lia.
  - intros j Hj. destruct j as [| j]; [reflexivity | lia].
  - reflexivity.
  - split; [exact E | exact P].
Defined.


(** ** A build that fails *)






(** ** The image deployment as a whole *)

Lemma image_main_unshipped w o1 e1 o2 e2 rc out err :
  env_proc (w_env w) (w_nproc w) = Exited 0 o1 e1 ->
  env_proc (w_env w) (S (w_nproc w)) = Exited 0 o2 e2 ->
  env_proc (w_env w) (S (S (w_nproc w))) = Exited rc out err ->
  PyStr.truthy (PyStr.strip out) = true ->
  shipped w = false ->
  exists w',
    DeployImage.main w = (Raise (image_stop w), w')
    /\ ran w (image_checks ++ image_steps w) w'.
Proof.
  intros P1 P2 P3 T Hs. unfold DeployImage.main. do 2 run_step.
  match goal with |- context [bind DeployImage.check_prerequisites _ ?x] =>
    destruct (image_prerequisites_run x o1 e1 o2 e2 rc out err P1 P2 P3)
      as [w1 [E1 [R1 F1]]]
  end.
  rewrite T in E1. rewrite (bind_run _ _ _ _ _ E1).
  cbn [w_env w_nproc w_fs with_trace] in F1.
  do 2 apply ran_after_print in R1.
  pose proof R1 as [_ [_ [_ [V1 [N1 _]]]]]. cbn [List.length image_checks] in N1.
  destruct (build_docker_image_run w1) as [w2 [E2 L2]].
  rewrite F1, V1, N1 in E2. rewrite F1 in L2.
  unfold shipped in Hs. unfold image_steps, image_stop.
  fold docker_build in L2.
  destruct (is_some (fs_lambda (files_after (w_env w) (w_nproc w) 3 (w_fs w))));
    cbn [andb] in *.
  - apply ran_launch in L2.
    pose proof (ran_trans _ _ _ _ _ R1 L2) as R2.
    destruct (exits_0 (env_proc (w_env w) (w_nproc w + 3))); cbn [andb] in *.
    + rewrite (bind_run _ _ _ _ _ E2).
      destruct (tag_and_push_image_run w2) as [w3 [E3 R3]].
      pose proof R2 as [_ [_ [_ [V2 [N2 _]]]]]. rewrite length_app in N2.
      cbn [List.length image_checks Nat.add] in N2.
      rewrite V2, N2 in E3, R3.
      replace (S (w_nproc w + 4))%nat with (w_nproc w + 5)%nat in E3 by lia.
      fold docker_tag docker_push in R3.
      pose proof (ran_trans _ _ _ _ _ R2 R3) as R4. rewrite <- app_assoc in R4.
      cbn [app] in R4.
      rewrite Hs in E3. rewrite (bind_stop _ _ _ _ _ E3).
      exists w3. split; [reflexivity |].
      destruct (exits_0 (env_proc (w_env w) (w_nproc w + 4))); exact R4.
    + rewrite (bind_stop _ _ _ _ _ E2). exists w2. split; [reflexivity | exact R2].
  - rewrite (bind_stop _ _ _ _ _ E2). exists w2. split; [reflexivity |].
    apply ran_printed in L2. exact (ran_trans _ _ _ _ _ R1 L2).
Qed.

(** X19.  The image deployment creates or updates the function only from
    an image it has built, tagged and pushed in this run.  With the
    checks passed, when the Lambda directory is missing or one of
    [docker build], [docker tag], [docker push] is missing or exits
    non-zero, the script exits with status 1 at that step: after its
    checks it has launched the Docker commands up to the one that
    failed and nothing else, so no Lambda command at all.  When one of
    the three cannot be started, the script ends at that step in the
    same way, with that error. *)
Theorem image_deploy_needs_pushed_image w o1 e1 o2 e2 rc out err :
  env_proc (w_env w) (w_nproc w) = Exited 0 o1 e1 ->
  env_proc (w_env w) (S (w_nproc w)) = Exited 0 o2 e2 ->
  env_proc (w_env w) (S (S (w_nproc w))) = Exited rc out err ->
  PyStr.truthy (PyStr.strip out) = true ->
  shipped w = false ->
  fst (DeployImage.main w) = Raise (image_stop w)
  /\ ran w (image_checks ++ image_steps w) (snd (DeployImage.main w)).
Proof.
  intros P1 P2 P3 T S.
  destruct (image_main_unshipped w o1 e1 o2 e2 rc out err P1 P2 P3 T S) as [w' [E R]].
  rewrite E. split; [reflexivity | exact R].
Qed.

Lemma image_deploy_needs_pushed_image_witness :
  let fs := {| fs_compose := true; fs_data := None;
               fs_lambda := Some {| ld_bin := None; ld_obj := None;
                                    ld_publish := None; ld_zip := None |} |} in
  let w :=
    fresh (scripted [Exited 0 "Docker version 27" ""; Exited 0 "aws-cli/2" "";
                     Exited 0 "localstack-main" ""; Exited 0 "" ""; Exited 0 "" "";
                     Exited 1 "" "connection refused"] [] []) fs in
  fst (DeployImage.main w) = Raise (SystemExit 1)
  /\ commands (snd (DeployImage.main w))
     = (image_checks
        ++ [(docker_build, true); (docker_tag, true); (docker_push, false)])%list.
Proof.
  cbn zeta.
  match goal with |- fst (DeployImage.main ?w0) = _ /\ _ =>
    destruct (image_deploy_needs_pushed_image w0 "Docker version 27" "" "aws-cli/2" ""
                0 "localstack-main" "") as [E [C _]]
  end.
  - reflexivity.
  - reflexivity.
  - reflexivity.
  - reflexivity.
  - reflexivity.
  - split; [exact E |]. rewrite C. reflexivity.
Defined.

(** ** The names in the archive *)

Lemma well_named_children children :
  well_named (Dir children) ->
  NoDup (map fst children)
  /\ Forall (fun entry => well_named (snd entry)) children.
Proof.
  cbn [well_named]. intros [N E]. split; [exact N |].
  clear N. induction children as [| entry rest IH]; [constructor |].
  destruct E as [E1 E2]. constructor; [exact E1 | exact (IH E2)].
Qed.

Lemma at_path_nonempty t q n : at_path t q n -> q <> [].
Proof. intros A. inversion A; discriminate. Qed.

Lemma walk_below t prefix p :
  In p (map fst (walk prefix t)) ->
  exists name q, p = (prefix ++ name :: q)%list.
Proof.
  intros I. apply in_map_iff in I. destruct I as [[p' n] [<- I]].
  apply walk_spec in I. destruct I as [q [-> A]].
  destruct q as [| name q]; [now apply at_path_nonempty in A |].
  now exists name, q.
Qed.

Lemma NoDup_append {A} (a b : list A) :
  NoDup a -> NoDup b -> (forall x, In x a -> In x b -> False) -> NoDup (a ++ b).
Proof.
  intros Na Nb D. induction Na as [| x a Hx Na IH]; [exact Nb |].
  cbn [app]. constructor.
  - rewrite in_app_iff. intros [H | H]; [exact (Hx H) |].
    exact (D x (or_introl eq_refl) H).
  - apply IH. intros y Ya Yb. exact (D y (or_intror Ya) Yb).
Qed.

Lemma child_paths_NoDup prefix (children : list (string * node)) :
  NoDup (map fst children) ->
  NoDup (map (fun entry => (prefix ++ [fst entry])%list) children).
Proof.
  induction children as [| entry rest IH]; cbn [map]; intros N; [constructor |].
  inversion N as [| x l Hx N' ]; subst. constructor; [| exact (IH N')].
  intros I. apply in_map_iff in I. destruct I as [e [E I]].
  apply app_inv_head in E. injection E as E.
  apply Hx. rewrite <- E. now apply in_map.
Qed.

Lemma deeper_paths_NoDup prefix (children : list (string * node)) :
  NoDup (map fst children) ->
  Forall (fun entry => forall prefix, NoDup (map fst (walk prefix (snd entry))))
    children ->
  NoDup (map fst
           (flat_map (fun entry => walk (prefix ++ [fst entry])%list (snd entry))
              children)).
Proof.
  induction children as [| entry rest IH]; cbn [map flat_map]; intros N F;
    [constructor |].
  inversion N as [| x l Hx N']; subst. inversion F as [| y l' Fe Fr]; subst.
  rewrite map_app. apply NoDup_append; [apply Fe | exact (IH N' Fr) |].
  intros p I1 I2.
  apply walk_below in I1. destruct I1 as [name [q E1]].
  apply in_map_iff in I2. destruct I2 as [[p' n] [E2 I2]]. cbn [fst] in E2. subst p'.
  apply in_flat_map in I2. destruct I2 as [e [Ie W]].
  assert (Ip : In p (map fst (walk (prefix ++ [fst e])%list (snd e)))).
  { apply in_map_iff. now exists (p, n). }
  apply walk_below in Ip. destruct Ip as [name' [q' E3]].
  rewrite E1, <- !app_assoc in E3. apply app_inv_head in E3.
  cbn [app] in E3. injection E3 as E3 _.
  apply Hx. rewrite E3. now apply in_map.
Qed.

Lemma walk_NoDup t :
  well_named t -> forall prefix, NoDup (map fst (walk prefix t)).
Proof.
  induction t as [data | | children IH] using node_induction; intros W prefix;
    [constructor | constructor |].
  destruct (well_named_children children W) as [N Wc].
  unfold walk; fold walk. rewrite map_app, map_map. cbn [fst].
  apply NoDup_append.
  - now apply child_paths_NoDup.
  - apply deeper_paths_NoDup; [exact N |].
    rewrite Forall_forall in *. intros entry I. apply (IH entry I), (Wc entry I).
  - intros p I1 I2.
    apply in_map_iff in I1. destruct I1 as [e [E1 _]].
    apply in_map_iff in I2. destruct I2 as [[p' n] [E2 I2]]. cbn [fst] in E2. subst p'.
    apply in_flat_map in I2. destruct I2 as [e' [_ W']].
    assert (Ip : In p (map fst (walk (prefix ++ [fst e'])%list (snd e')))).
    { apply in_map_iff. now exists (p, n). }
    apply walk_below in Ip. destruct Ip as [name [q E3]].
    rewrite <- E1, <- !app_assoc in E3. apply app_inv_head in E3.
    cbn [app] in E3. discriminate E3.
Qed.

Lemma files_in_names items p :
  In p (map fst (files_in items)) -> In p (map fst items).
Proof.
  intros I. apply in_map_iff in I. destruct I as [[p' data] [E I]]. cbn [fst] in E.
  subst p'. apply files_in_spec in I. apply in_map_iff. now exists (p, File data).
Qed.

Lemma files_in_NoDup items :
  NoDup (map fst items) -> NoDup (map fst (files_in items)).
Proof.
  induction items as [| item items IH]; intros N; [constructor |].
  cbn [map] in N. inversion N as [| x l Hx N']; subst.
  rewrite files_in_cons, map_app. apply NoDup_append.
  - destruct (snd item); cbn; constructor; [intros [] | constructor].
  - exact (IH N').
  - intros p I1 I2. apply files_in_names in I2.
    destruct (snd item); cbn in I1; try contradiction.
    destruct I1 as [<- | []]. exact (Hx I2).
Qed.

(** X20.  No name is written to the archive twice.  Over a directory in
    which, as in a file system, no two entries of a directory share a
    name, and when the archive refuses no file, the loop over [rglob]
    returns having written to the archive just opened one entry per
    regular file, and the relative paths it names them by are pairwise
    different; on disk the loop changes the archive and nothing else. *)
Theorem archive_names_unique base t w d :
  fs_tree (w_fs w) base = Some t ->
  well_named t ->
  fs_lambda (w_fs w) = Some d ->
  ld_zip d = Some (ZipArchive []) ->
  (forall n, env_zip_fails (w_env w) n = None) ->
  exists entries,
    fst ((files <- rglob base ;; zip_files base files) w) = Ret tt
    /\ w_fs (snd ((files <- rglob base ;; zip_files base files) w))
       = set_lambda (w_fs w) (with_zip d (ZipArchive entries))
    /\ NoDup (map fst entries)
    /\ archive_of (Some t) entries.
Proof.
  intros T W L A Z. exists (files_in (walk [] t)).
  destruct (zip_files_run base (walk [] t) w d [] Z L A) as [w' [E [F _]]].
  assert (B : (files <- rglob base ;; zip_files base files) w = (Ret tt, w')).
  { unfold bind at 1. unfold rglob. rewrite T. exact E. }
  rewrite B. cbn [fst snd]. split; [reflexivity |]. split; [exact F |]. split.
  - apply files_in_NoDup, walk_NoDup, W.
  - apply (archive_of_walk (Some t)).
Qed.

Lemma archive_names_unique_witness :
  let tree := Dir [("bootstrap", File "elf");
                   ("lib", Dir [("bootstrap", File "so")]);
                   ("runtimes", Dir [])] in
  let fs := {| fs_compose := true; fs_data := None;
               fs_lambda := Some {| ld_bin := None; ld_obj := None;
                                    ld_publish := Some tree;
                                    ld_zip := Some (ZipArchive []) |} |} in
  let run := (files <- rglob LambdaPublish ;; zip_files LambdaPublish files)
               (fresh (scripted [] [] []) fs) in
  exists entries,
    fst run = Ret tt
    /\ in_lambda (w_fs (snd run)) ld_zip = Some (ZipArchive entries)
    /\ NoDup (map fst entries).
Proof.
  cbn zeta.
  match goal with |- exists entries, fst (_ ?w0) = _ /\ _ =>
    destruct (archive_names_unique LambdaPublish
                (Dir [("bootstrap", File "elf");
                      ("lib", Dir [("bootstrap", File "so")]);
                      ("runtimes", Dir [])]) w0
                {| ld_bin := None; ld_obj := None;
                   ld_publish :=
                     Some (Dir [("bootstrap", File "elf");
                                ("lib", Dir [("bootstrap", File "so")]);
                                ("runtimes", Dir [])]);
                   ld_zip := Some (ZipArchive []) |})
      as [entries [E [F [N _]]]]
  end.
  - reflexivity.
  - cbn. repeat split; repeat constructor; cbn; intuition discriminate.
  - reflexivity.
  - reflexivity.
  - intros n. reflexivity.
  - exists entries. split; [exact E |]. split; [rewrite F; reflexivity | exact N].
Defined.

(** ** The conflict signature and the package *)

Lemma append_assoc3 (a b c : string) : ((a ++ b) ++ c = a ++ b ++ c)%string.
Proof.
  induction a as [| ch a IH]; [reflexivity |].
  change (String ch ((a ++ b) ++ c) = String ch (a ++ b ++ c))%string.
  now rewrite IH.
Qed.

Lemma is_substring_context u s pre post :
  is_substring u s -> is_substring u (pre ++ s ++ post).
Proof.
  intros [a [b ->]]. exists (pre ++ a)%string, (b ++ post)%string.
  now rewrite !append_assoc3.
Qed.

(** X21.  The conflict signature is a matter of the error text holding
    it somewhere: text put before or after an error that carries the
    signature (the CLI's own preamble, a trailing line) never hides it
    from the upsert of either deploy script. *)
Theorem conflict_survives_context pre err post :
  conflict_signature err = true ->
  conflict_signature (pre ++ err ++ post) = true.
Proof.
  rewrite !conflict_signature_spec. intros [H | [u [H L]]].
  - left. now apply is_substring_context.
  - right. exists u. split; [now apply is_substring_context | exact L].
Qed.

Lemma conflict_survives_context_witness :
  conflict_signature
    ("An error occurred (ResourceConflictException) when calling CreateFunction: "
     ++ "Function Already Exist" ++ "s: simple-lambda") = true.
Proof.
  apply (conflict_survives_context
           "An error occurred (" "ResourceConflictException"
           ") when calling CreateFunction: Function Already Exists: simple-lambda").
  reflexivity.
Defined.

Lemma deploy_lambda_unreadable w :
  readable (in_lambda (w_fs w) ld_zip) = false ->
  exists e w',
    DeployZip.deploy_lambda LambdaZip w = (Raise e, w')
    /\ is_Exception e = true
    /\ printed_only w w'.
Proof.
  intros X. unfold DeployZip.deploy_lambda. run_step.
  unfold bind at 1. unfold read_file. cbn [w_fs with_trace].
  destruct (in_lambda (w_fs w) ld_zip) as [[entries | |] |]; try discriminate X;
    eexists _, _; (split; [reflexivity |]); (split; [reflexivity |]);
    apply printed_only_print.
Qed.

(** X22.  The ZIP deployment reads the package before it talks to
    LocalStack: when [lambda.zip] is missing or is a directory, the
    deploy step dies on the exception of the read, which nothing
    catches, and has launched no command by then, so the function in
    LocalStack is left untouched. *)
Theorem deploy_needs_readable_package w :
  readable (in_lambda (w_fs w) ld_zip) = false ->
  (exists e,
     fst (DeployZip.deploy_lambda LambdaZip w) = Raise e /\ is_Exception e = true)
  /\ exit_status (fst (DeployZip.deploy_lambda LambdaZip w)) = Some 1
  /\ printed_only w (snd (DeployZip.deploy_lambda LambdaZip w)).
Proof.
  intros X. destruct (deploy_lambda_unreadable w X) as [e [w' [E [Ex F]]]].
  rewrite E. cbn [fst snd]. split; [now exists e |]. split; [| exact F].
  destruct e; try reflexivity. discriminate Ex.
Qed.

Lemma deploy_needs_readable_package_witness :
  let w := fresh (scripted [] [] []) blank_fs in
  fst (DeployZip.deploy_lambda LambdaZip w) = Raise FileNotFoundError
  /\ commands (snd (DeployZip.deploy_lambda LambdaZip w)) = [].
Proof.
  cbn zeta.
  destruct (deploy_needs_readable_package (fresh (scripted [] [] []) blank_fs) eq_refl)
    as [_ [_ [C _]]].
  split; [reflexivity | exact C].
Defined.


(** ** Nothing to clean up *)

Lemma blank_listing_run cmd w :
  lists_nothing (env_proc (w_env w) (w_nproc w)) = true ->
  exists r w',
    Teardown.run_command cmd false true w = (Ret r, w')
    /\ Teardown.listed r = None
    /\ launch_only w cmd false w'.
Proof.
  intros B.
  destruct (teardown_run_command_launch cmd false true w) as [w' [E [L _]]].
  destruct (env_proc (w_env w) (w_nproc w)) as [| rc out err | msg | rc];
    try discriminate B.
  cbn in E, B. eexists _, w'. split; [exact E |]. split; [| exact L].
  unfold Teardown.listed, completed. cbn [stdout].
  now destruct (PyStr.truthy (PyStr.strip out)).
Qed.

Lemma nothing_listed_run w :
  lists_nothing (env_proc (w_env w) (w_nproc w)) = true ->
  (exists w',
     Teardown.cleanup_containers w = (Ret tt, w')
     /\ launch_only w list_containers false w'
     /\ hd_error (w_trace w') = Some (EvPrint "   No orphaned containers found"))
  /\ (exists w',
        Teardown.cleanup_images w = (Ret tt, w')
        /\ launch_only w list_images false w'
        /\ hd_error (w_trace w') = Some (EvPrint "   No LocalStack images found")).
Proof.
  intros B. split.
  - unfold Teardown.cleanup_containers. run_step. fold list_containers.
    match goal with |- context [bind (Teardown.run_command _ _ _) _ ?x] =>
      destruct (blank_listing_run list_containers x B) as [r [w1 [E1 [Li L1]]]]
    end.
    apply launch_only_after with (w0 := w) in L1; [| apply printed_only_print].
    rewrite (bind_run _ _ _ _ _ E1), Li.
    eexists. split; [reflexivity |]. split; [| reflexivity].
    apply launch_only_before with w1; [exact L1 | apply printed_only_print].
  - unfold Teardown.cleanup_images. run_step. fold list_images.
    match goal with |- context [bind (Teardown.run_command _ _ _) _ ?x] =>
      destruct (blank_listing_run list_images x B) as [r [w1 [E1 [Li L1]]]]
    end.
    apply launch_only_after with (w0 := w) in L1; [| apply printed_only_print].
    rewrite (bind_run _ _ _ _ _ E1), Li.
    eexists. split; [reflexivity |]. split; [| reflexivity].
    apply launch_only_before with w1; [exact L1 | apply printed_only_print].
Qed.

(** X23.  With nothing to clean up the teardown asks nothing: when the
    listing of containers, resp. images, runs and shows only white
    space, the clean-up step says that nothing was found and returns,
    having launched the listing and nothing else and without a prompt,
    whatever the listing exited with. *)
Theorem nothing_listed_nothing_asked w :
  lists_nothing (env_proc (w_env w) (w_nproc w)) = true ->
  (fst (Teardown.cleanup_containers w) = Ret tt
   /\ launch_only w list_containers false (snd (Teardown.cleanup_containers w))
   /\ hd_error (w_trace (snd (Teardown.cleanup_containers w)))
      = Some (EvPrint "   No orphaned containers found"))
  /\ (fst (Teardown.cleanup_images w) = Ret tt
      /\ launch_only w list_images false (snd (Teardown.cleanup_images w))
      /\ hd_error (w_trace (snd (Teardown.cleanup_images w)))
         = Some (EvPrint "   No LocalStack images found")).
Proof.
  intros B. destruct (nothing_listed_run w B) as [[w1 [E1 R1]] [w2 [E2 R2]]].
  rewrite E1, E2. cbn [fst snd]. split; (split; [reflexivity | assumption]).
Qed.

Lemma nothing_listed_nothing_asked_witness :
  let w := fresh (scripted [Exited 1 PyStr.NL "daemon not reachable"] []
                    [Some "y"]) blank_fs in
  fst (Teardown.cleanup_containers w) = Ret tt
  /\ w_ninput (snd (Teardown.cleanup_containers w)) = 0%nat
  /\ commands (snd (Teardown.cleanup_images w)) = [(list_images, false)].
Proof.
  cbn zeta.
  destruct (nothing_listed_nothing_asked
              (fresh (scripted [Exited 1 PyStr.NL "daemon not reachable"] []
                        [Some "y"]) blank_fs) eq_refl)
    as [[E [[_ [_ [_ [_ [_ [_ [N _]]]]]]] _]] [_ [[C _] _]]].
  split; [exact E |]. split; [exact N | exact C].
Defined.

(** ** The ZIP deployment as a whole *)



